(** * blockstatd: collection, formatting and delivery of block-device counters

    A shallow embedding of [blockstatd.py] (graphite-blockstat 0.2.2b) and the
    properties of its collection-and-delivery pipeline.

    Conventions of the embedding.
    - Python [str] values are [string]s over ASCII characters.
    - Python [int] values are [Z].
    - A Python [dict] is an association list in insertion order: iteration
      order is observable through [BlockStat.sendto].
    - A call that may raise returns a [result]; the exception classes are the
      constructors of [exn].
    - What the process reads from outside (clock, files, host name, local time
      zone, the network's answers) is passed in explicitly; what it writes
      (standard output, the diagnostic stream, socket calls) is accumulated in
      chronological lists. *)

From Stdlib Require Import ZArith List String Ascii Bool Lia.
From Stdlib Require Import Numbers.DecimalString.
From Stdlib Require Numbers.DecimalPos.
Import ListNotations.

Local Open Scope bool_scope.
Local Open Scope string_scope.
Local Open Scope Z_scope.

(** ** Exceptions and results *)

Inductive exn : Type :=
| IOError
| ValueError
| IndexError
| OverflowError.

Inductive result (A : Type) : Type :=
| Ok (a : A)
| Raise (e : exn).

Arguments Ok {A} a.
Arguments Raise {A} e.

Definition bind {A B : Type} (r : result A) (k : A -> result B) : result B :=
  match r with
  | Ok a => k a
  | Raise e => Raise e
  end.

Notation "x <- r ;; k" := (bind r (fun x => k))
  (at level 61, r at next level, right associativity).

Definition raises {A : Type} (r : result A) : Prop :=
  exists e, r = Raise e.

(** ** The fragment of Python's built-in [str] and [int] the daemon uses *)

Module Py.

Definition LF : ascii := "010"%char.

(** The one-character string holding a line feed, Python's ["\n"]. *)
Definition nl : string := String LF EmptyString.

(** [str.isspace] on one ASCII character: TAB, LF, VT, FF, CR, the four
    separators FS, GS, RS, US, and the space.  The same class is matched by
    [\s] in a [str] pattern. *)
Definition isspace (c : ascii) : bool :=
  let n := nat_of_ascii c in
  (((9 <=? n) && (n <=? 13)) || ((28 <=? n) && (n <=? 32)))%nat.

Definition isdigit (c : ascii) : bool :=
  let n := nat_of_ascii c in
  ((48 <=? n) && (n <=? 57))%nat.

Definition digit_val (c : ascii) : nat := (nat_of_ascii c - 48)%nat.

Definition is_empty (s : string) : bool :=
  match s with
  | EmptyString => true
  | String _ _ => false
  end.

(** [s.lstrip()] *)
Fixpoint lstrip (s : string) : string :=
  match s with
  | EmptyString => EmptyString
  | String c r => if isspace c then lstrip r else s
  end.

(** [s.rstrip()] *)
Fixpoint rstrip (s : string) : string :=
  match s with
  | EmptyString => EmptyString
  | String c r =>
      let r' := rstrip r in
      if isspace c && is_empty r' then EmptyString else String c r'
  end.

(** [re.sub("\s+", " ", s)]: every maximal run of white space becomes one
    space.  [in_run] tells that the previous character was white space, whose
    run has already been replaced. *)
Fixpoint collapse (in_run : bool) (s : string) : string :=
  match s with
  | EmptyString => EmptyString
  | String c r =>
      if isspace c
      then (if in_run then collapse true r else String " " (collapse true r))
      else String c (collapse false r)
  end.

Definition re_sub_ws (s : string) : string := collapse false s.

(** [s.split(sep)] for a one-character separator: no field is dropped, and
    the empty string splits into one empty field. *)
Fixpoint split (sep : ascii) (s : string) : list string :=
  match s with
  | EmptyString => [EmptyString]
  | String c r =>
      if (c =? sep)%char then EmptyString :: split sep r
      else match split sep r with
           | f :: fs => String c f :: fs
           | [] => [String c EmptyString]
           end
  end.

(** Digits of a decimal literal after the sign.  An underscore is accepted
    between two digits only; [after_digit] tells that the previous character
    was a digit. *)
Fixpoint int_digits (after_digit : bool) (acc : Z) (s : string) : option Z :=
  match s with
  | EmptyString => if after_digit then Some acc else None
  | String c r =>
      if isdigit c then int_digits true (10 * acc + Z.of_nat (digit_val c)) r
      else if (c =? "_")%char && after_digit then int_digits false acc r
      else None
  end.

(** The white space [int] skips around an ASCII literal: TAB, LF, VT, FF,
    CR and the space.  The separators FS, GS, RS and US, which [str.isspace]
    accepts, are not skipped: [int] raises [ValueError] on them. *)
Definition int_space (c : ascii) : bool :=
  let n := nat_of_ascii c in
  (((9 <=? n) && (n <=? 13)) || (n =? 32))%nat.

Fixpoint int_lstrip (s : string) : string :=
  match s with
  | EmptyString => EmptyString
  | String c r => if int_space c then int_lstrip r else s
  end.

Fixpoint int_rstrip (s : string) : string :=
  match s with
  | EmptyString => EmptyString
  | String c r =>
      let r' := int_rstrip r in
      if int_space c && is_empty r' then EmptyString else String c r'
  end.

(** [int(s)] in base ten: the white space of [int_space] around the literal
    is ignored, one sign is allowed, anything else raises [ValueError].  No
    bound is put on the number of digits. *)
Definition int (s : string) : result Z :=
  let body := int_rstrip (int_lstrip s) in
  let signed :=
    match body with
    | String c r =>
        if (c =? "-")%char then option_map Z.opp (int_digits false 0 r)
        else if (c =? "+")%char then int_digits false 0 r
        else int_digits false 0 body
    | EmptyString => None
    end in
  match signed with
  | Some z => Ok z
  | None => Raise ValueError
  end.

(** [str(n)] for an integer. *)
Definition str (n : Z) : string := NilZero.string_of_int (Z.to_int n).

(** [tpl.format(a0, a1, ...)] for templates whose replacement fields are a single
    decimal index in braces, the only kind the daemon writes. *)
Fixpoint format (tpl : string) (args : list string) : result string :=
  match tpl with
  | EmptyString => Ok EmptyString
  | String c rest =>
      if (c =? "{")%char then
        match rest with
        | String d (String e rest') =>
            if isdigit d && (e =? "}")%char then
              match nth_error args (digit_val d) with
              | Some a => r <- format rest' args ;; Ok (a ++ r)
              | None => Raise IndexError
              end
            else Raise ValueError
        | _ => Raise ValueError
        end
      else r <- format rest args ;; Ok (String c r)
  end.

(** [s.split(sep, 1)[0]]: the part of [s] before the first [sep]. *)
Fixpoint before_first (sep : ascii) (s : string) : string :=
  match s with
  | EmptyString => EmptyString
  | String c r => if (c =? sep)%char then EmptyString else String c (before_first sep r)
  end.

(** [c in s] for a one-character [c]. *)
Fixpoint contains (c : ascii) (s : string) : bool :=
  match s with
  | EmptyString => false
  | String d r => (d =? c)%char || contains c r
  end.

(** [s[:1]]: the first character as a string, empty for the empty string. *)
Definition first_one (s : string) : string :=
  match s with
  | EmptyString => EmptyString
  | String c _ => String c EmptyString
  end.

(** The two parts of [s] around the last [sep], the second being [None]
    when [s] has no [sep]. *)
Fixpoint rpartition (sep : ascii) (s : string) : string * option string :=
  match s with
  | EmptyString => (EmptyString, None)
  | String c r =>
      match rpartition sep r with
      | (h, Some t) => (String c h, Some t)
      | (h, None) =>
          if (c =? sep)%char then (EmptyString, Some h) else (String c h, None)
      end
  end.

(** [s.rsplit(sep, 1)] for a one-character separator: one or two parts. *)
Definition rsplit1 (sep : ascii) (s : string) : list string :=
  match rpartition sep s with
  | (h, Some t) => [h; t]
  | (h, None) => [h]
  end.

End Py.

(** ** The fragment of [datetime] used by the human formatter *)

Module Datetime.

Record datetime : Type := mk_datetime {
  year : Z; month : Z; day : Z; hour : Z; minute : Z; second : Z
}.

Definition MINYEAR : Z := 1.
Definition MAXYEAR : Z := 9999.

(** Proleptic Gregorian date of the day that lies [days] days after
    1970-01-01, counted in eras of 400 years starting on a 1st of March. *)
Definition civil_from_days (days : Z) : Z * Z * Z :=
  let z := days + 719468 in
  let era := z / 146097 in
  let doe := z mod 146097 in
  let yoe := (doe - doe / 1460 + doe / 36524 - doe / 146096) / 365 in
  let doy := doe - (365 * yoe + yoe / 4 - yoe / 100) in
  let mp := (5 * doy + 2) / 153 in
  let d := doy - (153 * mp + 2) / 5 + 1 in
  let m := if mp <? 10 then mp + 3 else mp - 9 in
  let y := yoe + era * 400 + (if m <=? 2 then 1 else 0) in
  (y, m, d).

(** [datetime.datetime.fromtimestamp(t)]: local time, [utcoffset t] being the
    offset in seconds of the local zone from UTC at instant [t].  A year
    outside [MINYEAR..MAXYEAR] raises. *)
Definition fromtimestamp (utcoffset : Z -> Z) (t : Z) : result datetime :=
  let local := t + utcoffset t in
  let sod := local mod 86400 in
  let '(y, m, d) := civil_from_days (local / 86400) in
  if (y <? MINYEAR) || (MAXYEAR <? y) then Raise ValueError
  else Ok (mk_datetime y m d (sod / 3600) (sod mod 3600 / 60) (sod mod 60)).

Definition digit_char (n : Z) : ascii := ascii_of_nat (48 + Z.to_nat (n mod 10)).

(** Two and four decimal digits, padded with zeros. *)
Definition pad2 (n : Z) : string :=
  String (digit_char (n / 10)) (String (digit_char n) EmptyString).

Definition pad4 (n : Z) : string :=
  String (digit_char (n / 1000)) (String (digit_char (n / 100)) (pad2 n)).

(** [dt.strftime('%Y-%m-%d %H:%M:%S')], the year written with four digits. *)
Definition strftime (dt : datetime) : string :=
  pad4 (year dt) ++ "-" ++ pad2 (month dt) ++ "-" ++ pad2 (day dt) ++ " " ++
  pad2 (hour dt) ++ ":" ++ pad2 (minute dt) ++ ":" ++ pad2 (second dt).

End Datetime.

(** ** The fragment of [socket] used by the graphite buffer *)

Module Socket.

Inductive state : Type := Unconnected | Connected | Closed.

(** Calls made on sockets, with their outcome ([ok = false]: the call raised). *)
Inductive event : Type :=
| Create (fd : nat)
| Connect (fd : nat) (server : string) (port : Z) (ok : bool)
| Sendall (fd : nat) (payload : string) (ok : bool)
| Close (fd : nat).

(** [sock.connect(addr)].  The network is asked only through a socket that
    is open and not yet connected, and [net_ok] is its answer; on a closed
    socket the call raises (bad file descriptor), on a connected one too.
    A refused connection leaves the socket open and unconnected, so that
    [connect] may be called on it again: the behaviour of Linux, the only
    system that has the [/sys/block] files the daemon reads. *)
Definition connect (s : state) (net_ok : bool) : state * bool :=
  match s with
  | Unconnected => if net_ok then (Connected, true) else (Unconnected, false)
  | Connected => (Connected, false)
  | Closed => (Closed, false)
  end.

(** [sock.sendall(data)]: raises unless the socket is connected and the
    network takes all of the data. *)
Definition sendall (s : state) (net_ok : bool) : state * bool :=
  match s with
  | Connected => (Connected, net_ok)
  | _ => (s, false)
  end.

(** [sock.close()]: never raises, also on a socket already closed. *)
Definition close (s : state) : state := Closed.

End Socket.

(** ** Logging *)

(** The members [error], [warn], [info], [debug] of [LogLevel]; the plain
    names are those of the logging functions below. *)
Inductive LogLevel : Type := error_level | warn_level | info_level | debug_level.

Definition LogLevel_value (l : LogLevel) : Z :=
  match l with
  | error_level => 0
  | warn_level => 1
  | info_level => 2
  | debug_level => 3
  end.

Definition LogLevel_tag (l : LogLevel) : string :=
  match l with
  | error_level => "E:"
  | warn_level => "W:"
  | info_level => "I:"
  | debug_level => "D:"
  end.

(** What the process has written so far, the global [loglevel], and the
    number of sockets it has created. *)
Record World : Type := mk_World {
  loglevel : LogLevel;
  stdout : list string;
  stderr : list string;
  network : list Socket.event;
  next_fd : nat
}.

(** [print(text)]: the text and a line feed go to standard output. *)
Definition print (text : string) (w : World) : World :=
  mk_World (loglevel w) (stdout w ++ [text ++ Py.nl]) (stderr w) (network w) (next_fd w).

(** [error], [warn], [info], [debug]: a line on the diagnostic stream when
    the global level allows it.  The text of a logged exception is not
    modelled: [msg] is the fixed part of the line. *)
Definition log (lvl : LogLevel) (msg : string) (w : World) : World :=
  if LogLevel_value lvl <=? LogLevel_value (loglevel w)
  then mk_World (loglevel w) (stdout w)
         (stderr w ++ [LogLevel_tag lvl ++ " " ++ msg ++ Py.nl]) (network w) (next_fd w)
  else w.

Definition error := log error_level.
Definition warn := log warn_level.
Definition info := log info_level.
Definition debug := log debug_level.

Definition syscall (e : Socket.event) (w : World) : World :=
  mk_World (loglevel w) (stdout w) (stderr w) (network w ++ [e]) (next_fd w).

(** [socket.socket()]: a descriptor never handed out before. *)
Definition socket_socket (w : World) : nat * World :=
  let fd := next_fd w in
  (fd, mk_World (loglevel w) (stdout w) (stderr w)
         (network w ++ [Socket.Create fd]) (S fd)).

(** ** [StatType] *)

Inductive StatType : Type :=
| read_io
| read_merges
| read_sectors
| read_ticks
| write_io
| write_merges
| write_sectors
| write_ticks
| in_flight
| io_ticks
| time_in_queue.

Definition StatType_value (t : StatType) : nat :=
  match t with
  | read_io => 0
  | read_merges => 1
  | read_sectors => 2
  | read_ticks => 3
  | write_io => 4
  | write_merges => 5
  | write_sectors => 6
  | write_ticks => 7
  | in_flight => 8
  | io_ticks => 9
  | time_in_queue => 10
  end%nat.

Definition StatType_name (t : StatType) : string :=
  match t with
  | read_io => "read_io"
  | read_merges => "read_merges"
  | read_sectors => "read_sectors"
  | read_ticks => "read_ticks"
  | write_io => "write_io"
  | write_merges => "write_merges"
  | write_sectors => "write_sectors"
  | write_ticks => "write_ticks"
  | in_flight => "in_flight"
  | io_ticks => "io_ticks"
  | time_in_queue => "time_in_queue"
  end.

(** Iterating over the enumeration visits its members in definition order. *)
Definition StatType_members : list StatType :=
  [read_io; read_merges; read_sectors; read_ticks; write_io; write_merges;
   write_sectors; write_ticks; in_flight; io_ticks; time_in_queue].

Definition StatType_eqb (a b : StatType) : bool :=
  (StatType_value a =? StatType_value b)%nat.

(** ** Send buffers *)

(** The two concrete buffer classes; the graphite one carries
    [_server_and_port]. *)
Inductive buffer_class : Type :=
| StdoutBuffer
| GraphiteBuffer (server : string) (port : Z).

Record ASendBuffer : Type := mk_ASendBuffer {
  class_of : buffer_class;
  _messages : string
}.

Definition put (self : ASendBuffer) (message : string) : ASendBuffer :=
  let m := if Py.is_empty (_messages self)
           then _messages self
           else _messages self ++ Py.nl in
  mk_ASendBuffer (class_of self) (m ++ message).

Definition get_messages (self : ASendBuffer) : string := _messages self.

Definition clear (self : ASendBuffer) : ASendBuffer :=
  mk_ASendBuffer (class_of self) EmptyString.

(** [ASendBuffer.__init__], reached from both constructors. *)
Definition new_buffer (c : buffer_class) : ASendBuffer :=
  clear (mk_ASendBuffer c EmptyString).

(** [StdoutBuffer.flush] *)
Definition StdoutBuffer_flush (self : ASendBuffer) (w : World) : ASendBuffer * World :=
  (clear self, print (_messages self) w).

(** The answers of the network during one call of [GraphiteBuffer.flush]:
    whether the server accepts the connection asked for in attempt [n], and
    whether it takes the data sent in attempt [n]. *)
Record Net : Type := mk_Net {
  accepts : nat -> bool;
  delivers : nat -> bool
}.

(** The body of [for attempt in range(0, 3)] in [GraphiteBuffer.flush], on
    the attempts still to run.  [sock] is the state of [graphite_server],
    the one socket created before the loop. *)
Fixpoint flush_attempts (net : Net) (fd : nat) (server : string) (port : Z)
    (attempts : list nat) (sock : Socket.state) (self : ASendBuffer) (w : World)
    : ASendBuffer * Socket.state * World :=
  match attempts with
  | [] => (self, sock, w)
  | attempt :: rest =>
      let (sock1, connected) := Socket.connect sock (accepts net attempt) in
      let w1 := syscall (Socket.Connect fd server port connected) w in
      if connected then
        let (sock2, sent) := Socket.sendall sock1 (delivers net attempt) in
        let w2 := syscall (Socket.Sendall fd (get_messages self ++ Py.nl) sent) w1 in
        if sent then (clear self, sock2, w2)
        else
          flush_attempts net fd server port rest (Socket.close sock2) self
            (warn "Failed to send to the graphite server: "
               (syscall (Socket.Close fd) w2))
      else
        flush_attempts net fd server port rest sock1 self
          (warn "Failed to connect to the graphite server: " w1)
  end.

(** [GraphiteBuffer.flush] *)
Definition GraphiteBuffer_flush (net : Net) (server : string) (port : Z)
    (self : ASendBuffer) (w : World) : ASendBuffer * World :=
  let (graphite_server, w0) := socket_socket w in
  let w1 := debug "Connecting to graphite server." w0 in
  let '(self', _, w2) :=
    flush_attempts net graphite_server server port (seq 0 3)
      Socket.Unconnected self w1 in
  let w3 := debug "Closing connection to graphite server." w2 in
  (self', syscall (Socket.Close graphite_server) w3).

(** [send_buffer.flush()], dispatched on the class of the buffer. *)
Definition flush (net : Net) (self : ASendBuffer) (w : World) : ASendBuffer * World :=
  match class_of self with
  | StdoutBuffer => StdoutBuffer_flush self w
  | GraphiteBuffer server port => GraphiteBuffer_flush net server port self w
  end.

(** ** Output formats *)

(** The value of [BlockStat._time]: the integer [int(time.time())], or the
    float literal [0.0] of the constructor and of the failure branch. *)
Inductive timeval : Type :=
| TInt (n : Z)
| TFloatZero.

Definition time_seconds (t : timeval) : Z :=
  match t with
  | TInt n => n
  | TFloatZero => 0
  end.

(** How [format] renders the value. *)
Definition time_repr (t : timeval) : string :=
  match t with
  | TInt n => Py.str n
  | TFloatZero => "0.0"
  end.

(** Ambient state of the host that the formatters read. *)
Record Host : Type := mk_Host {
  gethostname : string;
  utcoffset : Z -> Z
}.

Inductive IOutput : Type := HumanOutput | GraphiteOutput.

(** [HumanOutput.send] *)
Definition HumanOutput_send (host : Host) (send_buffer : ASendBuffer)
    (the_time : timeval) (stat_type : StatType) (block : string) (stat : Z)
    : result ASendBuffer :=
  dt <- Datetime.fromtimestamp (utcoffset host) (time_seconds the_time) ;;
  let pretty_time := Datetime.strftime dt in
  line <- Py.format "{0} {2}[{1}]: {3}"
            [pretty_time; StatType_name stat_type; block; Py.str stat] ;;
  Ok (put send_buffer line).

(** [GraphiteOutput.send] *)
Definition GraphiteOutput_send (host : Host) (send_buffer : ASendBuffer)
    (the_time : timeval) (stat_type : StatType) (block : string) (stat : Z)
    : result ASendBuffer :=
  let short_hostname := Py.before_first "." (gethostname host) in
  line <- Py.format "blockstat.{4}.{2}.{1} {3} {0}"
            [time_repr the_time; StatType_name stat_type; block; Py.str stat;
             short_hostname] ;;
  Ok (put send_buffer line).

Definition send (output : IOutput) : Host -> ASendBuffer -> timeval ->
    StatType -> string -> Z -> result ASendBuffer :=
  match output with
  | HumanOutput => HumanOutput_send
  | GraphiteOutput => GraphiteOutput_send
  end.

(** ** [BlockStat] *)

(** A [Dict[StatType, int]]: pairs in insertion order, one per key. *)
Definition dict : Type := list (StatType * Z).

(** [d[k] = v]: a key already present keeps its place. *)
Fixpoint dict_set (d : dict) (k : StatType) (v : Z) : dict :=
  match d with
  | [] => [(k, v)]
  | (k', v') :: r =>
      if StatType_eqb k' k then (k', v) :: r else (k', v') :: dict_set r k v
  end.

Definition dict_keys (d : dict) : list StatType := map fst d.

Record BlockStat : Type := mk_BlockStat {
  _block : string;
  _stats : dict;
  _time : timeval
}.

(** [BlockStat.__init__] *)
Definition new_BlockStat (block : string) : BlockStat :=
  mk_BlockStat block [] TFloatZero.

(** [self._time = t] and [self._stats[k] = v] *)
Definition set_time (self : BlockStat) (t : timeval) : BlockStat :=
  mk_BlockStat (_block self) (_stats self) t.

Definition set_stat (self : BlockStat) (k : StatType) (v : Z) : BlockStat :=
  mk_BlockStat (_block self) (dict_set (_stats self) k v) (_time self).

(** What one call of [collect] reads from outside: the clock, truncated to
    whole seconds, and the file system ([None]: opening or reading the path
    raises [IOError]). *)
Record Env : Type := mk_Env {
  time_time : Z;
  open_read : string -> option string
}.

(** The loop [for stat_type in StatType] of [collect], on the members still
    to visit. *)
Fixpoint collect_fields (statfile : string) (blockstat_map : list string)
    (types : list StatType) (self : BlockStat) (w : World)
    : result unit * BlockStat * World :=
  match types with
  | [] => (Ok tt, self, w)
  | stat_type :: rest =>
      match nth_error blockstat_map (StatType_value stat_type) with
      | None => (Raise IndexError, self, w)
      | Some field =>
          match Py.int field with
          | Ok n =>
              collect_fields statfile blockstat_map rest
                (set_stat self stat_type n) w
          | Raise ValueError =>
              (Raise ValueError, self, error ("Got garbage from " ++ statfile) w)
          | Raise e => (Raise e, self, w)
          end
      end
  end.

(** [BlockStat.collect].  In the [IOError] branch the source assigns
    [_stats = dict()], a name local to the method: [self._stats] is not
    assigned there. *)
Definition collect (env : Env) (self : BlockStat) (w : World)
    : result unit * BlockStat * World :=
  match Py.format "/sys/block/{0}/stat" [_block self] with
  | Raise e => (Raise e, self, w)
  | Ok statfile =>
      let self1 := set_time self (TInt (time_time env)) in
      match open_read env statfile with
      | None =>
          let _stats : dict := [] in
          (Ok tt, set_time self1 TFloatZero, warn EmptyString w)
      | Some text =>
          let blockstat_str := Py.re_sub_ws (Py.rstrip (Py.lstrip text)) in
          let blockstat_map := Py.split " " blockstat_str in
          collect_fields statfile blockstat_map StatType_members self1 w
      end
  end.

(** The loop of [BlockStat.sendto] over [self._stats.items()]. *)
Fixpoint sendto_items (output : IOutput) (host : Host) (the_time : timeval)
    (block : string) (items : dict) (send_buffer : ASendBuffer)
    : result ASendBuffer :=
  match items with
  | [] => Ok send_buffer
  | (stat_type, stat) :: rest =>
      b <- send output host send_buffer the_time stat_type block stat ;;
      sendto_items output host the_time block rest b
  end.

(** [BlockStat.sendto] *)
Definition sendto (host : Host) (self : BlockStat) (output : IOutput)
    (send_buffer : ASendBuffer) : result ASendBuffer :=
  sendto_items output host (_time self) (_block self) (_stats self) send_buffer.

(** ** [MainClass._do_metrics] *)

(** The longest sleep, in seconds, whose count of nanoseconds fits the
    signed 64-bit integer [time.sleep] converts its argument to. *)
Definition sleep_max : Z := 9223372036.

(** [time.sleep(secs)] for an integer.  The conversion to nanoseconds raises
    [OverflowError] when the count does not fit; a negative length raises
    [ValueError]; otherwise the system is asked to sleep, and its refusal
    raises [OSError], the class Python 3 also names [IOError].
    [clock_nanosleep secs] tells whether the system sleeps that long. *)
Definition sleep (clock_nanosleep : Z -> bool) (secs : Z) : result unit :=
  if (secs <? - sleep_max) || (sleep_max <? secs) then Raise OverflowError
  else if secs <? 0 then Raise ValueError
  else if clock_nanosleep secs then Ok tt
  else Raise IOError.

(** What one turn of the loop observes: [env_of i] by the [collect] of the
    [i]-th device, [host] by the formatters, [net] by the flush,
    [clock_nanosleep] by the sleep that ends the turn. *)
Record Cycle : Type := mk_Cycle {
  env_of : nat -> Env;
  host : Host;
  net : Net;
  clock_nanosleep : Z -> bool
}.

(** [for blockstat in blockstats: blockstat.collect()], from device [i] on. *)
Fixpoint collect_all (envs : nat -> Env) (i : nat) (blockstats : list BlockStat)
    (w : World) : result unit * list BlockStat * World :=
  match blockstats with
  | [] => (Ok tt, [], w)
  | blockstat :: rest =>
      match collect (envs i) blockstat w with
      | (Ok _, blockstat', w') =>
          let '(r, rest', w'') := collect_all envs (S i) rest w' in
          (r, blockstat' :: rest', w'')
      | (Raise e, blockstat', w') => (Raise e, blockstat' :: rest, w')
      end
  end.

(** [for blockstat in blockstats: blockstat.sendto(output, send_buffer)] *)
Fixpoint sendto_all (host : Host) (output : IOutput) (blockstats : list BlockStat)
    (send_buffer : ASendBuffer) : result ASendBuffer :=
  match blockstats with
  | [] => Ok send_buffer
  | blockstat :: rest =>
      b <- sendto host blockstat output send_buffer ;;
      sendto_all host output rest b
  end.

(** Where the process stands: still in the loop, or ended by an exception
    that nothing caught. *)
Inductive run : Type :=
| Running (blockstats : list BlockStat) (send_buffer : ASendBuffer) (w : World)
| Terminated (e : exn) (w : World).

(** [while True] of [_do_metrics], for as many turns as observations are
    supplied.  [interval] is [MainClass._interval], an integer once
    [_set_default_opts] has run.  The loop has no exit of its own and no
    handler: an exception of [collect], of [sendto] or of [sleep] ends the
    process. *)
Fixpoint _do_metrics (interval : Z) (cycles : list Cycle) (output : IOutput)
    (send_buffer : ASendBuffer) (blockstats : list BlockStat) (w : World) : run :=
  match cycles with
  | [] => Running blockstats send_buffer w
  | c :: later =>
      match collect_all (env_of c) 0 blockstats w with
      | (Raise e, _, w1) => Terminated e w1
      | (Ok _, blockstats1, w1) =>
          match sendto_all (host c) output blockstats1 send_buffer with
          | Raise e => Terminated e w1
          | Ok send_buffer1 =>
              let (send_buffer2, w2) := flush (net c) send_buffer1 w1 in
              match sleep (clock_nanosleep c) interval with
              | Raise e => Terminated e w2
              | Ok _ =>
                  _do_metrics interval later output send_buffer2 blockstats1 w2
              end
          end
      end
  end.

(** ** [MainClass]: options and defaults *)

Inductive OutForm : Type := graphite | human.

Definition OutForm_value (f : OutForm) : string :=
  match f with
  | graphite => "graphite"
  | human => "human"
  end.

(** [OutForm(a)] when [a] is the value of a member. *)
Definition OutForm_of_value (a : string) : option OutForm :=
  if (a =? OutForm_value graphite)%string then Some graphite
  else if (a =? OutForm_value human)%string then Some human
  else None.

(** The class attributes of [MainClass] that hold the configuration;
    [None] is Python's [None].  [_blocks] is a set: a list without
    repetition, whose order stands for the unspecified order of iteration. *)
Record MainClass : Type := mk_MainClass {
  _blocks : list string;
  _interval : option Z;
  _pidfile : option string;
  _daemonize : option bool;
  _outform : option OutForm;
  _server : option string;
  _server_port : option Z
}.

Definition MainClass_initial : MainClass :=
  mk_MainClass [] None None None None None None.

(** [MainClass._blocks.add(a)] *)
Definition blocks_add (a : string) (cfg : MainClass) : MainClass :=
  mk_MainClass
    (if existsb (String.eqb a) (_blocks cfg) then _blocks cfg
     else _blocks cfg ++ [a])
    (_interval cfg) (_pidfile cfg) (_daemonize cfg) (_outform cfg)
    (_server cfg) (_server_port cfg).

Definition set_interval (cfg : MainClass) (n : Z) : MainClass :=
  mk_MainClass (_blocks cfg) (Some n) (_pidfile cfg) (_daemonize cfg)
    (_outform cfg) (_server cfg) (_server_port cfg).

Definition set_pidfile (cfg : MainClass) (a : string) : MainClass :=
  mk_MainClass (_blocks cfg) (_interval cfg) (Some a) (_daemonize cfg)
    (_outform cfg) (_server cfg) (_server_port cfg).

Definition set_daemonize (cfg : MainClass) (b : bool) : MainClass :=
  mk_MainClass (_blocks cfg) (_interval cfg) (_pidfile cfg) (Some b)
    (_outform cfg) (_server cfg) (_server_port cfg).

Definition set_outform (cfg : MainClass) (f : OutForm) : MainClass :=
  mk_MainClass (_blocks cfg) (_interval cfg) (_pidfile cfg) (_daemonize cfg)
    (Some f) (_server cfg) (_server_port cfg).

Definition set_server (cfg : MainClass) (a : string) : MainClass :=
  mk_MainClass (_blocks cfg) (_interval cfg) (_pidfile cfg) (_daemonize cfg)
    (_outform cfg) (Some a) (_server_port cfg).

Definition set_server_port (cfg : MainClass) (n : Z) : MainClass :=
  mk_MainClass (_blocks cfg) (_interval cfg) (_pidfile cfg) (_daemonize cfg)
    (_outform cfg) (_server cfg) (Some n).

(** How a step of the start-up ends: it goes on, the process exits with a
    status, or an [assert] fails. *)
Inductive startup (A : Type) : Type :=
| Proceed (a : A) (w : World)
| Exit (status : Z) (w : World)
| AssertionFailed (w : World).

Arguments Proceed {A} a w.
Arguments Exit {A} status w.
Arguments AssertionFailed {A} w.

(** [eprint(text)]: a line on the diagnostic stream, whatever the level. *)
Definition eprint (text : string) (w : World) : World :=
  mk_World (loglevel w) (stdout w) (stderr w ++ [text ++ Py.nl]) (network w)
    (next_fd w).

(** [loglevel += 1] and [loglevel -= 1] under their guards. *)
Definition more_verbose (l : LogLevel) : LogLevel :=
  match l with
  | error_level => warn_level
  | warn_level => info_level
  | info_level => debug_level
  | debug_level => debug_level
  end.

Definition less_verbose (l : LogLevel) : LogLevel :=
  match l with
  | error_level => error_level
  | warn_level => error_level
  | info_level => warn_level
  | debug_level => info_level
  end.

Definition set_loglevel (l : LogLevel) (w : World) : World :=
  mk_World l (stdout w) (stderr w) (network w) (next_fd w).

Definition __title__ : string := "blockstatd".
Definition __project__ : string := "graphite-blockstat".
Definition __version__ : string := "0.2.2b".
Definition __copyright__ : string :=
  "Copyright 2017, Bodhi Digital LLC., Isabell Cowan".
Definition __license__ : string :=
  "GPLv3+: GNU GPL version 3 or later <https://gnu.org/licenses/gpl.html>.".

(** [MainClass._get_version_string] *)
Definition _get_version_string : string :=
  __title__ ++ " (" ++ __project__ ++ ") " ++ __version__.

(** [MainClass._print_version] *)
Definition _print_version (w : World) : World := print _get_version_string w.

(** [MainClass._print_copy_notice] *)
Definition _print_copy_notice (w : World) : World :=
  eprint
    (_get_version_string ++ Py.nl ++
     __copyright__ ++ Py.nl ++
     "License: " ++ __license__ ++ Py.nl ++
     "This program comes with ABSOLUTELY NO WARRANTY." ++ Py.nl ++
     "This is free software, and you are welcome to redistribute it under certain conditions.")
    w.

(** [MainClass._print_help]; [file] is [__file__]. *)
Definition _print_help (file : string) (w : World) : World :=
  print
    (String.concat Py.nl
       (("Usage: " ++ file ++ " [OPTIONS] <blockdev [...]>") ::
        ["  Collect metrics on <blockdev>.  This argument may be specified more than once.";
         EmptyString;
         "  -i --interval <inter>:         Use <inter> as the collection interval.";
         "  -p --pidfile <pidf>:           Use <pidf> as the PID file, it's path must be absolute.";
         "                                 It will be removed before exiting if the process recives SIGINT.";
         "  -o --output <outform>:         Use the output format <outform>, values are `human' and `graphite'.";
         "  -s --server <server[:<port>]>: Use the graphite server <server> (and port <port>) to connect.";
         "  -D --daemonize:                Fork to the background.";
         "  -a --all:                      Use all block devices found in `/sys/block'.";
         "  -v --verbose:                  Be more verbose.";
         "  -q --quiet:                    Be less verbose.";
         "  -h --help:                     Show this.";
         "  -V --version:                  Show version."]))
    w.



(** The test on a positional argument in [_parse_opts]:
    [not a or a == "." or a == ".." or "/" in a]. *)
Definition illegal_block_name (a : string) : bool :=
  Py.is_empty a || (a =? ".")%string || (a =? "..")%string || Py.contains "/" a.

(** The loop over the positional arguments. *)
Fixpoint parse_args (args : list string) (cfg : MainClass) (w : World)
    : startup MainClass :=
  match args with
  | [] => Proceed cfg w
  | a :: rest =>
      if illegal_block_name a then
        Exit 2
          (error
             ("Illegal command line argument `" ++ a ++ "'.  " ++
              "Block device names cannot be empty, `.', `..', or contain a `/'.")
             w)
      else parse_args rest (blocks_add a cfg) w
  end.

(** [o in (short, long)] *)
Definition option_is (o short long : string) : bool :=
  (o =? short)%string || (o =? long)%string.

(** One turn of the loop over the options in [_parse_opts].  [listdir] is
    what [os.listdir("/sys/block/")] returns. *)
Definition parse_option (listdir : list string) (file : string) (o a : string)
    (cfg : MainClass) (w : World) : startup MainClass :=
  if option_is o "-i" "--interval" then
    match Py.int a with
    | Ok n => Proceed (set_interval cfg n) w
    | Raise _ => Exit 2 (error "Illegal interval, must be integer (seconds)." w)
    end
  else if option_is o "-p" "--pidfile" then
    if negb (Py.first_one a =? "/")%string
    then Exit 2 (error "PID file paths must be absolute." w)
    else Proceed (set_pidfile cfg a) w
  else if option_is o "-o" "--output" then
    match OutForm_of_value a with
    | Some f => Proceed (set_outform cfg f) w
    | None => Exit 2 (error "Unrecognized output form, see help for details." w)
    end
  else if option_is o "-s" "--server" then
    match Py.rsplit1 ":" a with
    | server :: port :: _ =>
        match Py.int port with
        | Ok n => Proceed (set_server (set_server_port cfg n) server) w
        | Raise _ => Exit 2 (error "Illegal port number, must be digits only." w)
        end
    | [server] => Proceed (set_server cfg server) w
    | [] => AssertionFailed w
    end
  else if option_is o "-D" "--daemonize" then Proceed (set_daemonize cfg true) w
  else if option_is o "-a" "--all" then
    Proceed (fold_left (fun c block => blocks_add block c) listdir cfg) w
  else if option_is o "-v" "--verbose" then
    Proceed cfg (set_loglevel (more_verbose (loglevel w)) w)
  else if option_is o "-q" "--quiet" then
    Proceed cfg (set_loglevel (less_verbose (loglevel w)) w)
  else if option_is o "-h" "--help" then Exit 0 (_print_help file w)
  else if option_is o "-V" "--version" then
    Exit 0 (_print_copy_notice (_print_version w))
  else AssertionFailed w.

(** The loop over the options. *)
Fixpoint parse_options (listdir : list string) (file : string)
    (opts : list (string * string)) (cfg : MainClass) (w : World)
    : startup MainClass :=
  match opts with
  | [] => Proceed cfg w
  | (o, a) :: rest =>
      match parse_option listdir file o a cfg w with
      | Proceed cfg' w' => parse_options listdir file rest cfg' w'
      | stop => stop
      end
  end.

(** [MainClass._parse_opts], from the options and positional arguments
    that [gnu_getopt] has returned. *)
Definition _parse_opts (listdir : list string) (file : string)
    (opts : list (string * string)) (args : list string) (cfg : MainClass)
    (w : World) : startup MainClass :=
  match parse_args args cfg w with
  | Proceed cfg' w' => parse_options listdir file opts cfg' w'
  | stop => stop
  end.

(** [MainClass._set_default_opts] *)
Definition _set_default_opts (cfg : MainClass) (w : World) : startup MainClass :=
  let cfg1 := match _interval cfg with None => set_interval cfg 60 | Some _ => cfg end in
  let cfg2 := match _daemonize cfg1 with None => set_daemonize cfg1 false | Some _ => cfg1 end in
  let cfg3 := match _server_port cfg2 with None => set_server_port cfg2 2003 | Some _ => cfg2 end in
  let after_outform :=
    match _outform cfg3 with
    | None =>
        Proceed (set_outform cfg3
                   (match _server cfg3 with None => human | Some _ => graphite end)) w
    | Some graphite =>
        match _server cfg3 with
        | None =>
            Exit 2
              (error ("With the graphite output format, a server must be specified.  " ++
                      "See --help for more information.") w)
        | Some _ => Proceed cfg3 w
        end
    | Some human => Proceed cfg3 w
    end in
  match after_outform with
  | Proceed cfg4 w4 =>
      match _blocks cfg4 with
      | [] => Exit 2 (error "Atleast one block device must be specified." w4)
      | _ :: _ => Proceed cfg4 w4
      end
  | stop => stop
  end.

(** The choice of formatter and buffer in [MainClass.main], and the list
    [blockstats] it builds.  [None]: an attribute that the defaults set is
    still [None]. *)
Definition main_pipeline (cfg : MainClass)
    : option (IOutput * ASendBuffer * list BlockStat) :=
  match _outform cfg, _server cfg, _server_port cfg with
  | Some human, _, _ =>
      Some (HumanOutput, new_buffer StdoutBuffer, map new_BlockStat (_blocks cfg))
  | Some graphite, Some server, Some port =>
      Some (GraphiteOutput, new_buffer (GraphiteBuffer server port),
            map new_BlockStat (_blocks cfg))
  | _, _, _ => None
  end.

(** ** Vocabulary of the statements *)

(** The fields [collect] indexes: the record trimmed, its white space
    collapsed, split at single spaces. *)
Definition record_fields (text : string) : list string :=
  Py.split " " (Py.re_sub_ws (Py.rstrip (Py.lstrip text))).

(** The path [collect] opens for a device. *)
Definition statfile_of (block : string) : string :=
  "/sys/block/" ++ block ++ "/stat".

(** [collected_at == 0]: Python compares the float [0.0] equal to [0]. *)
Definition time_is_zero (t : timeval) : bool :=
  match t with
  | TInt n => n =? 0
  | TFloatZero => true
  end.

(** The socket calls made between two states of the world. *)
Definition calls_between (w w' : World) : list Socket.event :=
  skipn (List.length (network w)) (network w').

Definition fd_of (e : Socket.event) : nat :=
  match e with
  | Socket.Create fd => fd
  | Socket.Connect fd _ _ _ => fd
  | Socket.Sendall fd _ _ => fd
  | Socket.Close fd => fd
  end.

Definition is_create (e : Socket.event) : bool :=
  match e with Socket.Create _ => true | _ => false end.

Definition is_connect (e : Socket.event) : bool :=
  match e with Socket.Connect _ _ _ _ => true | _ => false end.

Definition is_sendall (e : Socket.event) : bool :=
  match e with Socket.Sendall _ _ _ => true | _ => false end.

(** A call that went through: a connection established, a batch delivered. *)
Definition succeeded (e : Socket.event) : bool :=
  match e with
  | Socket.Connect _ _ _ ok => ok
  | Socket.Sendall _ _ ok => ok
  | _ => false
  end.

Definition send_failed (e : Socket.event) : bool :=
  match e with Socket.Sendall _ _ ok => negb ok | _ => false end.

Definition payload_is (payload : string) (e : Socket.event) : Prop :=
  match e with
  | Socket.Sendall _ p _ => p = payload
  | _ => True
  end.

Definition connects_to (server : string) (port : Z) (e : Socket.event) : Prop :=
  match e with
  | Socket.Connect _ s p _ => s = server /\ p = port
  | _ => True
  end.

(** The descriptors on which connections were asked for, in order. *)
Definition connect_fds (evs : list Socket.event) : list nat :=
  map fd_of (filter is_connect evs).

(** [pattern] with [d] standing for any decimal digit. *)
Fixpoint matches (pattern s : string) : bool :=
  match pattern, s with
  | EmptyString, EmptyString => true
  | String p pattern', String c s' =>
      (if (p =? "d")%char then Py.isdigit c else (p =? c)%char) && matches pattern' s'
  | _, _ => false
  end.

Definition is_timestamp (s : string) : bool := matches "dddd-dd-dd dd:dd:dd" s.

Fixpoint all_chars (p : ascii -> bool) (s : string) : bool :=
  match s with
  | EmptyString => true
  | String c r => p c && all_chars p r
  end.

Definition all_space : string -> bool := all_chars Py.isspace.
Definition no_space : string -> bool := all_chars (fun c => negb (Py.isspace c)).

(** A non-empty string of decimal digits, and the number it denotes. *)
Definition is_decimal (s : string) : bool :=
  negb (Py.is_empty s) && all_chars Py.isdigit s.

Fixpoint decimal_from (acc : Z) (s : string) : Z :=
  match s with
  | EmptyString => acc
  | String c r => decimal_from (10 * acc + Z.of_nat (Py.digit_val c)) r
  end.

Definition decimal_value : string -> Z := decimal_from 0.

(** A separator between two fields: white space, at least one character. *)
Definition is_separator (s : string) : bool :=
  negb (Py.is_empty s) && all_space s.

(** A stat record: white space, a field, then separators each followed by a
    field, then white space. *)
Fixpoint join_fields (more : list (string * string)) : string :=
  match more with
  | [] => EmptyString
  | (sep, field) :: rest => sep ++ field ++ join_fields rest
  end.

Definition stat_record (lead first : string) (more : list (string * string))
    (trail : string) : string :=
  lead ++ first ++ join_fields more ++ trail.

Definition well_formed_more (more : list (string * string)) : bool :=
  forallb (fun p => is_separator (fst p) && is_decimal (snd p)) more.

(** The keys of a mapping are the first members of the enumeration, in
    order: so it is in a new sample and after every call of [collect]. *)
Definition keys_in_order (d : dict) : Prop :=
  exists n, dict_keys d = firstn n StatType_members.

(** The human line as the specification words it: counter name before the
    brackets, device inside. *)
Definition human_line_as_specified (pretty_time counter device value : string) : string :=
  pretty_time ++ " " ++ counter ++ "[" ++ device ++ "]: " ++ value.

(** Two states of the world that differ by the socket calls [evs] only. *)
Definition extends_by (w w' : World) (evs : list Socket.event) : Prop :=
  network w' = (network w ++ evs)%list /\ stdout w' = stdout w /\
  next_fd w' = next_fd w /\ loglevel w' = loglevel w.

(** [n] connections asked for on [fd] and not obtained. *)
Definition refusals (fd : nat) (server : string) (port : Z) (n : nat)
    : list Socket.event :=
  repeat (Socket.Connect fd server port false) n.

(** The courses that [n] attempts of a flush can take, told by the buffer
    left and the socket calls made: no connection obtained; a batch
    delivered in attempt [k]; or a send that failed in attempt [k], the
    socket closed, and the attempts after it refused. *)
Inductive flush_course (fd : nat) (server : string) (port : Z)
    (self : ASendBuffer) (n : nat) : ASendBuffer -> list Socket.event -> Prop :=
| never_connected :
    flush_course fd server port self n self (refusals fd server port n)
| delivered (k : nat) :
    (k < n)%nat ->
    flush_course fd server port self n (clear self)
      (refusals fd server port k ++
       [Socket.Connect fd server port true;
        Socket.Sendall fd (get_messages self ++ Py.nl) true])
| send_failure (k : nat) :
    (k < n)%nat ->
    flush_course fd server port self n self
      (refusals fd server port k ++
       [Socket.Connect fd server port true;
        Socket.Sendall fd (get_messages self ++ Py.nl) false;
        Socket.Close fd] ++
       refusals fd server port (n - S k)).

(** Two configurations that differ in their device set at most. *)
Definition same_options (cfg cfg' : MainClass) : Prop :=
  _interval cfg' = _interval cfg /\ _pidfile cfg' = _pidfile cfg /\
  _daemonize cfg' = _daemonize cfg /\ _outform cfg' = _outform cfg /\
  _server cfg' = _server cfg /\ _server_port cfg' = _server_port cfg.

(** The error line for a positional argument that is no device name. *)
Definition illegal_argument_message (a : string) : string :=
  "Illegal command line argument `" ++ a ++ "'.  " ++
  "Block device names cannot be empty, `.', `..', or contain a `/'.".

(** What the handling of options may do to the device set and the world:
    devices are added only, and only ones the directory listing names; no
    device is listed twice; nothing is printed and no socket call is made. *)
Definition adds_listed_devices (listdir : list string) (cfg : MainClass)
    (w : World) (cfg' : MainClass) (w' : World) : Prop :=
  (forall b, In b (_blocks cfg) -> In b (_blocks cfg')) /\
  (forall b, In b (_blocks cfg') -> In b (_blocks cfg) \/ In b listdir) /\
  (NoDup (_blocks cfg) -> NoDup (_blocks cfg')) /\
  stdout w' = stdout w /\ stderr w' = stderr w /\ network w' = network w.







(** The human line for one entry of a sample's values. *)
Definition human_line (pretty_time block : string) (kv : StatType * Z) : string :=
  pretty_time ++ " " ++ block ++ "[" ++ StatType_name (fst kv) ++ "]: " ++
  Py.str (snd kv).

(** A turn of the loop in which the stat file of [block] holds eleven
    decimal fields and the clock reading has a local date. *)
Definition good_turn (block : string) (c : Cycle) : Prop :=
  exists lead first more trail dt,
    all_space lead = true /\ all_space trail = true /\
    is_decimal first = true /\ well_formed_more more = true /\
    List.length more = 10%nat /\
    open_read (env_of c 0%nat) (statfile_of block) =
      Some (stat_record lead first more trail) /\
    Datetime.fromtimestamp (utcoffset (host c)) (time_time (env_of c 0%nat)) =
      Ok dt.

(** The sleep that ends a turn returns in every turn of [cycles]. *)
Definition sleeps_through (interval : Z) (cycles : list Cycle) : bool :=
  forallb (fun c => match sleep (clock_nanosleep c) interval with
                    | Ok _ => true
                    | Raise _ => false
                    end) cycles.

(** What such a turn prints: the lines of the eleven counters, each ended
    by a line feed. *)
Definition turn_batch (block : string) (c : Cycle) : string :=
  match open_read (env_of c 0%nat) (statfile_of block),
        Datetime.fromtimestamp (utcoffset (host c)) (time_time (env_of c 0%nat))
  with
  | Some text, Ok dt =>
      String.concat Py.nl
        (map (human_line (Datetime.strftime dt) block)
           (combine StatType_members (map decimal_value (record_fields text)))) ++
      Py.nl
  | _, _ => Py.nl
  end.

(** ** Inputs used in the examples *)

Definition world0 : World := mk_World warn_level [] [] [] 0.

Definition utc : Z -> Z := fun _ => 0.

Definition host_h : Host := mk_Host "h" utc.

(** A stat file of [sda] as the kernel prints it, and the same device gone. *)
Definition sda_more : list (string * string) :=
  [("       ", "12"); ("   ", "524288"); ("     ", "1500"); ("     ", "2048");
   ("       ", "34"); ("   ", "262144"); ("     ", "2500"); ("        ", "0");
   ("     ", "3000"); ("     ", "4000")].

Definition sda_record : string := stat_record "    " "4096" sda_more Py.nl.

Definition sda_readable : Env :=
  mk_Env 1000000000
    (fun path =>
       if (path =? "/sys/block/sda/stat")%string then Some sda_record else None).

Definition sda_unreadable : Env := mk_Env 1000000060 (fun _ => None).

(** [sda] reads well and the third field of [sdb] is not a number. *)
Definition sdb_corrupt : Env :=
  mk_Env 1000000000
    (fun path =>
       if (path =? "/sys/block/sda/stat")%string then Some sda_record
       else if (path =? "/sys/block/sdb/stat")%string
       then Some "4096 12 garbage 1500 2048 34 262144 2500 0 3000 4000"
       else None).

(** A graphite buffer holding one line. *)
Definition one_line : ASendBuffer :=
  put (new_buffer (GraphiteBuffer "graphite" 2003))
    "blockstat.h.sda.read_io 42 1000000000".

(** The server accepts every connection and takes the data at any attempt
    but the first. *)
Definition first_send_fails : Net :=
  mk_Net (fun _ => true) (fun attempt => negb (attempt =? 0)%nat).

(** The server accepts every connection and takes all data. *)
Definition server_up : Net := mk_Net (fun _ => true) (fun _ => true).

(** The server refuses the first connection only. *)
Definition first_connect_refused : Net :=
  mk_Net (fun attempt => negb (attempt =? 0)%nat) (fun _ => true).

(** One turn of the loop over two devices, the second of them corrupt. *)
Definition one_turn : Cycle :=
  mk_Cycle (fun _ => sdb_corrupt) host_h server_up (fun _ => true).

(** Stat files of [sda] with three fields only, with a twelfth field, and
    with nothing but white space. *)
Definition sda_short : Env :=
  mk_Env 1000000000
    (fun _ => Some (stat_record " " "4096" [(" ", "12"); ("  ", "524288")] Py.nl)).

Definition sda_long : Env :=
  mk_Env 1000000000
    (fun _ => Some (stat_record "    " "4096" (sda_more ++ [(" ", "77")]) Py.nl)).

Definition sda_blank : Env := mk_Env 1000000000 (fun _ => Some ("   " ++ Py.nl)).

(** The server refuses the first two connections. *)
Definition refused_twice : Net := mk_Net (fun attempt => (attempt =? 2)%nat) (fun _ => true).

(** The server refuses every connection. *)
Definition server_down : Net := mk_Net (fun _ => false) (fun _ => true).

(** Two devices, [sda] readable and [sdz] missing, observed by every turn. *)
Definition steady_turn : Cycle :=
  mk_Cycle (fun _ => sda_readable) host_h server_up (fun _ => true).

(** * Properties *)

(** ** Strings *)

Lemma append_assoc (a b c : string) : (a ++ b) ++ c = a ++ (b ++ c).
Proof.
  induction a as [|x a IH]; simpl; [reflexivity | now rewrite IH].
Qed.

Lemma append_empty_r (a : string) : a ++ EmptyString = a.
Proof.
  induction a as [|x a IH]; simpl; [reflexivity | now rewrite IH].
Qed.

Lemma is_empty_true (s : string) : Py.is_empty s = true <-> s = EmptyString.
Proof.
  destruct s; simpl; split; congruence.
Qed.

(** ** The send buffer *)

Lemma put_messages (self : ASendBuffer) (line : string) :
  get_messages (put self line) =
    if Py.is_empty (get_messages self) then line
    else get_messages self ++ Py.nl ++ line.
Proof.
  unfold put, get_messages; simpl.
  destruct (_messages self); simpl; [reflexivity|].
  now rewrite append_assoc.
Qed.

(** C9.  [put] appends the line, preceded by a line feed exactly when the
    buffer holds text already; two puts on a new buffer give the two lines
    joined by one line feed; [clear] leaves the buffer empty whatever it
    held before. *)
Theorem put_get_messages_clear :
  (forall self line,
     get_messages (put self line) =
       if Py.is_empty (get_messages self) then line
       else get_messages self ++ Py.nl ++ line) /\
  (forall c,
     get_messages (put (put (new_buffer c) "a") "b") = "a" ++ Py.nl ++ "b") /\
  (forall self, get_messages (clear self) = EmptyString).
Proof.
  split; [exact put_messages|].
  split; reflexivity.
Qed.

(** ** The formatters *)

Lemma format_human (a b c d : string) :
  Py.format "{0} {2}[{1}]: {3}" [a; b; c; d] =
    Ok (a ++ " " ++ c ++ "[" ++ b ++ "]: " ++ d).
Proof.
  rewrite <- (append_empty_r d) at 2. reflexivity.
Qed.

Lemma format_graphite (a b c d e : string) :
  Py.format "blockstat.{4}.{2}.{1} {3} {0}" [a; b; c; d; e] =
    Ok ("blockstat." ++ e ++ "." ++ c ++ "." ++ b ++ " " ++ d ++ " " ++ a).
Proof.
  rewrite <- (append_empty_r a) at 2. reflexivity.
Qed.

Lemma format_statfile (block : string) :
  Py.format "/sys/block/{0}/stat" [block] = Ok (statfile_of block).
Proof.
  reflexivity.
Qed.

Lemma isdigit_digit_char (n : Z) : Py.isdigit (Datetime.digit_char n) = true.
Proof.
  unfold Datetime.digit_char.
  pose proof (Z.mod_pos_bound n 10 ltac:(lia)) as H.
  assert (Hk : exists k, (k < 10)%nat /\ Z.to_nat (n mod 10) = k)
    by (exists (Z.to_nat (n mod 10)); lia).
  destruct Hk as (k & Hk & ->).
  do 10 (destruct k as [|k]; [reflexivity|]). lia.
Qed.

Lemma strftime_is_timestamp (dt : Datetime.datetime) :
  is_timestamp (Datetime.strftime dt) = true.
Proof.
  unfold is_timestamp, Datetime.strftime, Datetime.pad4, Datetime.pad2.
  cbn -[Datetime.digit_char Py.isdigit].
  now rewrite !isdigit_digit_char.
Qed.

(** [fromtimestamp] accepts every instant whose local time lies between
    0001-01-01 00:00:00 and 9999-12-31 23:59:59, and the fields it returns
    are those of a calendar date and a time of day. *)
Lemma civil_from_days_range (days : Z) :
  -719162 <= days <= 2932896 ->
  let '(y, m, d) := Datetime.civil_from_days days in
  1 <= y <= 9999 /\ 1 <= m <= 12 /\ 1 <= d <= 31.
Proof.
  intro H. unfold Datetime.civil_from_days. cbv zeta.
  destruct (_ <? 10) eqn:M; [apply Z.ltb_lt in M | apply Z.ltb_ge in M];
    destruct (_ <=? 2) eqn:M2;
    [apply Z.leb_le in M2 | apply Z.leb_gt in M2
    |apply Z.leb_le in M2 | apply Z.leb_gt in M2];
    Z.div_mod_to_equations; lia.
Qed.

Lemma fromtimestamp_accepts (utcoffset : Z -> Z) (t : Z) :
  -62135596800 <= t + utcoffset t < 253402300800 ->
  exists dt,
    Datetime.fromtimestamp utcoffset t = Ok dt /\
    1 <= Datetime.year dt <= 9999 /\ 1 <= Datetime.month dt <= 12 /\
    1 <= Datetime.day dt <= 31 /\ 0 <= Datetime.hour dt < 24 /\
    0 <= Datetime.minute dt < 60 /\ 0 <= Datetime.second dt < 60.
Proof.
  intro H. unfold Datetime.fromtimestamp.
  set (local := t + utcoffset t) in *.
  assert (Hdays : -719162 <= local / 86400 <= 2932896)
    by (Z.div_mod_to_equations; lia).
  pose proof (civil_from_days_range _ Hdays) as R.
  destruct (Datetime.civil_from_days (local / 86400)) as [[y m] d].
  destruct R as (Hy & Hm & Hd).
  unfold Datetime.MINYEAR, Datetime.MAXYEAR.
  replace ((y <? 1) || (9999 <? y)) with false
    by (symmetry; apply orb_false_intro; lia).
  eexists. split; [reflexivity|]. cbn.
  repeat split; try lia; Z.div_mod_to_equations; lia.
Qed.

Lemma human_send_line :
  forall host send_buffer the_time stat_type block stat dt,
    Datetime.fromtimestamp (utcoffset host) (time_seconds the_time) = Ok dt ->
    HumanOutput_send host send_buffer the_time stat_type block stat =
      Ok (put send_buffer
            (Datetime.strftime dt ++ " " ++ block ++ "[" ++
             StatType_name stat_type ++ "]: " ++ Py.str stat)).
Proof.
  intros host send_buffer the_time stat_type block stat dt Hdt.
  unfold HumanOutput_send. rewrite Hdt. cbv [bind].
  now rewrite format_human.
Qed.

(** C2, as the code has it.  In human mode the line put in the buffer is
    [<YYYY-MM-DD HH:MM:SS> <device>[<CounterName>]: <value>]: the device name
    stands before the brackets and the counter's symbolic name inside them,
    for every buffer, device, counter, value and every timestamp that
    [fromtimestamp] accepts. *)
Theorem human_line_device_before_counter :
  forall host send_buffer the_time stat_type block stat dt,
    Datetime.fromtimestamp (utcoffset host) (time_seconds the_time) = Ok dt ->
    HumanOutput_send host send_buffer the_time stat_type block stat =
      Ok (put send_buffer
            (Datetime.strftime dt ++ " " ++ block ++ "[" ++
             StatType_name stat_type ++ "]: " ++ Py.str stat)) /\
    is_timestamp (Datetime.strftime dt) = true.
Proof.
  intros host send_buffer the_time stat_type block stat dt Hdt.
  split; [|apply strftime_is_timestamp].
  now apply human_send_line.
Qed.

Lemma human_line_device_before_counter_witness :
  HumanOutput_send host_h (new_buffer StdoutBuffer) (TInt 1000000000)
    read_io "sda" 42 =
    Ok (put (new_buffer StdoutBuffer) "2001-09-09 01:46:40 sda[read_io]: 42") /\
  is_timestamp "2001-09-09 01:46:40" = true.
Proof.
  exact (human_line_device_before_counter host_h (new_buffer StdoutBuffer)
           (TInt 1000000000) read_io "sda" 42
           (Datetime.mk_datetime 2001 9 9 1 46 40) eq_refl).
Defined.

(** C2, as the specification words it, fails: for device [sda], counter
    [read_io], value 42 at 2001-09-09 01:46:40 UTC the line is
    [2001-09-09 01:46:40 sda[read_io]: 42], not
    [2001-09-09 01:46:40 read_io[sda]: 42]. *)
Lemma human_line_not_as_specified :
  exists b,
    HumanOutput_send host_h (new_buffer StdoutBuffer) (TInt 1000000000)
      read_io "sda" 42 = Ok b /\
    get_messages b = "2001-09-09 01:46:40 sda[read_io]: 42" /\
    get_messages b <>
      human_line_as_specified "2001-09-09 01:46:40" (StatType_name read_io)
        "sda" (Py.str 42).
Proof.
  eexists. split; [reflexivity|]. split; [reflexivity|].
  vm_compute. discriminate.
Qed.

Lemma graphite_send_line (host : Host) (send_buffer : ASendBuffer)
    (the_time : timeval) (stat_type : StatType) (block : string) (stat : Z) :
  GraphiteOutput_send host send_buffer the_time stat_type block stat =
    Ok (put send_buffer
          ("blockstat." ++ Py.before_first "." (gethostname host) ++ "." ++
           block ++ "." ++ StatType_name stat_type ++ " " ++ Py.str stat ++
           " " ++ time_repr the_time)).
Proof.
  unfold GraphiteOutput_send. now rewrite format_graphite.
Qed.

(** C8, as the code has it.  A formatter only builds a line and puts it in
    the buffer: it takes and returns no [World].  In machine mode the line
    is a function of timestamp, counter, device and value together with the
    host name, and of nothing else: two calls under the same host name
    agree, whatever the time zones are.  In human mode it is a function of
    the same arguments together with the local zone's offset at that
    timestamp, and of nothing else: two calls under the same offset agree,
    whatever the host names are.  Machine mode always returns; human mode
    returns whenever the local time of the timestamp lies in the years 1 to
    9999. *)
Theorem formatting_determined_by_arguments_and_host :
  forall host1 host2 send_buffer the_time stat_type block stat,
    (gethostname host1 = gethostname host2 ->
     send GraphiteOutput host1 send_buffer the_time stat_type block stat =
       send GraphiteOutput host2 send_buffer the_time stat_type block stat) /\
    (utcoffset host1 (time_seconds the_time) =
       utcoffset host2 (time_seconds the_time) ->
     send HumanOutput host1 send_buffer the_time stat_type block stat =
       send HumanOutput host2 send_buffer the_time stat_type block stat) /\
    (exists line, forall b,
        send GraphiteOutput host1 b the_time stat_type block stat =
          Ok (put b line)) /\
    (-62135596800 <=
       time_seconds the_time + utcoffset host1 (time_seconds the_time) <
       253402300800 ->
     exists line, forall b,
       send HumanOutput host1 b the_time stat_type block stat =
         Ok (put b line)).
Proof.
  intros host1 host2 send_buffer the_time stat_type block stat.
  split; [|split; [|split]].
  - intro Hname. cbn [send]. now rewrite !graphite_send_line, Hname.
  - intro Hoff. cbn [send].
    unfold HumanOutput_send, Datetime.fromtimestamp. now rewrite Hoff.
  - eexists. intro b. cbn [send]. apply graphite_send_line.
  - intro Hrange.
    destruct (fromtimestamp_accepts _ _ Hrange) as (dt & Hdt & _).
    eexists. intro b. cbn [send].
    apply (human_send_line host1 b the_time stat_type block stat dt Hdt).
Qed.

Lemma formatting_determined_by_arguments_and_host_witness :
  send GraphiteOutput host_h (new_buffer StdoutBuffer) (TInt 1000000000)
    read_io "sda" 42 =
  send GraphiteOutput (mk_Host "h" (fun _ => 3600))
    (new_buffer StdoutBuffer) (TInt 1000000000) read_io "sda" 42 /\
  send HumanOutput host_h (new_buffer StdoutBuffer) (TInt 1000000000)
    read_io "sda" 42 =
  send HumanOutput (mk_Host "other.example.org" utc)
    (new_buffer StdoutBuffer) (TInt 1000000000) read_io "sda" 42.
Proof.
  split.
  - exact (proj1 (formatting_determined_by_arguments_and_host
                    host_h (mk_Host "h" (fun _ => 3600))
                    (new_buffer StdoutBuffer) (TInt 1000000000) read_io "sda" 42)
                 eq_refl).
  - exact (proj1 (proj2 (formatting_determined_by_arguments_and_host
                           host_h (mk_Host "other.example.org" utc)
                           (new_buffer StdoutBuffer) (TInt 1000000000) read_io
                           "sda" 42))
                 eq_refl).
Defined.

(** C8, as the specification words it, fails: with timestamp, counter,
    device, value and buffer equal, the machine line changes with the host
    name and the human line with the local time zone. *)
Lemma formatting_reads_ambient_state :
  send GraphiteOutput (mk_Host "alpha.example.org" utc)
    (new_buffer StdoutBuffer) (TInt 1000000000) read_io "sda" 42 <>
  send GraphiteOutput (mk_Host "beta.example.org" utc)
    (new_buffer StdoutBuffer) (TInt 1000000000) read_io "sda" 42 /\
  send HumanOutput (mk_Host "h" utc)
    (new_buffer StdoutBuffer) (TInt 1000000000) read_io "sda" 42 <>
  send HumanOutput (mk_Host "h" (fun _ => 3600))
    (new_buffer StdoutBuffer) (TInt 1000000000) read_io "sda" 42.
Proof.
  split; vm_compute; discriminate.
Qed.

Lemma before_first_spec (sep : ascii) (s : string) :
  exists rest,
    s = Py.before_first sep s ++ rest /\
    all_chars (fun c => negb (c =? sep)%char) (Py.before_first sep s) = true /\
    (rest = EmptyString \/ exists r, rest = String sep r).
Proof.
  induction s as [|c s IH]; simpl.
  - exists EmptyString. repeat split. now left.
  - destruct (c =? sep)%char eqn:E.
    + apply Ascii.eqb_eq in E. subst c.
      exists (String sep s). repeat split. right. now exists s.
    + destruct IH as (rest & Hs & Hno & Hrest).
      exists rest. simpl. rewrite E, Hno. repeat split; [|exact Hrest].
      now rewrite <- Hs.
Qed.

(** ** [BlockStat.collect] on an unreadable device *)

Lemma collect_unreadable (env : Env) (self : BlockStat) (w : World) :
  open_read env (statfile_of (_block self)) = None ->
  collect env self w = (Ok tt, set_time self TFloatZero, warn EmptyString w).
Proof.
  intro H. unfold collect. rewrite format_statfile.
  cbn [set_time _block]. now rewrite H.
Qed.

(** From a sample that has never held values the unavailable sentinel is
    reached. *)
Lemma collect_unreadable_new (env : Env) (block : string) (w : World) :
  open_read env (statfile_of block) = None ->
  exists sample w',
    collect env (new_BlockStat block) w = (Ok tt, sample, w') /\
    time_is_zero (_time sample) = true /\ _stats sample = [].
Proof.
  intro H. do 2 eexists. split; [now apply collect_unreadable|].
  split; reflexivity.
Qed.

(** C1, at the failing input.  [sda] is collected once with its stat file
    readable and once more with the file gone.  The second call returns
    normally and zeroes the timestamp, but the eleven values of the first
    call are still in the sample: the values mapping is not empty. *)
Theorem unreadable_keeps_earlier_values :
  exists sample1 w1 sample2 w2,
    collect sda_readable (new_BlockStat "sda") world0 = (Ok tt, sample1, w1) /\
    collect sda_unreadable sample1 w1 = (Ok tt, sample2, w2) /\
    time_is_zero (_time sample2) = true /\
    _stats sample2 = _stats sample1 /\
    _stats sample2 =
      [(read_io, 4096); (read_merges, 12); (read_sectors, 524288);
       (read_ticks, 1500); (write_io, 2048); (write_merges, 34);
       (write_sectors, 262144); (write_ticks, 2500); (in_flight, 0);
       (io_ticks, 3000); (time_in_queue, 4000)] /\
    _stats sample2 <> [].
Proof.
  do 4 eexists.
  split; [vm_compute; reflexivity|].
  split; [vm_compute; reflexivity|].
  repeat split. discriminate.
Qed.

(** ** The world: what a call writes and what it leaves alone *)

Lemma log_network lvl msg w : network (log lvl msg w) = network w.
Proof. unfold log. now destruct (_ <=? _). Qed.

Lemma log_stdout lvl msg w : stdout (log lvl msg w) = stdout w.
Proof. unfold log. now destruct (_ <=? _). Qed.

Lemma log_next_fd lvl msg w : next_fd (log lvl msg w) = next_fd w.
Proof. unfold log. now destruct (_ <=? _). Qed.

Lemma log_loglevel lvl msg w : loglevel (log lvl msg w) = loglevel w.
Proof. unfold log. now destruct (_ <=? _). Qed.

Lemma calls_between_app (w w' : World) (evs : list Socket.event) :
  network w' = (network w ++ evs)%list -> calls_between w w' = evs.
Proof.
  intro H. unfold calls_between. rewrite H, skipn_app, skipn_all, Nat.sub_diag.
  reflexivity.
Qed.

Lemma extends_by_refl w : extends_by w w [].
Proof. unfold extends_by. now rewrite app_nil_r. Qed.

Lemma extends_by_log lvl msg w w' evs :
  extends_by (log lvl msg w) w' evs -> extends_by w w' evs.
Proof.
  unfold extends_by.
  now rewrite log_network, log_stdout, log_next_fd, log_loglevel.
Qed.

Lemma extends_by_syscall e w w' evs :
  extends_by (syscall e w) w' evs -> extends_by w w' (e :: evs).
Proof.
  unfold extends_by; simpl. intros (H1 & H2 & H3 & H4).
  rewrite H1, <- app_assoc. auto.
Qed.

(** ** [GraphiteBuffer.flush] *)

Section Flush.

Variables (net : Net) (fd : nat) (server : string) (port : Z).

(** On a closed socket every remaining attempt fails at [connect]. *)
Lemma flush_attempts_closed (attempts : list nat) (self : ASendBuffer) :
  forall w, exists w',
    flush_attempts net fd server port attempts Socket.Closed self w =
      (self, Socket.Closed, w') /\
    extends_by w w' (refusals fd server port (List.length attempts)).
Proof.
  induction attempts as [|attempt rest IH]; intro w; simpl.
  - exists w. split; [reflexivity | apply extends_by_refl].
  - destruct (IH (warn "Failed to connect to the graphite server: "
                    (syscall (Socket.Connect fd server port false) w)))
      as (w' & Hrun & Hext).
    exists w'. split; [exact Hrun|].
    apply extends_by_syscall. eapply extends_by_log. exact Hext.
Qed.

Lemma flush_attempts_course (attempts : list nat) (self : ASendBuffer) :
  forall w, exists self' sock' w' evs,
    flush_attempts net fd server port attempts Socket.Unconnected self w =
      (self', sock', w') /\
    extends_by w w' evs /\
    flush_course fd server port self (List.length attempts) self' evs.
Proof.
  induction attempts as [|attempt rest IH]; intro w; simpl.
  - exists self, Socket.Unconnected, w, []. repeat split.
    + apply extends_by_refl.
    + apply never_connected.
  - destruct (accepts net attempt).
    + destruct (delivers net attempt).
      * do 4 eexists. split; [reflexivity|]. split.
        -- apply extends_by_syscall, extends_by_syscall, extends_by_refl.
        -- apply (delivered fd server port self _ 0%nat). lia.
      * simpl.
        match goal with
        | |- context [flush_attempts _ _ _ _ _ _ _ ?w1] =>
            destruct (flush_attempts_closed rest self w1) as (w' & Hrun & Hext)
        end.
        do 4 eexists. split; [exact Hrun|]. split.
        -- do 3 apply extends_by_syscall. eapply extends_by_log. exact Hext.
        -- pose proof (send_failure fd server port self (S (List.length rest))
                          0%nat ltac:(lia)) as C.
           simpl in C. rewrite Nat.sub_0_r in C. exact C.
    + match goal with
      | |- context [flush_attempts _ _ _ _ _ _ _ ?w1] =>
          destruct (IH w1) as (self' & sock' & w' & evs & Hrun & Hext & Hcourse)
      end.
      exists self', sock', w', (Socket.Connect fd server port false :: evs).
      split; [exact Hrun|]. split.
      * apply extends_by_syscall. eapply extends_by_log. exact Hext.
      * destruct Hcourse as [|k Hk|k Hk].
        -- apply (never_connected fd server port self (S (List.length rest))).
        -- apply (delivered fd server port self _ (S k)). lia.
        -- apply (send_failure fd server port self (S (List.length rest)) (S k)). lia.
Qed.

End Flush.

(** One call of [GraphiteBuffer.flush]: a socket is created, the three
    attempts take one of the three courses on it, and it is closed. *)
Lemma graphite_flush_course (net : Net) (server : string) (port : Z)
    (self : ASendBuffer) (w : World) :
  exists self' w' evs,
    GraphiteBuffer_flush net server port self w = (self', w') /\
    calls_between w w' =
      (Socket.Create (next_fd w) :: evs ++ [Socket.Close (next_fd w)])%list /\
    flush_course (next_fd w) server port self 3 self' evs /\
    next_fd w' = S (next_fd w) /\
    stdout w' = stdout w.
Proof.
  unfold GraphiteBuffer_flush, socket_socket.
  match goal with
  | |- context [flush_attempts _ _ _ _ _ _ _ ?w1] =>
      destruct (flush_attempts_course net (next_fd w) server port (seq 0 3) self w1)
        as (self' & sock' & w' & evs & Hrun & Hext & Hcourse)
  end.
  rewrite Hrun. exists self'. eexists. exists evs.
  split; [reflexivity|].
  apply extends_by_log in Hext.
  destruct Hext as (Hnet & Hout & Hfd & _). simpl in Hnet, Hout, Hfd.
  repeat split.
  - apply calls_between_app. unfold debug. cbn [syscall network].
    rewrite log_network, Hnet, <- !app_assoc. reflexivity.
  - exact Hcourse.
  - unfold debug. cbn [syscall next_fd]. now rewrite log_next_fd.
  - unfold debug. cbn [syscall stdout]. now rewrite log_stdout.
Qed.

(** ** Lists of socket calls *)

Lemma forallb_repeat {A : Type} (p : A -> bool) (x : A) (n : nat) :
  p x = true -> forallb p (repeat x n) = true.
Proof.
  intro H. induction n as [|n IH]; simpl; [reflexivity | now rewrite H, IH].
Qed.

Lemma no_split_at {A : Type} (P : A -> bool) (l pre post : list A) (e : A) :
  forallb (fun x => negb (P x)) l = true ->
  l = (pre ++ e :: post)%list -> P e = true -> False.
Proof.
  intros Hall -> He.
  rewrite forallb_app in Hall. simpl in Hall. rewrite He in Hall.
  simpl in Hall. rewrite andb_false_r in Hall. discriminate.
Qed.

(** A list splits in one way only around its single element with [P]. *)
Lemma split_unique {A : Type} (P : A -> bool) (before after : list A) (x : A) :
  forallb (fun y => negb (P y)) before = true ->
  forallb (fun y => negb (P y)) after = true ->
  forall pre e post,
    (before ++ x :: after = pre ++ e :: post)%list -> P e = true ->
    pre = before /\ e = x /\ post = after.
Proof.
  intros Hb Ha. induction before as [|b before IH]; intros pre e post Heq He.
  - destruct pre as [|p pre]; simpl in Heq.
    + now inversion Heq.
    + inversion Heq; subst. exfalso.
      exact (no_split_at P _ _ _ _ Ha eq_refl He).
  - simpl in Hb. apply andb_prop in Hb. destruct Hb as [Hb1 Hb2].
    destruct pre as [|p pre]; simpl in Heq.
    + inversion Heq; subst. rewrite He in Hb1. discriminate.
    + inversion Heq; subst.
      destruct (IH Hb2 pre e post H1 He) as (-> & -> & ->). auto.
Qed.

Section Courses.

Variables (fd : nat) (server : string) (port : Z).

Lemma forallb_refusals (p : Socket.event -> bool) (n : nat) :
  p (Socket.Connect fd server port false) = true ->
  forallb p (refusals fd server port n) = true.
Proof. apply forallb_repeat. Qed.

(** Every call of a course is made on the one socket, and none creates
    another. *)
Lemma course_one_socket (self self' : ASendBuffer) (n : nat)
    (evs : list Socket.event) :
  flush_course fd server port self n self' evs ->
  forallb (fun c => negb (is_create c) && (fd_of c =? fd)%nat) evs = true.
Proof.
  intros [|k Hk|k Hk]; rewrite ?forallb_app, ?forallb_refusals; simpl;
    rewrite ?Nat.eqb_refl; reflexivity.
Qed.

Lemma course_payload (self self' : ASendBuffer) (n : nat)
    (evs : list Socket.event) :
  flush_course fd server port self n self' evs ->
  Forall (payload_is (get_messages self ++ Py.nl)) evs.
Proof.
  assert (R : forall m, Forall (payload_is (get_messages self ++ Py.nl))
                          (refusals fd server port m)).
  { intro m. apply Forall_forall. intros e He.
    apply repeat_spec in He. now subst e. }
  intros [|k Hk|k Hk]; rewrite ?Forall_app; repeat split; try apply R;
    repeat constructor.
Qed.

Lemma course_address (self self' : ASendBuffer) (n : nat)
    (evs : list Socket.event) :
  flush_course fd server port self n self' evs ->
  Forall (connects_to server port) evs.
Proof.
  assert (R : forall m, Forall (connects_to server port)
                          (refusals fd server port m)).
  { intro m. apply Forall_forall. intros e He.
    apply repeat_spec in He. now subst e. }
  intros [|k Hk|k Hk]; rewrite ?Forall_app; repeat split; try apply R;
    repeat constructor.
Qed.

Lemma course_connects (self self' : ASendBuffer) (n : nat)
    (evs : list Socket.event) :
  flush_course fd server port self n self' evs ->
  (List.length (filter is_connect evs) <= n)%nat /\
  ((0 < n)%nat -> (1 <= List.length (filter is_connect evs))%nat).
Proof.
  assert (R : forall m, List.length (filter is_connect (refusals fd server port m)) = m).
  { unfold refusals. induction m as [|m IH]; simpl; [reflexivity | now rewrite IH]. }
  intros [|k Hk|k Hk]; rewrite ?filter_app, ?length_app, ?R; simpl; rewrite ?R; lia.
Qed.

(** A failed send occurs in the third course only, and once. *)
Lemma course_send_failed (self self' : ASendBuffer) (n : nat)
    (evs pre post : list Socket.event) (e : Socket.event) :
  flush_course fd server port self n self' evs ->
  (Socket.Create fd :: evs ++ [Socket.Close fd] = pre ++ e :: post)%list ->
  send_failed e = true ->
  self' = self /\
  exists k, (k < n)%nat /\
    pre = (Socket.Create fd :: refusals fd server port k ++
           [Socket.Connect fd server port true])%list /\
    e = Socket.Sendall fd (get_messages self ++ Py.nl) false /\
    post = (Socket.Close fd :: refusals fd server port (n - S k) ++
            [Socket.Close fd])%list.
Proof.
  intros [|k Hk|k Hk] Heq He.
  - exfalso. refine (no_split_at send_failed _ _ _ _ _ Heq He).
    simpl. now rewrite forallb_app, forallb_refusals.
  - exfalso. refine (no_split_at send_failed _ _ _ _ _ Heq He).
    simpl. now rewrite !forallb_app, forallb_refusals.
  - split; [reflexivity|]. exists k. split; [exact Hk|].
    apply (split_unique send_failed); try assumption.
    + simpl. now rewrite forallb_app, forallb_refusals.
    + simpl. now rewrite forallb_app, forallb_refusals.
    + rewrite <- Heq. simpl. rewrite <- !app_assoc. reflexivity.
Qed.

End Courses.

(** C10.  All attempts of one flush call run on the one socket created at
    its start.  When a send fails in that call, the next call made is the
    close of that socket; no connect and no send after it succeeds, none
    before it had, and the buffer is left as it was. *)
Theorem failed_send_closes_shared_socket :
  forall net server port self w self' w' pre e post,
    GraphiteBuffer_flush net server port self w = (self', w') ->
    calls_between w w' = (pre ++ e :: post)%list ->
    send_failed e = true ->
    (exists rest,
        calls_between w w' = Socket.Create (next_fd w) :: rest /\
        forallb (fun c => negb (is_create c) && (fd_of c =? next_fd w)%nat)
          rest = true) /\
    (exists post', post = Socket.Close (next_fd w) :: post') /\
    forallb (fun c => negb (succeeded c)) post = true /\
    forallb (fun c => negb (is_sendall c && succeeded c)) pre = true /\
    self' = self.
Proof.
  intros net server port self w self' w' pre e post Hflush Hsplit He.
  destruct (graphite_flush_course net server port self w)
    as (s1 & w1 & evs & Hrun & Hcalls & Hcourse & _).
  rewrite Hflush in Hrun. inversion Hrun; subst s1 w1; clear Hrun.
  rewrite Hcalls in *.
  destruct (course_send_failed _ _ _ _ _ _ _ _ _ _ Hcourse Hsplit He)
    as (-> & k & Hk & -> & -> & ->).
  split; [|split; [|split; [|split]]].
  - eexists. split; [reflexivity|].
    rewrite forallb_app, (course_one_socket _ _ _ _ _ _ _ Hcourse). simpl.
    now rewrite Nat.eqb_refl.
  - eexists. reflexivity.
  - simpl. now rewrite forallb_app, forallb_refusals.
  - simpl. now rewrite forallb_app, forallb_refusals.
  - reflexivity.
Qed.

Lemma failed_send_closes_shared_socket_witness :
  forallb (fun c => negb (succeeded c))
    [Socket.Close 0; Socket.Connect 0 "graphite" 2003 false;
     Socket.Connect 0 "graphite" 2003 false; Socket.Close 0] = true /\
  fst (GraphiteBuffer_flush first_send_fails "graphite" 2003 one_line world0) =
    one_line.
Proof.
  destruct (failed_send_closes_shared_socket first_send_fails "graphite" 2003
              one_line world0
              (fst (GraphiteBuffer_flush first_send_fails "graphite" 2003
                      one_line world0))
              (snd (GraphiteBuffer_flush first_send_fails "graphite" 2003
                      one_line world0))
              [Socket.Create 0; Socket.Connect 0 "graphite" 2003 true]
              (Socket.Sendall 0 (get_messages one_line ++ Py.nl) false)
              [Socket.Close 0; Socket.Connect 0 "graphite" 2003 false;
               Socket.Connect 0 "graphite" 2003 false; Socket.Close 0]
              eq_refl eq_refl eq_refl) as (_ & _ & Hpost & _ & Hself).
  split; [exact Hpost | exact Hself].
Defined.

(** C4, as the code has it.  A flush call creates one socket before its
    first attempt, and a later call is given another descriptor.  Every
    attempt up to and including the first that obtains a connection asks for
    it on that one socket, to the configured server and port: after a
    refused connection the socket is reused, not replaced.  A connection
    that was obtained is closed on every exit path of its attempt, right
    after the send, whether the send succeeded or failed; a call in which
    all three connections were refused ends by closing the socket as well.
    What the attempts after a failed send do is left open here. *)
Theorem flush_call_owns_one_socket :
  forall net server port self w self' w',
    GraphiteBuffer_flush net server port self w = (self', w') ->
    (next_fd w < next_fd w')%nat /\
    exists k rest,
      calls_between w w' =
        (Socket.Create (next_fd w) ::
         refusals (next_fd w) server port k ++ rest)%list /\
      ((k = 3%nat /\ rest = [Socket.Close (next_fd w)]) \/
       ((k < 3)%nat /\
        rest = [Socket.Connect (next_fd w) server port true;
                Socket.Sendall (next_fd w) (get_messages self ++ Py.nl) true;
                Socket.Close (next_fd w)]) \/
       ((k < 3)%nat /\
        exists after,
          rest = (Socket.Connect (next_fd w) server port true ::
                  Socket.Sendall (next_fd w) (get_messages self ++ Py.nl) false ::
                  Socket.Close (next_fd w) :: after)%list)).
Proof.
  intros net server port self w self' w' Hflush.
  destruct (graphite_flush_course net server port self w)
    as (s1 & w1 & evs & Hrun & Hcalls & Hcourse & Hfd & _).
  rewrite Hflush in Hrun. inversion Hrun; subst s1 w1; clear Hrun.
  split; [lia|].
  rewrite Hcalls. destruct Hcourse as [|k Hk|k Hk].
  - exists 3%nat, [Socket.Close (next_fd w)]. split; [reflexivity|].
    left. split; reflexivity.
  - exists k. eexists. split; [rewrite <- app_assoc; reflexivity|].
    right. left. split; [exact Hk | reflexivity].
  - exists k. eexists. split; [rewrite <- app_assoc; reflexivity|].
    right. right. split; [exact Hk|].
    eexists. cbn [app]. reflexivity.
Qed.

Lemma flush_call_owns_one_socket_witness :
  (0 < next_fd (snd (GraphiteBuffer_flush first_connect_refused "graphite"
                       2003 one_line world0)))%nat /\
  exists k rest,
    calls_between world0
      (snd (GraphiteBuffer_flush first_connect_refused "graphite" 2003
              one_line world0)) =
      (Socket.Create 0 :: refusals 0 "graphite" 2003 k ++ rest)%list /\
    ((k = 3%nat /\ rest = [Socket.Close 0]) \/
     ((k < 3)%nat /\
      rest = [Socket.Connect 0 "graphite" 2003 true;
              Socket.Sendall 0 (get_messages one_line ++ Py.nl) true;
              Socket.Close 0]) \/
     ((k < 3)%nat /\
      exists after,
        rest = (Socket.Connect 0 "graphite" 2003 true ::
                Socket.Sendall 0 (get_messages one_line ++ Py.nl) false ::
                Socket.Close 0 :: after)%list)).
Proof.
  exact (flush_call_owns_one_socket first_connect_refused "graphite" 2003
           one_line world0
           (fst (GraphiteBuffer_flush first_connect_refused "graphite" 2003
                   one_line world0))
           (snd (GraphiteBuffer_flush first_connect_refused "graphite" 2003
                   one_line world0))
           eq_refl).
Defined.

(** C4, as the specification words it, fails: when the first connection is
    refused and the second accepted, both attempts ask for their connection
    on descriptor 0; no socket is created and none is closed between them. *)
Lemma attempts_reuse_the_socket :
  calls_between world0
    (snd (GraphiteBuffer_flush first_connect_refused "graphite" 2003
            one_line world0)) =
    [Socket.Create 0;
     Socket.Connect 0 "graphite" 2003 false;
     Socket.Connect 0 "graphite" 2003 true;
     Socket.Sendall 0 ("blockstat.h.sda.read_io 42 1000000000" ++ Py.nl) true;
     Socket.Close 0] /\
  ~ NoDup (connect_fds
             (calls_between world0
                (snd (GraphiteBuffer_flush first_connect_refused "graphite"
                        2003 one_line world0)))).
Proof.
  split; [reflexivity|].
  intro H. vm_compute in H. inversion H as [|x l Hin _]; subst.
  apply Hin. now left.
Qed.

(** C3, at the failing input.  The server accepts every connection and
    would take the data at the second and the third attempt, but not at the
    first.  The failed send closes the socket the later attempts run on:
    both fail at [connect], three connections were asked for, and the
    buffer still holds its line. *)
Theorem retry_after_failed_send_cannot_deliver :
  exists self' w',
    GraphiteBuffer_flush first_send_fails "graphite" 2003 one_line world0 =
      (self', w') /\
    get_messages self' = "blockstat.h.sda.read_io 42 1000000000" /\
    self' <> clear one_line /\
    network w' =
      [Socket.Create 0;
       Socket.Connect 0 "graphite" 2003 true;
       Socket.Sendall 0 ("blockstat.h.sda.read_io 42 1000000000" ++ Py.nl) false;
       Socket.Close 0;
       Socket.Connect 0 "graphite" 2003 false;
       Socket.Connect 0 "graphite" 2003 false;
       Socket.Close 0].
Proof.
  do 2 eexists. split; [reflexivity|].
  split; [reflexivity|]. split; [discriminate | reflexivity].
Qed.

(** X9.  What holds of the retry loop for every answer of the network: the
    buffer is cleared exactly when a batch is delivered, and delivery is the
    last thing done before the socket is closed; otherwise the buffer is
    left as it was and the call returns all the same. *)
Lemma flush_clears_iff_delivered (net : Net) (server : string) (port : Z)
    (self : ASendBuffer) (w : World) :
  exists self' w',
    GraphiteBuffer_flush net server port self w = (self', w') /\
    ((self' = clear self /\
      exists k, (k < 3)%nat /\
        calls_between w w' =
          (Socket.Create (next_fd w) :: refusals (next_fd w) server port k ++
           [Socket.Connect (next_fd w) server port true;
            Socket.Sendall (next_fd w) (get_messages self ++ Py.nl) true;
            Socket.Close (next_fd w)])%list) \/
     (self' = self /\
      forallb (fun c => negb (is_sendall c && succeeded c))
        (calls_between w w') = true /\
      List.length (filter is_connect (calls_between w w')) = 3%nat)).
Proof.
  destruct (graphite_flush_course net server port self w)
    as (self' & w' & evs & Hrun & Hcalls & Hcourse & _).
  exists self', w'. split; [exact Hrun|]. rewrite Hcalls.
  assert (R : forall m,
             List.length (filter is_connect (refusals (next_fd w) server port m)) = m).
  { unfold refusals. induction m as [|m IH]; simpl; [reflexivity | now rewrite IH]. }
  assert (F : forall m,
             forallb (fun c => negb (is_sendall c && succeeded c))
               (refusals (next_fd w) server port m) = true).
  { intro m. now apply forallb_refusals. }
  destruct Hcourse as [|k Hk|k Hk].
  - right. split; [reflexivity|].
    cbn [forallb filter is_connect is_sendall succeeded negb andb List.length].
    rewrite forallb_app, F, filter_app, length_app, R.
    split; [reflexivity | simpl; lia].
  - left. split; [reflexivity|]. exists k. split; [exact Hk|].
    now rewrite <- app_assoc.
  - right. split; [reflexivity|].
    cbn [forallb filter is_connect is_sendall succeeded negb andb List.length].
    rewrite !forallb_app, !filter_app, !length_app.
    cbn [forallb filter is_connect is_sendall succeeded negb andb List.length app].
    rewrite !F, !R.
    split; [reflexivity | lia].
Qed.

(** X10.  The retry does work against refused connections: two refusals and then
    an accepted connection whose send succeeds clear the buffer, after three
    connections asked for. *)
Lemma flush_delivers_after_two_refusals (net : Net) (server : string)
    (port : Z) (self : ASendBuffer) (w : World) :
  accepts net 0%nat = false -> accepts net 1%nat = false ->
  accepts net 2%nat = true -> delivers net 2%nat = true ->
  exists w',
    GraphiteBuffer_flush net server port self w = (clear self, w') /\
    calls_between w w' =
      [Socket.Create (next_fd w);
       Socket.Connect (next_fd w) server port false;
       Socket.Connect (next_fd w) server port false;
       Socket.Connect (next_fd w) server port true;
       Socket.Sendall (next_fd w) (get_messages self ++ Py.nl) true;
       Socket.Close (next_fd w)].
Proof.
  intros A0 A1 A2 D2.
  unfold GraphiteBuffer_flush, socket_socket. simpl.
  rewrite A0. simpl. rewrite A1. simpl. rewrite A2. simpl. rewrite D2.
  eexists. split; [reflexivity|].
  apply calls_between_app. unfold debug, warn.
  repeat (progress (cbn [syscall network]; rewrite ?log_network)).
  rewrite <- !app_assoc. reflexivity.
Qed.

(** Three failed attempts, whatever their kind, leave the buffer as it was. *)
Lemma flush_keeps_buffer_when_nothing_delivered (net : Net) (server : string)
    (port : Z) (self : ASendBuffer) (w : World) :
  (forall attempt, accepts net attempt && delivers net attempt = false) ->
  exists w', GraphiteBuffer_flush net server port self w = (self, w').
Proof.
  intro H. unfold GraphiteBuffer_flush, socket_socket. simpl.
  pose proof (H 0%nat) as H0. pose proof (H 1%nat) as H1. pose proof (H 2%nat) as H2.
  destruct (accepts net 0); simpl in *; [rewrite H0|];
    (destruct (accepts net 1); simpl in *; [rewrite ?H1|]);
    (destruct (accepts net 2); simpl in *; [rewrite ?H2|]);
    eexists; reflexivity.
Qed.

(** C7.  In machine mode the line put in the buffer for an integer
    timestamp is [blockstat.<short-hostname>.<device>.<CounterName> <value>
    <unix-timestamp>], the short host name being the host name up to its
    first dot; for host [h], device [sda], [read_io] = 42 at 1000000000 it
    is exactly [blockstat.h.sda.read_io 42 1000000000].  Whatever a flush
    call sends is the buffered text followed by one line feed. *)
Theorem graphite_line_and_batch :
  (forall host send_buffer n stat_type block stat,
      GraphiteOutput_send host send_buffer (TInt n) stat_type block stat =
        Ok (put send_buffer
              ("blockstat." ++ Py.before_first "." (gethostname host) ++ "." ++
               block ++ "." ++ StatType_name stat_type ++ " " ++ Py.str stat ++
               " " ++ Py.str n))) /\
  (forall hostname, exists rest,
      hostname = Py.before_first "." hostname ++ rest /\
      all_chars (fun c => negb (c =? ".")%char)
        (Py.before_first "." hostname) = true /\
      (rest = EmptyString \/ exists r, rest = String "." r)) /\
  (forall c offset,
      GraphiteOutput_send (mk_Host "h" offset) (new_buffer c)
        (TInt 1000000000) read_io "sda" 42 =
        Ok (mk_ASendBuffer c "blockstat.h.sda.read_io 42 1000000000")) /\
  (forall net server port self w,
      Forall (payload_is (get_messages self ++ Py.nl))
        (calls_between w (snd (GraphiteBuffer_flush net server port self w)))) /\
  calls_between world0
    (snd (GraphiteBuffer_flush server_up "graphite" 2003 one_line world0)) =
    [Socket.Create 0;
     Socket.Connect 0 "graphite" 2003 true;
     Socket.Sendall 0 ("blockstat.h.sda.read_io 42 1000000000" ++ Py.nl) true;
     Socket.Close 0].
Proof.
  split; [intros; apply graphite_send_line|].
  split; [intro; apply before_first_spec|].
  split; [reflexivity|].
  split; [|reflexivity].
  intros net server port self w.
  destruct (graphite_flush_course net server port self w)
    as (self' & w' & evs & Hrun & Hcalls & Hcourse & _).
  rewrite Hrun. cbn [snd]. rewrite Hcalls.
  constructor; [exact I|].
  apply Forall_app. split; [|repeat constructor].
  exact (course_payload _ _ _ _ _ _ _ Hcourse).
Qed.

(** ** Trimming, collapsing and splitting a stat record *)

Lemma isdigit_not_isspace (c : ascii) :
  Py.isdigit c = true -> Py.isspace c = false.
Proof.
  destruct c as [[] [] [] [] [] [] [] []]; vm_compute; congruence.
Qed.

Lemma not_isspace_not_blank (c : ascii) :
  Py.isspace c = false -> (c =? " ")%char = false.
Proof.
  destruct (c =? " ")%char eqn:E; [|reflexivity].
  apply Ascii.eqb_eq in E. subst c. discriminate.
Qed.

Lemma all_chars_weaken (p q : ascii -> bool) (s : string) :
  (forall c, p c = true -> q c = true) ->
  all_chars p s = true -> all_chars q s = true.
Proof.
  intro H. induction s as [|c s IH]; simpl; [reflexivity|].
  intro Hs. apply andb_prop in Hs. destruct Hs as [Hc Hs].
  now rewrite (H c Hc), (IH Hs).
Qed.

Lemma digits_no_space (s : string) :
  all_chars Py.isdigit s = true -> no_space s = true.
Proof.
  apply all_chars_weaken. intros c Hc. now rewrite (isdigit_not_isspace c Hc).
Qed.

Lemma lstrip_all_space_app (a s : string) :
  all_space a = true -> Py.lstrip (a ++ s) = Py.lstrip s.
Proof.
  induction a as [|c a IH]; simpl; [reflexivity|].
  intro H. apply andb_prop in H. destruct H as [Hc Ha].
  now rewrite Hc, (IH Ha).
Qed.

Lemma lstrip_no_space (f s : string) :
  no_space f = true -> Py.is_empty f = false -> Py.lstrip (f ++ s) = f ++ s.
Proof.
  destruct f as [|c f]; simpl; [discriminate|].
  intros H _. apply andb_prop in H. destruct H as [Hc _].
  apply negb_true_iff in Hc. now rewrite Hc.
Qed.

Lemma rstrip_app_all_space (s t : string) :
  all_space t = true -> Py.rstrip (s ++ t) = Py.rstrip s.
Proof.
  intro Ht. induction s as [|c s IH]; simpl.
  - induction t as [|d t IHt]; simpl; [reflexivity|].
    simpl in Ht. apply andb_prop in Ht. destruct Ht as [Hd Ht].
    now rewrite (IHt Ht), Hd.
  - now rewrite IH.
Qed.

Lemma rstrip_no_space (f : string) :
  no_space f = true -> Py.rstrip f = f.
Proof.
  induction f as [|c f IH]; simpl; [reflexivity|].
  intro H. apply andb_prop in H. destruct H as [Hc Hf].
  apply negb_true_iff in Hc. now rewrite (IH Hf), Hc.
Qed.

Lemma rstrip_app_no_space (s f : string) :
  no_space f = true -> Py.is_empty f = false -> Py.rstrip (s ++ f) = s ++ f.
Proof.
  intros Hf Hne. induction s as [|c s IH]; simpl.
  - now apply rstrip_no_space.
  - rewrite IH.
    replace (Py.is_empty (s ++ f)) with false; [now rewrite andb_false_r|].
    destruct s; simpl; [now rewrite Hne | reflexivity].
Qed.

Lemma collapse_no_space_app (f s : string) :
  no_space f = true -> Py.collapse false (f ++ s) = f ++ Py.collapse false s.
Proof.
  induction f as [|c f IH]; simpl; [reflexivity|].
  intro H. apply andb_prop in H. destruct H as [Hc Hf].
  apply negb_true_iff in Hc. now rewrite Hc, (IH Hf).
Qed.

Lemma collapse_run_field (f s : string) :
  no_space f = true -> Py.is_empty f = false ->
  Py.collapse true (f ++ s) = f ++ Py.collapse false s.
Proof.
  destruct f as [|c f]; simpl; [discriminate|].
  intros H _. apply andb_prop in H. destruct H as [Hc Hf].
  apply negb_true_iff in Hc. now rewrite Hc, (collapse_no_space_app f s Hf).
Qed.

Lemma collapse_run_space (a s : string) :
  all_space a = true -> Py.collapse true (a ++ s) = Py.collapse true s.
Proof.
  induction a as [|c a IH]; simpl; [reflexivity|].
  intro H. apply andb_prop in H. destruct H as [Hc Ha].
  now rewrite Hc, (IH Ha).
Qed.

Lemma collapse_separator (sep s : string) :
  is_separator sep = true ->
  Py.collapse false (sep ++ s) = String " " (Py.collapse true s).
Proof.
  unfold is_separator. destruct sep as [|c a]; simpl; [discriminate|].
  intro H. apply andb_prop in H. destruct H as [Hc Ha].
  now rewrite Hc, (collapse_run_space a s Ha).
Qed.

Lemma split_no_blank (f : string) :
  no_space f = true -> Py.split " " f = [f].
Proof.
  induction f as [|c f IH]; simpl; [reflexivity|].
  intro H. apply andb_prop in H. destruct H as [Hc Hf].
  apply negb_true_iff in Hc.
  now rewrite (not_isspace_not_blank c Hc), (IH Hf).
Qed.

Lemma split_field_blank (f s : string) :
  no_space f = true ->
  Py.split " " (f ++ String " " s) = f :: Py.split " " s.
Proof.
  induction f as [|c f IH]; simpl; [reflexivity|].
  intro H. apply andb_prop in H. destruct H as [Hc Hf].
  apply negb_true_iff in Hc.
  now rewrite (not_isspace_not_blank c Hc), (IH Hf).
Qed.

Lemma decimal_field (f : string) :
  is_decimal f = true ->
  all_chars Py.isdigit f = true /\ no_space f = true /\ Py.is_empty f = false.
Proof.
  unfold is_decimal. intro H. apply andb_prop in H. destruct H as [Hne Hd].
  apply negb_true_iff in Hne. auto using digits_no_space.
Qed.

Lemma well_formed_more_cons (sep field : string) (rest : list (string * string)) :
  well_formed_more ((sep, field) :: rest) = true ->
  is_separator sep = true /\ is_decimal field = true /\
  well_formed_more rest = true.
Proof.
  unfold well_formed_more. simpl. intro H.
  apply andb_prop in H. destruct H as [H Hrest].
  apply andb_prop in H. tauto.
Qed.

(** The fields joined by their separators end in the last field. *)
Lemma joined_ends_in_field (more : list (string * string)) :
  well_formed_more more = true ->
  forall first, is_decimal first = true ->
  exists p f,
    first ++ join_fields more = p ++ f /\
    no_space f = true /\ Py.is_empty f = false.
Proof.
  induction more as [|[sep field] rest IH]; intros Hwf first Hfirst.
  - exists EmptyString, first. simpl. rewrite append_empty_r.
    destruct (decimal_field first Hfirst) as (_ & H1 & H2). auto.
  - destruct (well_formed_more_cons _ _ _ Hwf) as (_ & Hfield & Hrest).
    destruct (IH Hrest field Hfield) as (p & f & Heq & Hf).
    exists (first ++ sep ++ p), f. split; [|exact Hf].
    simpl. now rewrite Heq, !append_assoc.
Qed.

Lemma collapse_join_fields (more : list (string * string)) :
  well_formed_more more = true ->
  Py.collapse false (join_fields more) =
    join_fields (map (fun p => (" ", snd p)) more).
Proof.
  induction more as [|[sep field] rest IH]; intro Hwf; [reflexivity|].
  destruct (well_formed_more_cons _ _ _ Hwf) as (Hsep & Hfield & Hrest).
  destruct (decimal_field field Hfield) as (_ & Hns & Hne).
  simpl. now rewrite (collapse_separator _ _ Hsep),
    (collapse_run_field _ _ Hns Hne), (IH Hrest).
Qed.

Lemma split_join_fields (more : list (string * string)) :
  well_formed_more more = true ->
  forall first, is_decimal first = true ->
  Py.split " " (first ++ join_fields (map (fun p => (" ", snd p)) more)) =
    first :: map snd more.
Proof.
  induction more as [|[sep field] rest IH]; intros Hwf first Hfirst;
    destruct (decimal_field first Hfirst) as (_ & Hns & _).
  - simpl. rewrite append_empty_r. now apply split_no_blank.
  - destruct (well_formed_more_cons _ _ _ Hwf) as (_ & Hfield & Hrest).
    simpl. now rewrite (split_field_blank _ _ Hns), (IH Hrest field Hfield).
Qed.

(** The fields of a stat record are the decimal strings it was built from,
    whatever white space stands around and between them. *)
Lemma record_fields_stat_record (lead first : string)
    (more : list (string * string)) (trail : string) :
  all_space lead = true -> all_space trail = true ->
  is_decimal first = true -> well_formed_more more = true ->
  record_fields (stat_record lead first more trail) = first :: map snd more.
Proof.
  intros Hlead Htrail Hfirst Hmore.
  destruct (decimal_field first Hfirst) as (_ & Hns & Hne).
  unfold record_fields, stat_record.
  rewrite (lstrip_all_space_app _ _ Hlead), (lstrip_no_space _ _ Hns Hne).
  rewrite <- append_assoc, (rstrip_app_all_space _ _ Htrail).
  destruct (joined_ends_in_field more Hmore first Hfirst) as (p & f & Heq & Hf & Hfe).
  rewrite Heq, (rstrip_app_no_space _ _ Hf Hfe), <- Heq.
  unfold Py.re_sub_ws.
  rewrite (collapse_no_space_app _ _ Hns), (collapse_join_fields _ Hmore).
  now apply split_join_fields.
Qed.

(** ** [int] on a decimal string *)

Lemma int_digits_decimal (s : string) :
  all_chars Py.isdigit s = true ->
  forall acc, Py.int_digits true acc s = Some (decimal_from acc s).
Proof.
  induction s as [|c s IH]; simpl; [reflexivity|].
  intros H acc. apply andb_prop in H. destruct H as [Hc Hs].
  now rewrite Hc, (IH Hs).
Qed.

Lemma isdigit_not_sign (c : ascii) :
  Py.isdigit c = true -> (c =? "-")%char = false /\ (c =? "+")%char = false.
Proof.
  destruct c as [[] [] [] [] [] [] [] []]; vm_compute; intuition congruence.
Qed.

Lemma int_space_isspace (c : ascii) :
  Py.int_space c = true -> Py.isspace c = true.
Proof. destruct c as [[] [] [] [] [] [] [] []]; vm_compute; congruence. Qed.

(** [int] finds nothing to skip around a text without white space. *)
Lemma int_strip_no_space (f : string) :
  no_space f = true -> Py.int_rstrip (Py.int_lstrip f) = f.
Proof.
  intro H.
  assert (Hc : forall c, negb (Py.isspace c) = true -> Py.int_space c = false).
  { intros c Hc. destruct (Py.int_space c) eqn:E; [|reflexivity].
    now rewrite (int_space_isspace c E) in Hc. }
  assert (Hl : Py.int_lstrip f = f).
  { destruct f as [|c f]; [reflexivity|].
    cbn [no_space all_chars] in H. apply andb_prop in H. destruct H as [H1 _].
    cbn [Py.int_lstrip]. now rewrite (Hc c H1). }
  rewrite Hl. clear Hl.
  induction f as [|c f IH]; [reflexivity|].
  cbn [no_space all_chars] in H. apply andb_prop in H. destruct H as [H1 H2].
  cbn [Py.int_rstrip]. now rewrite (IH H2), (Hc c H1).
Qed.

Lemma int_decimal (f : string) :
  is_decimal f = true -> Py.int f = Ok (decimal_value f).
Proof.
  intro H. destruct (decimal_field f H) as (Hd & Hns & Hne).
  pose proof (int_strip_no_space f Hns) as Hstrip.
  unfold Py.int. rewrite Hstrip. clear Hstrip.
  destruct f as [|c f]; [discriminate|].
  simpl in Hd. apply andb_prop in Hd. destruct Hd as [Hc Hd].
  destruct (isdigit_not_sign c Hc) as [-> ->].
  unfold decimal_value. cbn [Py.int_digits decimal_from].
  now rewrite Hc, (int_digits_decimal f Hd).
Qed.

(** ** [BlockStat.collect] on a readable device *)

Lemma collect_readable (env : Env) (self : BlockStat) (w : World) (text : string) :
  open_read env (statfile_of (_block self)) = Some text ->
  collect env self w =
    collect_fields (statfile_of (_block self)) (record_fields text)
      StatType_members (set_time self (TInt (time_time env))) w.
Proof.
  intro H. unfold collect. rewrite format_statfile.
  cbn [set_time _block]. now rewrite H.
Qed.

(** When every member finds its field and the field converts, the loop
    assigns the members one after the other and returns. *)
Lemma collect_fields_ok (statfile : string) (blockstat_map : list string)
    (value_of : StatType -> Z) (types : list StatType) :
  (forall t, In t types ->
     exists f, nth_error blockstat_map (StatType_value t) = Some f /\
               Py.int f = Ok (value_of t)) ->
  forall self w,
    collect_fields statfile blockstat_map types self w =
      (Ok tt,
       mk_BlockStat (_block self)
         (fold_left (fun d t => dict_set d t (value_of t)) types (_stats self))
         (_time self),
       w).
Proof.
  induction types as [|t types IH]; intros H self w.
  - now destruct self.
  - destruct (H t (or_introl eq_refl)) as (f & Hnth & Hint).
    cbn [collect_fields fold_left]. rewrite Hnth, Hint.
    rewrite IH by (intros t' Ht'; apply H; now right).
    reflexivity.
Qed.

(** Assigning all members in order gives the same mapping whatever values
    the mapping held, its keys being in order. *)
Lemma assign_members (value_of : StatType -> Z) (d : dict) :
  keys_in_order d ->
  fold_left (fun d t => dict_set d t (value_of t)) StatType_members d =
    map (fun t => (t, value_of t)) StatType_members.
Proof.
  intros [n H]. unfold dict_keys, StatType_members in H.
  do 11 (destruct n as [|n]; destruct d as [|[? ?] d]; cbn [map fst firstn] in H;
         try discriminate; [reflexivity | injection H as -> H]).
  rewrite firstn_nil in H. destruct d; [reflexivity | discriminate].
Qed.

Lemma dict_keys_set (d : dict) (k : StatType) (v : Z) :
  dict_keys (dict_set d k v) =
    if existsb (fun k' => StatType_eqb k' k) (dict_keys d) then dict_keys d
    else (dict_keys d ++ [k])%list.
Proof.
  induction d as [|[k' v'] d IH]; [reflexivity|].
  cbn [dict_set dict_keys map fst existsb].
  destruct (StatType_eqb k' k); [reflexivity|].
  cbn [orb map fst]. fold (dict_keys (dict_set d k v)). rewrite IH.
  fold (dict_keys d). now destruct (existsb _ _).
Qed.

(** Assigning the member at position [j] to a mapping that holds at least
    the [j] members before it keeps the keys in order. *)
Lemma set_member_in_order (d : dict) (j : nat) (t : StatType) (v : Z) :
  nth_error StatType_members j = Some t ->
  (exists n, (j <= n)%nat /\ dict_keys d = firstn n StatType_members) ->
  exists n, (S j <= n)%nat /\
            dict_keys (dict_set d t v) = firstn n StatType_members.
Proof.
  intros Ht (n & Hn & Hd). rewrite dict_keys_set, Hd. clear Hd d.
  assert (Hj : (j < 11)%nat).
  { apply (proj1 (nth_error_Some StatType_members j)). congruence. }
  destruct (Nat.eq_dec j n) as [<- | Hne].
  - exists (S j). split; [lia|].
    do 11 (destruct j as [|j]; [injection Ht as <-; reflexivity|]). lia.
  - exists (Nat.min n 11). split; [lia|].
    assert (firstn n StatType_members = firstn (Nat.min n 11) StatType_members) as ->.
    { destruct (Nat.le_gt_cases n 11).
      - now rewrite Nat.min_l.
      - rewrite Nat.min_r by lia. now rewrite !firstn_all2 by (simpl; lia). }
    assert (Hm : (j < Nat.min n 11)%nat) by lia.
    assert (Hm' : (Nat.min n 11 <= 11)%nat) by lia.
    remember (Nat.min n 11) as m. clear Heqm Hn Hne n.
    do 12 (destruct m as [|m];
           [repeat (destruct j as [|j]; [injection Ht as <-; reflexivity|]); lia|]).
    lia.
Qed.

Lemma skipn_cons_nth {A : Type} (l : list A) (j : nat) (x : A) (rest : list A) :
  skipn j l = x :: rest -> nth_error l j = Some x /\ skipn (S j) l = rest.
Proof.
  revert l. induction j as [|j IH]; intros [|y l] H; try discriminate.
  - injection H as -> ->. auto.
  - now apply IH.
Qed.

Lemma collect_fields_keeps_order (statfile : string) (blockstat_map : list string)
    (types : list StatType) :
  forall j self w r self' w',
    types = skipn j StatType_members ->
    (exists n, (j <= n)%nat /\
               dict_keys (_stats self) = firstn n StatType_members) ->
    collect_fields statfile blockstat_map types self w = (r, self', w') ->
    keys_in_order (_stats self').
Proof.
  induction types as [|t types IH]; intros j self w r self' w' Htypes Hkeys H;
    cbn [collect_fields] in H.
  - inversion H; subst. destruct Hkeys as (n & _ & Hn). now exists n.
  - destruct (skipn_cons_nth _ _ _ _ (eq_sym Htypes)) as [Ht Hrest].
    assert (Hself : keys_in_order (_stats self))
      by (destruct Hkeys as (n & _ & Hn); now exists n).
    destruct (nth_error blockstat_map (StatType_value t)) as [f|];
      [|inversion H; subst; exact Hself].
    destruct (Py.int f) as [v|e].
    + apply (IH (S j) _ _ _ _ _ (eq_sym Hrest)) in H; [exact H|].
      cbn [set_stat _stats]. now apply (set_member_in_order _ j).
    + destruct e; inversion H; subst; exact Hself.
Qed.

(** X5.  The keys of a sample stay in order through every call of
    [collect], whether it returns or raises; a new sample has them in
    order. *)
Lemma collect_keeps_order (env : Env) (self : BlockStat) (w : World) :
  forall r self' w',
    keys_in_order (_stats self) ->
    collect env self w = (r, self', w') ->
    keys_in_order (_stats self').
Proof.
  intros r self' w' [n Hn]. unfold collect. rewrite format_statfile.
  destruct (open_read env _) as [text|].
  - apply (collect_fields_keeps_order _ _ _ 0%nat); [reflexivity|].
    exists n. split; [lia | exact Hn].
  - intro H. inversion H; subst. now exists n.
Qed.

Lemma new_BlockStat_in_order (block : string) :
  keys_in_order (_stats (new_BlockStat block)).
Proof. now exists 0%nat. Qed.

(** C5.  A stat record of eleven decimal fields, with any white space
    before, between and after them, is collected into a sample whose values
    mapping holds the eleven members of [StatType] in their enumeration
    order, each with the number written in the field at its position; the
    sample carries the time of the call, and nothing is logged.  The keys
    of the sample object are in order when [collect] is called, as they are
    in every state a sample goes through ([collect_keeps_order]). *)
Theorem collect_parses_eleven_fields :
  forall env self w lead first more trail,
    all_space lead = true -> all_space trail = true ->
    is_decimal first = true -> well_formed_more more = true ->
    List.length more = 10%nat ->
    keys_in_order (_stats self) ->
    open_read env (statfile_of (_block self)) =
      Some (stat_record lead first more trail) ->
    collect env self w =
      (Ok tt,
       mk_BlockStat (_block self)
         (combine StatType_members
            (map decimal_value (first :: map snd more)))
         (TInt (time_time env)),
       w) /\
    dict_keys (combine StatType_members
                 (map decimal_value (first :: map snd more))) =
      StatType_members.
Proof.
  intros env self w lead first more trail Hlead Htrail Hfirst Hmore Hlen
    Hprior Hopen.
  rewrite (collect_readable _ _ _ _ Hopen),
    (record_fields_stat_record _ _ _ _ Hlead Htrail Hfirst Hmore).
  do 10 (destruct more as [|[? ?] more]; [discriminate|]).
  destruct more; [clear Hlen | discriminate].
  repeat match goal with
         | H : well_formed_more (_ :: _) = true |- _ =>
             apply well_formed_more_cons in H; destruct H as (_ & ? & H)
         end.
  split; [|reflexivity].
  match goal with
  | |- context [collect_fields _ ?fields _ _ _] =>
      rewrite (collect_fields_ok _ fields
                 (fun t => decimal_value
                             (nth (StatType_value t) fields EmptyString)))
  end.
  - cbn [set_time _block _stats _time]. now rewrite assign_members.
  - intros t Hin. cbn [StatType_members In] in Hin.
    repeat (destruct Hin as [<- | Hin];
            [eexists; split; [reflexivity | now apply int_decimal]|]).
    contradiction.
Qed.

Lemma collect_parses_eleven_fields_witness :
  collect sda_readable (new_BlockStat "sda") world0 =
    (Ok tt,
     mk_BlockStat "sda"
       [(read_io, 4096); (read_merges, 12); (read_sectors, 524288);
        (read_ticks, 1500); (write_io, 2048); (write_merges, 34);
        (write_sectors, 262144); (write_ticks, 2500); (in_flight, 0);
        (io_ticks, 3000); (time_in_queue, 4000)]
       (TInt 1000000000),
     world0).
Proof.
  exact (proj1 (collect_parses_eleven_fields sda_readable (new_BlockStat "sda")
                  world0 "    " "4096" sda_more Py.nl
                  eq_refl eq_refl eq_refl eq_refl eq_refl
                  (ex_intro _ 0%nat eq_refl) eq_refl)).
Defined.

(** ** A corrupt record *)

Lemma int_raises_ValueError (s : string) (e : exn) :
  Py.int s = Raise e -> e = ValueError.
Proof.
  unfold Py.int.
  match goal with |- match ?x with _ => _ end = _ -> _ => destruct x end;
    congruence.
Qed.

Lemma nth_error_below {A : Type} (l : list A) (j k : nat) (x : A) :
  nth_error l j = Some x -> (k <= j)%nat -> exists y, nth_error l k = Some y.
Proof.
  intros Hj Hk.
  destruct (nth_error l k) as [y|] eqn:E; [now exists y|].
  apply nth_error_None in E.
  assert (nth_error l j <> None) as Hn by congruence.
  apply nth_error_Some in Hn. lia.
Qed.

(** The loop over the members raises [ValueError] at the first field that
    does not convert, when the members before it find their fields. *)
Lemma collect_fields_raises (statfile : string) (blockstat_map : list string)
    (pre : list StatType) (t : StatType) (post : list StatType) (field : string) :
  (forall t', In t' pre ->
     exists f, nth_error blockstat_map (StatType_value t') = Some f) ->
  nth_error blockstat_map (StatType_value t) = Some field ->
  raises (Py.int field) ->
  forall self w, exists self' w',
    collect_fields statfile blockstat_map (pre ++ t :: post) self w =
      (Raise ValueError, self', w') /\
    stdout w' = stdout w /\ network w' = network w.
Proof.
  intros Hpre Hnth [e He]. pose proof (int_raises_ValueError _ _ He). subst e.
  induction pre as [|t' pre IH]; intros self w.
  - cbn [app collect_fields]. rewrite Hnth, He.
    do 2 eexists. split; [reflexivity|].
    unfold error. now rewrite log_stdout, log_network.
  - destruct (Hpre t' (or_introl eq_refl)) as (f & Hf).
    cbn [app collect_fields]. rewrite Hf.
    destruct (Py.int f) as [n|e] eqn:E.
    + apply IH. intros t'' Ht''. apply Hpre. now right.
    + pose proof (int_raises_ValueError _ _ E). subst e.
      do 2 eexists. split; [reflexivity|].
      unfold error. now rewrite log_stdout, log_network.
Qed.

Lemma collect_corrupt (env : Env) (self : BlockStat) (text field : string)
    (j : nat) :
  open_read env (statfile_of (_block self)) = Some text ->
  (j < 11)%nat ->
  nth_error (record_fields text) j = Some field ->
  raises (Py.int field) ->
  forall w, exists self' w',
    collect env self w = (Raise ValueError, self', w') /\
    stdout w' = stdout w /\ network w' = network w.
Proof.
  intros Hopen Hj Hnth Hraise w.
  rewrite (collect_readable _ _ _ _ Hopen).
  assert (Hsplit : exists pre t post,
             StatType_members = (pre ++ t :: post)%list /\
             StatType_value t = j /\
             forall t', In t' pre -> (StatType_value t' <= j)%nat).
  { do 11 (destruct j as [|j];
           [match goal with
            | |- exists pre t post, ?l = _ /\ StatType_value t = ?n /\ _ =>
                exists (firstn n l), (nth n l read_io), (skipn (S n) l)
            end;
            split; [reflexivity|]; split; [reflexivity|];
            cbn [firstn StatType_members]; intros t' Hin; cbn [In] in Hin;
            repeat (destruct Hin as [<- | Hin]; [cbn; lia|]); contradiction|]).
    lia. }
  destruct Hsplit as (pre & t & post & -> & <- & Hpre).
  apply (collect_fields_raises _ _ pre t post field); try assumption.
  intros t' Ht'. exact (nth_error_below _ _ _ _ Hnth (Hpre t' Ht')).
Qed.

(** [collect] writes to the diagnostic stream only. *)
Lemma collect_fields_frame (statfile : string) (blockstat_map : list string)
    (types : list StatType) :
  forall self w r self' w',
    collect_fields statfile blockstat_map types self w = (r, self', w') ->
    stdout w' = stdout w /\ network w' = network w.
Proof.
  induction types as [|t types IH]; intros self w r self' w' H;
    cbn [collect_fields] in H.
  - inversion H; subst. auto.
  - destruct (nth_error blockstat_map (StatType_value t)) as [f|];
      [|inversion H; subst; auto].
    destruct (Py.int f) as [n|e]; [exact (IH _ _ _ _ _ H)|].
    destruct e; inversion H; subst; auto.
    unfold error. now rewrite log_stdout, log_network.
Qed.

Lemma collect_frame (env : Env) (self : BlockStat) (w : World) :
  forall r self' w',
    collect env self w = (r, self', w') ->
    stdout w' = stdout w /\ network w' = network w.
Proof.
  intros r self' w'. unfold collect. rewrite format_statfile.
  destruct (open_read env _) as [text|].
  - apply collect_fields_frame.
  - intro H. inversion H; subst.
    unfold warn. now rewrite log_stdout, log_network.
Qed.

(** The loop over the devices stops at the first [collect] that raises. *)
Lemma collect_all_raises (envs : nat -> Env) (blockstats : list BlockStat) :
  forall k i blockstat,
    nth_error blockstats i = Some blockstat ->
    (forall w0, exists self' w',
        collect (envs (k + i)%nat) blockstat w0 = (Raise ValueError, self', w')) ->
    forall w, exists e blockstats' w',
      collect_all envs k blockstats w = (Raise e, blockstats', w') /\
      stdout w' = stdout w /\ network w' = network w.
Proof.
  induction blockstats as [|b rest IH]; intros k i blockstat Hnth Hraise w.
  - destruct i; discriminate.
  - cbn [collect_all].
    destruct (collect (envs k) b w) as [[r b'] w1] eqn:E.
    destruct (collect_frame _ _ _ _ _ _ E) as [Hout Hnet].
    destruct r as [[]|e].
    + destruct i as [|i].
      * injection Hnth as <-. rewrite Nat.add_0_r in Hraise.
        destruct (Hraise w) as (? & ? & Hr). congruence.
      * cbn [nth_error] in Hnth.
        destruct (IH (S k) i blockstat Hnth) with (w := w1)
          as (e & bs' & w' & Hrun & Hout' & Hnet').
        { intro w0. replace (S k + i)%nat with (k + S i)%nat by lia.
          apply Hraise. }
        rewrite Hrun. do 3 eexists. split; [reflexivity|].
        split; congruence.
    + do 3 eexists. split; [reflexivity|]. auto.
Qed.

(** C6.  When the stat file of a tracked device is readable and one of
    its first eleven fields does not convert to an integer, [collect] on
    that device raises [ValueError] and returns no sample; in the loop the
    turn ends there with an exception that nothing catches: the process
    terminates without having formatted or flushed anything in that turn. *)
Theorem corrupt_record_ends_the_process :
  forall interval cycles c output send_buffer blockstats w i blockstat text j
         field,
    nth_error blockstats i = Some blockstat ->
    open_read (env_of c i) (statfile_of (_block blockstat)) = Some text ->
    (j < 11)%nat ->
    nth_error (record_fields text) j = Some field ->
    raises (Py.int field) ->
    (forall w0, exists self' w',
        collect (env_of c i) blockstat w0 = (Raise ValueError, self', w')) /\
    (exists e w',
        _do_metrics interval (c :: cycles) output send_buffer blockstats w =
          Terminated e w' /\
        stdout w' = stdout w /\ network w' = network w).
Proof.
  intros interval cycles c output send_buffer blockstats w i blockstat text j
    field Hnth Hopen Hj Hfield Hraise.
  assert (Hcollect : forall w0, exists self' w',
             collect (env_of c i) blockstat w0 = (Raise ValueError, self', w')).
  { intro w0.
    destruct (collect_corrupt _ _ _ _ _ Hopen Hj Hfield Hraise w0)
      as (self' & w' & H & _).
    now exists self', w'. }
  split; [exact Hcollect|].
  destruct (collect_all_raises (env_of c) blockstats 0 i blockstat Hnth Hcollect w)
    as (e & bs' & w' & Hrun & Hout & Hnet).
  exists e, w'. cbn [_do_metrics]. rewrite Hrun. auto.
Qed.

Lemma corrupt_record_ends_the_process_witness :
  exists e w',
    _do_metrics 60 [one_turn] HumanOutput (new_buffer StdoutBuffer)
      [new_BlockStat "sda"; new_BlockStat "sdb"] world0 = Terminated e w' /\
    stdout w' = [] /\ network w' = [].
Proof.
  exact (proj2 (corrupt_record_ends_the_process 60 [] one_turn HumanOutput
                  (new_buffer StdoutBuffer)
                  [new_BlockStat "sda"; new_BlockStat "sdb"] world0
                  1%nat (new_BlockStat "sdb")
                  "4096 12 garbage 1500 2048 34 262144 2500 0 3000 4000"
                  2%nat "garbage"
                  eq_refl eq_refl ltac:(lia) eq_refl
                  (ex_intro _ ValueError eq_refl))).
Defined.

(** An unreadable device, by contrast, is skipped: with [sda] readable and
    [sdz] missing the turn completes, the eleven lines of [sda] are printed
    as one batch, and the loop goes on. *)
Example unreadable_device_is_skipped :
  exists blockstats send_buffer w',
    _do_metrics 60
      [mk_Cycle (fun _ => sda_readable) host_h server_up (fun _ => true)]
      HumanOutput
      (new_buffer StdoutBuffer) [new_BlockStat "sda"; new_BlockStat "sdz"]
      world0 = Running blockstats send_buffer w' /\
    map _time blockstats = [TInt 1000000000; TFloatZero] /\
    map (fun b => List.length (_stats b)) blockstats = [11; 0]%nat /\
    get_messages send_buffer = EmptyString /\
    List.length (stdout w') = 1%nat /\
    stderr w' = ["W: " ++ Py.nl].
Proof.
  do 3 eexists. split; [vm_compute; reflexivity|].
  repeat split.
Qed.

(** What the stale values lead to: after the failed call the sample still
    formats to eleven lines, stamped with the float [0.0]. *)
Example stale_values_are_sent_again :
  exists sample w' b,
    collect sda_unreadable
      (snd (fst (collect sda_readable (new_BlockStat "sda") world0))) world0 =
      (Ok tt, sample, w') /\
    sendto_items GraphiteOutput host_h (_time sample) (_block sample)
      (firstn 1 (_stats sample)) (new_buffer StdoutBuffer) = Ok b /\
    get_messages b = "blockstat.h.sda.read_io 4096 0.0".
Proof.
  do 3 eexists. split; [vm_compute; reflexivity|].
  split; vm_compute; reflexivity.
Qed.

(** * Further properties *)

(** ** [BlockStat.collect]: short, long and blank records *)

Lemma members_split (j : nat) :
  (j < 11)%nat ->
  exists pre t post,
    StatType_members = (pre ++ t :: post)%list /\
    StatType_value t = j /\
    forall t', In t' pre -> (StatType_value t' < j)%nat.
Proof.
  intro Hj.
  do 11 (destruct j as [|j];
         [match goal with
          | |- exists pre t post, ?l = _ /\ StatType_value t = ?n /\ _ =>
              exists (firstn n l), (nth n l read_io), (skipn (S n) l)
          end;
          split; [reflexivity|]; split; [reflexivity|];
          cbn [firstn StatType_members]; intros t' Hin; cbn [In] in Hin;
          repeat (destruct Hin as [<- | Hin]; [cbn; lia|]); contradiction|]).
  lia.
Qed.

Lemma record_fields_decimal (first : string) (more : list (string * string)) :
  is_decimal first = true -> well_formed_more more = true ->
  forall j f, nth_error (first :: map snd more) j = Some f -> is_decimal f = true.
Proof.
  revert first. induction more as [|[sep field] rest IH]; intros first Hf Hm j f Hj.
  - destruct j as [|[|j]]; cbn in Hj; congruence.
  - destruct (well_formed_more_cons _ _ _ Hm) as (_ & Hfield & Hrest).
    destruct j as [|j]; [cbn in Hj; congruence|].
    exact (IH field Hfield Hrest j f Hj).
Qed.

(** The loop over the members raises [IndexError] at the first member whose
    position lies beyond the fields, the members before it having been
    assigned; nothing is logged. *)
Lemma collect_fields_index_error (statfile : string) (blockstat_map : list string)
    (pre : list StatType) (t : StatType) (post : list StatType) :
  (forall t', In t' pre ->
     exists f v, nth_error blockstat_map (StatType_value t') = Some f /\
                 Py.int f = Ok v) ->
  nth_error blockstat_map (StatType_value t) = None ->
  forall self w, exists self',
    collect_fields statfile blockstat_map (pre ++ t :: post) self w =
      (Raise IndexError, self', w) /\
    _time self' = _time self /\ _block self' = _block self.
Proof.
  intros Hpre Hnone.
  induction pre as [|t' pre IH]; intros self w.
  - cbn [app collect_fields]. rewrite Hnone. now exists self.
  - destruct (Hpre t' (or_introl eq_refl)) as (f & v & Hf & Hv).
    cbn [app collect_fields]. rewrite Hf, Hv.
    destruct (IH (fun t'' Ht'' => Hpre t'' (or_intror Ht''))
                (set_stat self t' v) w) as (self' & Hrun & Htime & Hblock).
    exists self'. auto.
Qed.

(** X1.  A readable record of fewer than eleven decimal fields makes
    [collect] raise [IndexError]: the exception is not the [ValueError] the
    method handles, so no "garbage" line is logged and the world is left as
    it was; the sample keeps the time of the call. *)
Theorem collect_short_record_raises_IndexError :
  forall env self w lead first more trail,
    all_space lead = true -> all_space trail = true ->
    is_decimal first = true -> well_formed_more more = true ->
    (List.length more < 10)%nat ->
    open_read env (statfile_of (_block self)) =
      Some (stat_record lead first more trail) ->
    exists self',
      collect env self w = (Raise IndexError, self', w) /\
      _time self' = TInt (time_time env) /\ _block self' = _block self.
Proof.
  intros env self w lead first more trail Hlead Htrail Hfirst Hmore Hlen Hopen.
  rewrite (collect_readable _ _ _ _ Hopen),
    (record_fields_stat_record _ _ _ _ Hlead Htrail Hfirst Hmore).
  destruct (members_split (S (List.length more))) as (pre & t & post & -> & Ht & Hpre);
    [lia|].
  destruct (collect_fields_index_error (statfile_of (_block self))
              (first :: map snd more) pre t post) with
    (self := set_time self (TInt (time_time env))) (w := w)
    as (self' & Hrun & Htime & Hblock).
  - intros t' Hin. apply Hpre in Hin.
    destruct (nth_error (first :: map snd more) (StatType_value t')) as [f|] eqn:E.
    + exists f, (decimal_value f). split; [reflexivity|].
      apply int_decimal. exact (record_fields_decimal _ _ Hfirst Hmore _ _ E).
    + apply nth_error_None in E. cbn [List.length] in E.
      rewrite length_map in E. lia.
  - apply nth_error_None. cbn [List.length]. rewrite length_map. lia.
  - exists self'. auto.
Qed.

Lemma collect_short_record_raises_IndexError_witness :
  exists self',
    collect sda_short (new_BlockStat "sda") world0 =
      (Raise IndexError, self', world0) /\
    _time self' = TInt 1000000000 /\ _block self' = "sda".
Proof.
  exact (collect_short_record_raises_IndexError sda_short (new_BlockStat "sda")
           world0 " " "4096" [(" ", "12"); ("  ", "524288")] Py.nl
           eq_refl eq_refl eq_refl eq_refl ltac:(cbn; lia) eq_refl).
Defined.

(** The sample collected from a record of eleven or more decimal fields. *)
Lemma collect_decimal_fields :
  forall env self w lead first more trail,
    all_space lead = true -> all_space trail = true ->
    is_decimal first = true -> well_formed_more more = true ->
    (10 <= List.length more)%nat ->
    keys_in_order (_stats self) ->
    open_read env (statfile_of (_block self)) =
      Some (stat_record lead first more trail) ->
    collect env self w =
      (Ok tt,
       mk_BlockStat (_block self)
         (combine StatType_members
            (map decimal_value (firstn 11 (first :: map snd more))))
         (TInt (time_time env)),
       w).
Proof.
  intros env self w lead first more trail Hlead Htrail Hfirst Hmore Hlen
    Hprior Hopen.
  rewrite (collect_readable _ _ _ _ Hopen),
    (record_fields_stat_record _ _ _ _ Hlead Htrail Hfirst Hmore).
  pose proof (record_fields_decimal _ _ Hfirst Hmore) as Hdec.
  do 10 (destruct more as [|[? ?] more]; [cbn in Hlen; lia|]).
  clear Hlen Hmore.
  match goal with
  | |- context [collect_fields _ ?fields _ _ _] =>
      rewrite (collect_fields_ok _ fields
                 (fun t => decimal_value
                             (nth (StatType_value t) fields EmptyString)))
  end.
  - cbn [set_time _block _stats _time]. now rewrite assign_members.
  - intros t Hin. cbn [StatType_members In] in Hin.
    repeat (destruct Hin as [<- | Hin];
            [match goal with
             | |- exists f, nth_error _ ?j = Some f /\ _ =>
                 eexists; split; [reflexivity|];
                 apply int_decimal; apply (Hdec j); reflexivity
             end|]).
    contradiction.
Qed.

(** X2.  Fields beyond the eleventh are ignored: a record of eleven or more
    decimal fields gives the sample that its first eleven fields give. *)
Theorem collect_ignores_extra_fields :
  forall env self w lead first more trail,
    all_space lead = true -> all_space trail = true ->
    is_decimal first = true -> well_formed_more more = true ->
    (10 <= List.length more)%nat ->
    keys_in_order (_stats self) ->
    open_read env (statfile_of (_block self)) =
      Some (stat_record lead first more trail) ->
    collect env self w =
      (Ok tt,
       mk_BlockStat (_block self)
         (combine StatType_members
            (map decimal_value (firstn 11 (first :: map snd more))))
         (TInt (time_time env)),
       w).
Proof.
  intros env self w lead first more trail Hlead Htrail Hfirst Hmore Hlen
    Hprior Hopen.
  exact (collect_decimal_fields env self w lead first more trail Hlead Htrail
           Hfirst Hmore Hlen Hprior Hopen).
Qed.

Lemma collect_ignores_extra_fields_witness :
  collect sda_long (new_BlockStat "sda") world0 =
    collect sda_readable (new_BlockStat "sda") world0.
Proof.
  exact (eq_trans
           (collect_ignores_extra_fields sda_long (new_BlockStat "sda") world0
              "    " "4096" (sda_more ++ [(" ", "77")]) Py.nl
              eq_refl eq_refl eq_refl eq_refl ltac:(cbn; lia)
              (ex_intro _ 0%nat eq_refl) eq_refl)
           eq_refl).
Defined.

Lemma lstrip_all_space (a : string) :
  all_space a = true -> Py.lstrip a = EmptyString.
Proof.
  intro H. rewrite <- (append_empty_r a). now rewrite lstrip_all_space_app.
Qed.

(** X3.  A readable stat file that holds nothing, or white space only,
    makes [collect] raise [ValueError]: the record splits into one empty
    field, which [int] refuses; the "garbage" line is logged and no value is
    assigned. *)
Theorem collect_blank_record_raises_ValueError :
  forall env self w text,
    all_space text = true ->
    open_read env (statfile_of (_block self)) = Some text ->
    collect env self w =
      (Raise ValueError,
       set_time self (TInt (time_time env)),
       error ("Got garbage from " ++ statfile_of (_block self)) w).
Proof.
  intros env self w text Hspace Hopen.
  rewrite (collect_readable _ _ _ _ Hopen).
  unfold record_fields. rewrite (lstrip_all_space _ Hspace). reflexivity.
Qed.

Lemma collect_blank_record_raises_ValueError_witness :
  collect sda_blank (new_BlockStat "sda") world0 =
    (Raise ValueError,
     mk_BlockStat "sda" [] (TInt 1000000000),
     mk_World warn_level []
       ["E: Got garbage from /sys/block/sda/stat" ++ Py.nl] [] 0).
Proof.
  exact (collect_blank_record_raises_ValueError sda_blank (new_BlockStat "sda")
           world0 ("   " ++ Py.nl) eq_refl eq_refl).
Defined.

Lemma log_stderr (lvl : LogLevel) (msg : string) (w : World) :
  exists lines,
    stderr (log lvl msg w) = (stderr w ++ lines)%list /\
    (List.length lines <= 1)%nat.
Proof.
  unfold log. destruct (_ <=? _).
  - eexists. split; [reflexivity | simpl; lia].
  - exists []. split; [now rewrite app_nil_r | simpl; lia].
Qed.

Lemma collect_fields_effects (statfile : string) (blockstat_map : list string)
    (types : list StatType) :
  forall self w r self' w',
    collect_fields statfile blockstat_map types self w = (r, self', w') ->
    _block self' = _block self /\ _time self' = _time self /\
    next_fd w' = next_fd w /\ loglevel w' = loglevel w /\
    exists lines,
      stderr w' = (stderr w ++ lines)%list /\ (List.length lines <= 1)%nat.
Proof.
  assert (Hnil : forall w : World,
             exists lines, stderr w = (stderr w ++ lines)%list /\
                           (List.length lines <= 1)%nat).
  { intro w. exists []. split; [now rewrite app_nil_r | simpl; lia]. }
  induction types as [|t types IH]; intros self w r self' w' H;
    cbn [collect_fields] in H.
  - inversion H; subst. auto 6.
  - destruct (nth_error blockstat_map (StatType_value t)) as [f|];
      [|inversion H; subst; auto 6].
    destruct (Py.int f) as [n|e]; [exact (IH _ _ _ _ _ H)|].
    destruct e; inversion H; subst; auto 6.
    unfold error. rewrite log_next_fd, log_loglevel.
    repeat split. apply log_stderr.
Qed.

(** X4.  Whatever the stat file holds and however the call ends, [collect]
    changes the sample's values and time and the diagnostic stream only: it
    writes nothing to standard output, makes no socket call, leaves the log
    level and the device name alone, and logs at most one line. *)
Theorem collect_changes_sample_and_stderr_only :
  forall env self w r self' w',
    collect env self w = (r, self', w') ->
    _block self' = _block self /\
    stdout w' = stdout w /\ network w' = network w /\
    next_fd w' = next_fd w /\ loglevel w' = loglevel w /\
    exists lines,
      stderr w' = (stderr w ++ lines)%list /\ (List.length lines <= 1)%nat.
Proof.
  intros env self w r self' w' H.
  destruct (collect_frame _ _ _ _ _ _ H) as [Hout Hnet].
  split; [|split; [exact Hout | split; [exact Hnet|]]];
    unfold collect in H; rewrite format_statfile in H;
    destruct (open_read env _) as [text|].
  - now destruct (collect_fields_effects _ _ _ _ _ _ _ _ H) as (-> & _).
  - now inversion H.
  - destruct (collect_fields_effects _ _ _ _ _ _ _ _ H) as (_ & _ & ? & ? & ?).
    auto.
  - inversion H; subst. unfold warn. rewrite log_next_fd, log_loglevel.
    repeat split. apply log_stderr.
Qed.

Lemma collect_keeps_order_witness :
  keys_in_order
    (_stats (snd (fst (collect sda_short (new_BlockStat "sda") world0)))).
Proof.
  exact (collect_keeps_order sda_short (new_BlockStat "sda") world0
           (fst (fst (collect sda_short (new_BlockStat "sda") world0)))
           (snd (fst (collect sda_short (new_BlockStat "sda") world0)))
           (snd (collect sda_short (new_BlockStat "sda") world0))
           (ex_intro _ 0%nat eq_refl) eq_refl).
Defined.

Lemma collect_changes_sample_and_stderr_only_witness :
  _block (snd (fst (collect sda_blank (new_BlockStat "sda") world0))) = "sda" /\
  stdout (snd (collect sda_blank (new_BlockStat "sda") world0)) = [] /\
  network (snd (collect sda_blank (new_BlockStat "sda") world0)) = [].
Proof.
  destruct (collect_changes_sample_and_stderr_only sda_blank
              (new_BlockStat "sda") world0
              (fst (fst (collect sda_blank (new_BlockStat "sda") world0)))
              (snd (fst (collect sda_blank (new_BlockStat "sda") world0)))
              (snd (collect sda_blank (new_BlockStat "sda") world0))
              eq_refl) as (Hb & Ho & Hn & _).
  exact (conj Hb (conj Ho Hn)).
Defined.

(** ** [ASendBuffer.put] and [BlockStat.sendto] *)

Lemma put_not_empty (self : ASendBuffer) (line : string) :
  Py.is_empty (get_messages self) = false ->
  Py.is_empty (get_messages (put self line)) = false.
Proof.
  intro H. rewrite put_messages, H.
  destruct (get_messages self); [discriminate | reflexivity].
Qed.

(** Lines put behind text already buffered are joined to it by line feeds. *)
Lemma puts_behind_text (rest : list string) :
  forall self,
    Py.is_empty (get_messages self) = false ->
    get_messages (fold_left put rest self) =
      String.concat Py.nl (get_messages self :: rest).
Proof.
  induction rest as [|l rest IH]; intros self H; [reflexivity|].
  cbn [fold_left]. rewrite (IH (put self l) (put_not_empty _ _ H)).
  rewrite put_messages, H.
  destruct rest as [|y rest]; cbn [String.concat]; [reflexivity|].
  now rewrite !append_assoc.
Qed.

Lemma puts_into_new_buffer (c : buffer_class) (first : string)
    (rest : list string) :
  Py.is_empty first = false ->
  get_messages (fold_left put (first :: rest) (new_buffer c)) =
    String.concat Py.nl (first :: rest).
Proof.
  intro H. change (fold_left put (first :: rest) (new_buffer c))
    with (fold_left put rest (put (new_buffer c) first)).
  rewrite puts_behind_text; now rewrite put_messages.
Qed.

(** X6.  Lines put one after the other into a new buffer are held joined
    by single line feeds, with none before the first and none after the
    last, provided the first line is not empty.  An empty first line
    leaves the new buffer empty: it is lost, and the lines after it are
    held as if it had not been put. *)
Theorem puts_join_lines :
  forall c first rest,
    Py.is_empty first = false ->
    get_messages (fold_left put (first :: rest) (new_buffer c)) =
      String.concat Py.nl (first :: rest) /\
    fold_left put (EmptyString :: rest) (new_buffer c) =
      fold_left put rest (new_buffer c).
Proof.
  intros c first rest H. split; [|reflexivity].
  cbn [fold_left]. rewrite puts_behind_text.
  - now rewrite put_messages.
  - now rewrite put_messages.
Qed.

Lemma puts_join_lines_witness :
  get_messages (fold_left put ["a"; EmptyString; "b"] (new_buffer StdoutBuffer)) =
    "a" ++ Py.nl ++ Py.nl ++ "b".
Proof.
  exact (proj1 (puts_join_lines StdoutBuffer "a" [EmptyString; "b"] eq_refl)).
Defined.

Lemma sendto_items_graphite (host : Host) (the_time : timeval) (block : string)
    (items : dict) :
  forall send_buffer,
    sendto_items GraphiteOutput host the_time block items send_buffer =
      Ok (fold_left put
            (map (fun kv =>
                    "blockstat." ++ Py.before_first "." (gethostname host) ++
                    "." ++ block ++ "." ++ StatType_name (fst kv) ++ " " ++
                    Py.str (snd kv) ++ " " ++ time_repr the_time)
               items)
            send_buffer).
Proof.
  induction items as [|[stat_type stat] rest IH]; intro send_buffer;
    [reflexivity|].
  cbn [sendto_items send map fold_left fst snd].
  rewrite graphite_send_line. cbn [bind]. apply IH.
Qed.

(** X7.  In machine mode [sendto] never raises, and into a new buffer it
    puts one line per entry of the sample's values, in the order of the
    mapping, joined by line feeds; a sample without values puts nothing. *)
Theorem sendto_graphite_batch :
  forall host self c,
    exists b,
      sendto host self GraphiteOutput (new_buffer c) = Ok b /\
      get_messages b =
        String.concat Py.nl
          (map (fun kv =>
                  "blockstat." ++ Py.before_first "." (gethostname host) ++
                  "." ++ _block self ++ "." ++ StatType_name (fst kv) ++ " " ++
                  Py.str (snd kv) ++ " " ++ time_repr (_time self))
             (_stats self)).
Proof.
  intros host self c. eexists. split.
  - unfold sendto. apply sendto_items_graphite.
  - destruct (_stats self) as [|kv rest]; [reflexivity|].
    cbn [map fold_left]. rewrite puts_behind_text.
    + now rewrite put_messages.
    + now rewrite put_messages.
Qed.

(** X8.  The unavailable sample formats to no line: after [collect] has
    found the stat file of a new sample unreadable, [sendto] returns the
    buffer it was given, in both modes and on every host. *)
Theorem unavailable_sample_sends_nothing :
  forall env block w,
    open_read env (statfile_of block) = None ->
    exists sample w',
      collect env (new_BlockStat block) w = (Ok tt, sample, w') /\
      forall host output send_buffer,
        sendto host sample output send_buffer = Ok send_buffer.
Proof.
  intros env block w H. do 2 eexists.
  split; [now apply collect_unreadable|]. reflexivity.
Qed.

Lemma unavailable_sample_sends_nothing_witness :
  exists sample w',
    collect sda_unreadable (new_BlockStat "sda") world0 = (Ok tt, sample, w') /\
    forall host output send_buffer,
      sendto host sample output send_buffer = Ok send_buffer.
Proof.
  exact (unavailable_sample_sends_nothing sda_unreadable "sda" world0 eq_refl).
Defined.

(** ** [GraphiteBuffer.flush]: early exit and retained batches *)

Lemma flush_delivers_after_two_refusals_witness :
  exists w',
    GraphiteBuffer_flush refused_twice "graphite" 2003 one_line world0 =
      (clear one_line, w') /\
    calls_between world0 w' =
      [Socket.Create 0;
       Socket.Connect 0 "graphite" 2003 false;
       Socket.Connect 0 "graphite" 2003 false;
       Socket.Connect 0 "graphite" 2003 true;
       Socket.Sendall 0 (get_messages one_line ++ Py.nl) true;
       Socket.Close 0].
Proof.
  exact (flush_delivers_after_two_refusals refused_twice "graphite" 2003
           one_line world0 eq_refl eq_refl eq_refl eq_refl).
Defined.

Ltac socket_calls :=
  apply calls_between_app; unfold debug, warn;
  repeat (progress (cbn [syscall network]; rewrite ?log_network));
  rewrite <- ?app_assoc; reflexivity.

(** X11.  When the first attempt connects and sends, the loop stops there:
    the flush asks for one connection, sends one batch, clears the buffer
    and closes the socket; the second and third attempt are not made. *)
Theorem flush_first_attempt_delivers_and_stops :
  forall net server port self w,
    accepts net 0%nat = true -> delivers net 0%nat = true ->
    exists w',
      GraphiteBuffer_flush net server port self w = (clear self, w') /\
      calls_between w w' =
        [Socket.Create (next_fd w);
         Socket.Connect (next_fd w) server port true;
         Socket.Sendall (next_fd w) (get_messages self ++ Py.nl) true;
         Socket.Close (next_fd w)] /\
      next_fd w' = S (next_fd w).
Proof.
  intros net server port self w A0 D0.
  unfold GraphiteBuffer_flush, socket_socket. simpl.
  rewrite A0. simpl. rewrite D0.
  eexists. split; [reflexivity|]. split; [socket_calls|].
  unfold debug.
  repeat (progress (cbn [syscall next_fd]; rewrite ?log_next_fd)).
  reflexivity.
Qed.

Lemma flush_first_attempt_delivers_and_stops_witness :
  exists w',
    GraphiteBuffer_flush server_up "graphite" 2003 one_line world0 =
      (clear one_line, w') /\
    calls_between world0 w' =
      [Socket.Create 0;
       Socket.Connect 0 "graphite" 2003 true;
       Socket.Sendall 0 (get_messages one_line ++ Py.nl) true;
       Socket.Close 0] /\
    next_fd w' = 1%nat.
Proof.
  exact (flush_first_attempt_delivers_and_stops server_up "graphite" 2003
           one_line world0 eq_refl eq_refl).
Defined.

(** X12.  A batch that no attempt delivered stays in the buffer, and the
    lines of the next turn are put behind it: the next flush that gets
    through sends the old text, a line feed, the new line and the closing
    line feed in one piece, and only then is the buffer empty. *)
Theorem retained_batch_is_sent_with_the_next :
  forall net1 net2 server port self line w,
    (forall attempt, accepts net1 attempt && delivers net1 attempt = false) ->
    accepts net2 0%nat = true -> delivers net2 0%nat = true ->
    Py.is_empty (get_messages self) = false ->
    exists w1 w2,
      GraphiteBuffer_flush net1 server port self w = (self, w1) /\
      GraphiteBuffer_flush net2 server port (put self line) w1 =
        (clear self, w2) /\
      calls_between w1 w2 =
        [Socket.Create (next_fd w1);
         Socket.Connect (next_fd w1) server port true;
         Socket.Sendall (next_fd w1)
           (get_messages self ++ Py.nl ++ line ++ Py.nl) true;
         Socket.Close (next_fd w1)].
Proof.
  intros net1 net2 server port self line w Hnone A0 D0 Hne.
  destruct (flush_keeps_buffer_when_nothing_delivered net1 server port self w Hnone)
    as (w1 & H1).
  exists w1. rewrite H1.
  unfold GraphiteBuffer_flush, socket_socket. simpl.
  rewrite A0. simpl. rewrite D0.
  eexists. split; [reflexivity|]. split; [reflexivity|].
  apply calls_between_app. unfold debug, warn.
  repeat (progress (cbn [syscall network]; rewrite ?log_network)).
  unfold get_messages in *. cbn [put _messages]. rewrite Hne.
  rewrite <- ?app_assoc, !append_assoc. reflexivity.
Qed.

Lemma retained_batch_is_sent_with_the_next_witness :
  exists w1 w2,
    GraphiteBuffer_flush server_down "graphite" 2003 one_line world0 =
      (one_line, w1) /\
    GraphiteBuffer_flush server_up "graphite" 2003 (put one_line "next") w1 =
      (clear one_line, w2) /\
    calls_between w1 w2 =
      [Socket.Create (next_fd w1);
       Socket.Connect (next_fd w1) "graphite" 2003 true;
       Socket.Sendall (next_fd w1)
         (get_messages one_line ++ Py.nl ++ "next" ++ Py.nl) true;
       Socket.Close (next_fd w1)].
Proof.
  exact (retained_batch_is_sent_with_the_next server_down server_up "graphite"
           2003 one_line "next" world0 (fun _ => eq_refl) eq_refl eq_refl
           eq_refl).
Defined.

(** ** [MainClass._do_metrics]: what a run of the loop does and never does *)

Lemma collect_block_next_fd (env : Env) (self : BlockStat) (w : World) :
  forall r self' w',
    collect env self w = (r, self', w') ->
    _block self' = _block self /\ next_fd w' = next_fd w.
Proof.
  intros r self' w' H. unfold collect in H. rewrite format_statfile in H.
  destruct (open_read env _) as [text|].
  - destruct (collect_fields_effects _ _ _ _ _ _ _ _ H) as (? & _ & ? & _). auto.
  - inversion H; subst. unfold warn. now rewrite log_next_fd.
Qed.

Lemma collect_all_effects (envs : nat -> Env) (blockstats : list BlockStat) :
  forall i w r blockstats' w',
    collect_all envs i blockstats w = (r, blockstats', w') ->
    stdout w' = stdout w /\ network w' = network w /\
    next_fd w' = next_fd w /\ map _block blockstats' = map _block blockstats.
Proof.
  induction blockstats as [|b rest IH]; intros i w r blockstats' w' H;
    cbn [collect_all] in H.
  - inversion H; subst. auto.
  - destruct (collect (envs i) b w) as [[r1 b'] w1] eqn:E.
    destruct (collect_frame _ _ _ _ _ _ E) as [Hout Hnet].
    destruct (collect_block_next_fd _ _ _ _ _ _ E) as [Hblock Hfd].
    destruct r1 as [[]|e].
    + destruct (collect_all envs (S i) rest w1) as [[r2 rest'] w2] eqn:E2.
      destruct (IH _ _ _ _ _ E2) as (Hout2 & Hnet2 & Hfd2 & Hnames).
      inversion H; subst. cbn [map].
      repeat split; congruence.
    + inversion H; subst. cbn [map]. repeat split; congruence.
Qed.

Lemma send_class (output : IOutput) (host : Host) (send_buffer b : ASendBuffer)
    (the_time : timeval) (stat_type : StatType) (block : string) (stat : Z) :
  send output host send_buffer the_time stat_type block stat = Ok b ->
  class_of b = class_of send_buffer.
Proof.
  destruct output; cbn [send].
  - unfold HumanOutput_send.
    destruct (Datetime.fromtimestamp _ _) as [dt|e]; cbn [bind]; [|discriminate].
    rewrite format_human. cbn [bind]. intro H. now inversion H.
  - rewrite graphite_send_line. intro H. now inversion H.
Qed.

Lemma sendto_all_class (host : Host) (output : IOutput)
    (blockstats : list BlockStat) :
  forall send_buffer b,
    sendto_all host output blockstats send_buffer = Ok b ->
    class_of b = class_of send_buffer.
Proof.
  assert (Hitems : forall the_time block items send_buffer b,
             sendto_items output host the_time block items send_buffer = Ok b ->
             class_of b = class_of send_buffer).
  { intros the_time block items.
    induction items as [|[stat_type stat] rest IH]; intros send_buffer b H;
      cbn [sendto_items] in H.
    - now inversion H.
    - destruct (send output host send_buffer the_time stat_type block stat)
        as [b1|e] eqn:E; cbn [bind] in H; [|discriminate].
      rewrite (IH _ _ H). exact (send_class _ _ _ _ _ _ _ _ E). }
  induction blockstats as [|blockstat rest IH]; intros send_buffer b H;
    cbn [sendto_all] in H.
  - now inversion H.
  - unfold sendto in H.
    destruct (sendto_items output host _ _ _ send_buffer) as [b1|e] eqn:E;
      cbn [bind] in H; [|discriminate].
    rewrite (IH _ _ H). exact (Hitems _ _ _ _ _ E).
Qed.

(** X13.  With a standard-output buffer the loop never touches the
    network: no socket is created and no socket call is made, however the
    run ends.  While it runs, every turn has printed exactly one batch and
    slept, the buffer is empty between turns, and the devices stay the ones
    it was started with, in the same order.  When an exception has ended the
    run, at most one batch per turn was printed, and fewer than one per turn
    when the interval is one that every sleep returns for: only a sleep
    that raises ends the run after a batch. *)
Theorem human_loop_prints_one_batch_per_turn :
  forall interval cycles output send_buffer blockstats w,
    class_of send_buffer = StdoutBuffer ->
    match _do_metrics interval cycles output send_buffer blockstats w with
    | Running blockstats' send_buffer' w' =>
        sleeps_through interval cycles = true /\
        network w' = network w /\ next_fd w' = next_fd w /\
        List.length (stdout w') = (List.length (stdout w) + List.length cycles)%nat /\
        map _block blockstats' = map _block blockstats /\
        class_of send_buffer' = StdoutBuffer /\
        get_messages send_buffer' =
          match cycles with
          | [] => get_messages send_buffer
          | _ :: _ => EmptyString
          end
    | Terminated _ w' =>
        network w' = network w /\ next_fd w' = next_fd w /\
        (List.length (stdout w') <= List.length (stdout w) + List.length cycles)%nat /\
        (sleeps_through interval cycles = true ->
         (List.length (stdout w') < List.length (stdout w) + List.length cycles)%nat)
    end.
Proof.
  intro interval.
  induction cycles as [|c later IH]; intros output send_buffer blockstats w Hclass.
  - cbn. repeat split; auto.
  - cbn [_do_metrics].
    destruct (collect_all (env_of c) 0 blockstats w) as [[r bs1] w1] eqn:E.
    destruct (collect_all_effects _ _ _ _ _ _ _ E) as (Hout & Hnet & Hfd & Hnames).
    destruct r as [[]|e];
      [|rewrite Hout, Hnet, Hfd; cbn [List.length]; repeat split; lia].
    destruct (sendto_all (host c) output bs1 send_buffer) as [b1|e] eqn:Es;
      [|rewrite Hout, Hnet, Hfd; cbn [List.length]; repeat split; lia].
    pose proof (sendto_all_class _ _ _ _ _ Es) as Hc1. rewrite Hclass in Hc1.
    unfold flush. rewrite Hc1. unfold StdoutBuffer_flush.
    cbn [sleeps_through forallb].
    destruct (sleep (clock_nanosleep c) interval) as [[]|e] eqn:Esleep.
    + specialize (IH output (clear b1) bs1 (print (_messages b1) w1) Hc1).
      fold (sleeps_through interval later).
      destruct (_do_metrics interval later output (clear b1) bs1
                  (print (_messages b1) w1))
        as [bs' b' w'|e w'] eqn:Erun;
        cbn [print network next_fd stdout List.length andb] in IH |- *;
        rewrite length_app in IH; cbn [List.length] in IH;
        rewrite Hout, Hnet, Hfd in IH.
      * destruct IH as (H0 & H1 & H2 & H3 & H4 & H5 & H6).
        repeat split; try congruence; try lia.
        destruct later as [|c' later']; [|exact H6].
        cbn [_do_metrics] in Erun. now inversion Erun.
      * destruct IH as (H1 & H2 & H3 & H4).
        repeat split; try congruence; try lia.
        intro Hs. specialize (H4 Hs). lia.
    + cbn [print network next_fd stdout List.length andb].
      rewrite length_app. cbn [List.length].
      rewrite Hout, Hnet, Hfd.
      repeat split; try congruence; try lia.
Qed.

Lemma human_loop_prints_one_batch_per_turn_witness :
  match _do_metrics 60 [steady_turn; steady_turn] HumanOutput
          (new_buffer StdoutBuffer) [new_BlockStat "sda"; new_BlockStat "sdz"]
          world0 with
  | Running blockstats' send_buffer' w' =>
      sleeps_through 60 [steady_turn; steady_turn] = true /\
      network w' = [] /\ next_fd w' = 0%nat /\
      List.length (stdout w') = 2%nat /\
      map _block blockstats' = ["sda"; "sdz"] /\
      class_of send_buffer' = StdoutBuffer /\
      get_messages send_buffer' = EmptyString
  | Terminated _ w' =>
      network w' = [] /\ next_fd w' = 0%nat /\
      (List.length (stdout w') <= 2)%nat /\
      (sleeps_through 60 [steady_turn; steady_turn] = true ->
       (List.length (stdout w') < 2)%nat)
  end.
Proof.
  exact (human_loop_prints_one_batch_per_turn 60 [steady_turn; steady_turn]
           HumanOutput (new_buffer StdoutBuffer)
           [new_BlockStat "sda"; new_BlockStat "sdz"] world0 eq_refl).
Defined.

Lemma graphite_flush_effects (net : Net) (server : string) (port : Z)
    (self : ASendBuffer) (w : World) :
  forall self' w',
    GraphiteBuffer_flush net server port self w = (self', w') ->
    class_of self' = class_of self /\ stdout w' = stdout w /\
    next_fd w' = S (next_fd w) /\
    exists calls,
      network w' = (network w ++ calls)%list /\
      Forall (connects_to server port) calls /\
      List.length (filter is_create calls) = 1%nat.
Proof.
  intros self' w' H. unfold GraphiteBuffer_flush, socket_socket in H.
  match type of H with
  | context [flush_attempts _ _ _ _ _ _ _ ?w1] =>
      destruct (flush_attempts_course net (next_fd w) server port (seq 0 3) self w1)
        as (s1 & sock1 & w1' & evs & Hrun & Hext & Hcourse)
  end.
  rewrite Hrun in H. inversion H; subst s1 w'; clear H.
  apply extends_by_log in Hext.
  destruct Hext as (Hnet & Hout & Hfd & _). simpl in Hnet, Hout, Hfd.
  split; [|split; [|split]].
  - destruct Hcourse; reflexivity.
  - unfold debug. cbn [syscall stdout]. now rewrite log_stdout.
  - unfold debug. cbn [syscall next_fd]. now rewrite log_next_fd.
  - exists (Socket.Create (next_fd w) :: evs ++ [Socket.Close (next_fd w)])%list.
    split; [|split].
    + unfold debug. cbn [syscall network].
      rewrite log_network, Hnet, <- !app_assoc. reflexivity.
    + constructor; [exact I|]. apply Forall_app. split; [|repeat constructor].
      exact (course_address _ _ _ _ _ _ _ Hcourse).
    + cbn [filter is_create List.length]. rewrite filter_app. cbn [filter is_create].
      rewrite app_nil_r. f_equal.
      pose proof (course_one_socket _ _ _ _ _ _ _ Hcourse) as Hone.
      clear - Hone. induction evs as [|e evs IH]; [reflexivity|].
      cbn [forallb] in Hone. apply andb_prop in Hone. destruct Hone as [He Hevs].
      apply andb_prop in He. destruct He as [He _].
      cbn [filter]. destruct (is_create e); [discriminate | now apply IH].
Qed.

(** X14.  With a graphite buffer the loop never writes to standard output,
    however the run ends, and every connection it asks for is one to the
    configured server and port.  While it runs, every turn has created
    exactly one socket and slept, and the devices stay the ones it was
    started with.  When an exception has ended the run, at most one socket
    per turn was created, and fewer than one per turn when the interval is
    one that every sleep returns for. *)
Theorem graphite_loop_one_socket_per_turn :
  forall interval cycles output send_buffer blockstats w server port,
    class_of send_buffer = GraphiteBuffer server port ->
    match _do_metrics interval cycles output send_buffer blockstats w with
    | Running blockstats' send_buffer' w' =>
        sleeps_through interval cycles = true /\
        stdout w' = stdout w /\
        next_fd w' = (next_fd w + List.length cycles)%nat /\
        map _block blockstats' = map _block blockstats /\
        class_of send_buffer' = GraphiteBuffer server port /\
        exists calls,
          network w' = (network w ++ calls)%list /\
          Forall (connects_to server port) calls /\
          List.length (filter is_create calls) = List.length cycles
    | Terminated _ w' =>
        stdout w' = stdout w /\
        exists calls,
          network w' = (network w ++ calls)%list /\
          Forall (connects_to server port) calls /\
          (List.length (filter is_create calls) <= List.length cycles)%nat /\
          (sleeps_through interval cycles = true ->
           (List.length (filter is_create calls) < List.length cycles)%nat)
    end.
Proof.
  intro interval.
  induction cycles as [|c later IH];
    intros output send_buffer blockstats w server port Hclass.
  - cbn. repeat split; auto. exists []. rewrite app_nil_r. auto.
  - cbn [_do_metrics].
    destruct (collect_all (env_of c) 0 blockstats w) as [[r bs1] w1] eqn:E.
    destruct (collect_all_effects _ _ _ _ _ _ _ E) as (Hout & Hnet & Hfd & Hnames).
    assert (Hstop : stdout w1 = stdout w /\
                    exists calls,
                      network w1 = (network w ++ calls)%list /\
                      Forall (connects_to server port) calls /\
                      (List.length (filter is_create calls) <=
                       List.length (c :: later))%nat /\
                      (sleeps_through interval (c :: later) = true ->
                       (List.length (filter is_create calls) <
                        List.length (c :: later))%nat)).
    { split; [exact Hout|]. exists []. rewrite app_nil_r.
      repeat split; auto; cbn; lia. }
    destruct r as [[]|e]; [|exact Hstop].
    destruct (sendto_all (host c) output bs1 send_buffer) as [b1|e] eqn:Es;
      [|exact Hstop].
    clear Hstop.
    pose proof (sendto_all_class _ _ _ _ _ Es) as Hc1. rewrite Hclass in Hc1.
    unfold flush. rewrite Hc1.
    destruct (GraphiteBuffer_flush (net c) server port b1 w1) as [b2 w2] eqn:Ef.
    destruct (graphite_flush_effects _ _ _ _ _ _ _ Ef)
      as (Hc2 & Hout2 & Hfd2 & calls2 & Hnet2 & Haddr2 & Hone2).
    rewrite Hc1 in Hc2.
    cbn [sleeps_through forallb].
    destruct (sleep (clock_nanosleep c) interval) as [[]|e] eqn:Esleep.
    + specialize (IH output b2 bs1 w2 server port Hc2).
      fold (sleeps_through interval later). cbn [andb].
      destruct (_do_metrics interval later output b2 bs1 w2) as [bs' b' w'|e w'].
      * destruct IH as (H0 & H1 & H2 & H3 & H4 & calls & H5 & H6 & H7).
        split; [exact H0|].
        split; [congruence|]. split; [cbn [List.length]; lia|].
        split; [congruence|]. split; [exact H4|].
        exists (calls2 ++ calls)%list. split; [|split].
        -- rewrite H5, Hnet2, Hnet, <- app_assoc. reflexivity.
        -- apply Forall_app. auto.
        -- rewrite filter_app, length_app. cbn [List.length]. lia.
      * destruct IH as (H1 & calls & H5 & H6 & H7 & H8).
        split; [congruence|].
        exists (calls2 ++ calls)%list. split; [|split; [|split]].
        -- rewrite H5, Hnet2, Hnet, <- app_assoc. reflexivity.
        -- apply Forall_app. auto.
        -- rewrite filter_app, length_app. cbn [List.length]. lia.
        -- intro Hs. specialize (H8 Hs).
           rewrite filter_app, length_app. cbn [List.length]. lia.
    + split; [congruence|].
      exists calls2. split; [|split; [|split]].
      * rewrite Hnet2, Hnet. reflexivity.
      * exact Haddr2.
      * cbn [List.length]. lia.
      * cbn [andb]. discriminate.
Qed.

Lemma graphite_loop_one_socket_per_turn_witness :
  match _do_metrics 60 [steady_turn; steady_turn] GraphiteOutput
          (new_buffer (GraphiteBuffer "graphite" 2003))
          [new_BlockStat "sda"; new_BlockStat "sdz"] world0 with
  | Running blockstats' send_buffer' w' =>
      sleeps_through 60 [steady_turn; steady_turn] = true /\
      stdout w' = [] /\
      next_fd w' = 2%nat /\
      map _block blockstats' = ["sda"; "sdz"] /\
      class_of send_buffer' = GraphiteBuffer "graphite" 2003 /\
      exists calls,
        network w' = ([] ++ calls)%list /\
        Forall (connects_to "graphite" 2003) calls /\
        List.length (filter is_create calls) = 2%nat
  | Terminated _ w' =>
      stdout w' = [] /\
      exists calls,
        network w' = ([] ++ calls)%list /\
        Forall (connects_to "graphite" 2003) calls /\
        (List.length (filter is_create calls) <= 2)%nat /\
        (sleeps_through 60 [steady_turn; steady_turn] = true ->
         (List.length (filter is_create calls) < 2)%nat)
  end.
Proof.
  exact (graphite_loop_one_socket_per_turn 60 [steady_turn; steady_turn]
           GraphiteOutput (new_buffer (GraphiteBuffer "graphite" 2003))
           [new_BlockStat "sda"; new_BlockStat "sdz"] world0 "graphite" 2003
           eq_refl).
Defined.

(** ** [str] and [int] are inverse on the integers *)

Lemma string_of_uint_digits (d : Decimal.uint) :
  all_chars Py.isdigit (NilEmpty.string_of_uint d) = true.
Proof.
  induction d; cbn [NilEmpty.string_of_uint all_chars]; rewrite ?IHd; reflexivity.
Qed.

Lemma decimal_from_of_uint_acc (d : Decimal.uint) :
  forall acc,
    decimal_from (Zpos acc) (NilEmpty.string_of_uint d) =
      Zpos (Pos.of_uint_acc d acc).
Proof.
  induction d; intro acc;
    cbn [NilEmpty.string_of_uint decimal_from Pos.of_uint_acc];
    [reflexivity
    | rewrite <- IHd; f_equal; try (vm_compute (Z.of_nat _)); lia ..].
Qed.

Lemma decimal_value_of_uint (d : Decimal.uint) :
  decimal_value (NilEmpty.string_of_uint d) = Z.of_N (Pos.of_uint d).
Proof.
  unfold decimal_value.
  induction d; cbn [NilEmpty.string_of_uint decimal_from Pos.of_uint];
    [reflexivity | exact IHd | apply decimal_from_of_uint_acc ..].
Qed.

Lemma str_positive (p : positive) :
  Py.str (Zpos p) = NilEmpty.string_of_uint (Pos.to_uint p) /\
  is_decimal (Py.str (Zpos p)) = true /\
  decimal_value (Py.str (Zpos p)) = Zpos p.
Proof.
  assert (E : Py.str (Zpos p) = NilEmpty.string_of_uint (Pos.to_uint p)).
  { unfold Py.str. cbn [Z.to_int NilZero.string_of_int NilZero.string_of_uint].
    pose proof (DecimalPos.Unsigned.to_uint_nonnil p) as Hn.
    destruct (Pos.to_uint p); [contradiction | reflexivity ..]. }
  split; [exact E|]. rewrite E. split.
  - unfold is_decimal. rewrite string_of_uint_digits, andb_true_r.
    pose proof (DecimalPos.Unsigned.to_uint_nonnil p) as Hn.
    destruct (Pos.to_uint p); [contradiction | reflexivity ..].
  - now rewrite decimal_value_of_uint, DecimalPos.Unsigned.of_to.
Qed.

(** What [str] writes for an integer, [int] reads back. *)
Lemma int_str (n : Z) : Py.int (Py.str n) = Ok n.
Proof.
  destruct n as [|p|p].
  - reflexivity.
  - destruct (str_positive p) as (_ & Hdec & Hval).
    now rewrite (int_decimal _ Hdec), Hval.
  - destruct (str_positive p) as (E & Hdec & Hval).
    assert (Es : Py.str (Zneg p) = String "-" (Py.str (Zpos p))).
    { rewrite E. unfold Py.str.
      cbn [Z.to_int NilZero.string_of_int NilZero.string_of_uint].
      pose proof (DecimalPos.Unsigned.to_uint_nonnil p) as Hn.
      destruct (Pos.to_uint p); [contradiction | reflexivity ..]. }
    rewrite Es.
    destruct (decimal_field _ Hdec) as (Hd & Hns & Hne).
    assert (Hns' : no_space (String "-" (Py.str (Zpos p))) = true)
      by (cbn [no_space all_chars]; exact Hns).
    pose proof (int_strip_no_space _ Hns') as Hstrip.
    unfold Py.int. rewrite Hstrip. cbn [Ascii.eqb Bool.eqb].
    unfold decimal_value in Hval.
    destruct (Py.str (Zpos p)) as [|c r]; [discriminate|].
    cbn [all_chars] in Hd. apply andb_prop in Hd. destruct Hd as [Hc Hr].
    cbn [Py.int_digits decimal_from] in *.
    now rewrite Hc, (int_digits_decimal r Hr), Hval.
Qed.

Lemma str_chars (n : Z) :
  all_chars (fun c => Py.isdigit c || (c =? "-")%char) (Py.str n) = true.
Proof.
  assert (D : forall s, all_chars Py.isdigit s = true ->
                        all_chars (fun c => Py.isdigit c || (c =? "-")%char) s = true).
  { intro s. apply all_chars_weaken. intros c Hc. now rewrite Hc. }
  destruct n as [|p|p]; [reflexivity| |].
  - destruct (str_positive p) as (_ & Hdec & _).
    apply D. now destruct (decimal_field _ Hdec).
  - destruct (str_positive p) as (E & Hdec & _).
    assert (Es : Py.str (Zneg p) = String "-" (Py.str (Zpos p))).
    { rewrite E. unfold Py.str.
      cbn [Z.to_int NilZero.string_of_int NilZero.string_of_uint].
      pose proof (DecimalPos.Unsigned.to_uint_nonnil p) as Hn.
      destruct (Pos.to_uint p); [contradiction | reflexivity ..]. }
    rewrite Es. cbn [all_chars]. rewrite D; [reflexivity|].
    now destruct (decimal_field _ Hdec).
Qed.

(** ** [MainClass._parse_opts]: the server option *)

Lemma rpartition_none (sep : ascii) (t : string) :
  Py.contains sep t = false -> Py.rpartition sep t = (t, None).
Proof.
  induction t as [|c t IH]; cbn [Py.contains Py.rpartition]; [reflexivity|].
  intro H. apply orb_false_elim in H. destruct H as [Hc Ht].
  now rewrite (IH Ht), Hc.
Qed.

Lemma rpartition_last (sep : ascii) (h t : string) :
  Py.contains sep t = false ->
  Py.rpartition sep (h ++ String sep t) = (h, Some t).
Proof.
  intro Ht. induction h as [|c h IH]; cbn [append Py.rpartition].
  - now rewrite (rpartition_none _ _ Ht), Ascii.eqb_refl.
  - now rewrite IH.
Qed.

Lemma contains_none (p : ascii -> bool) (c : ascii) (s : string) :
  all_chars p s = true -> p c = false -> Py.contains c s = false.
Proof.
  intros Hs Hc. induction s as [|d s IH]; [reflexivity|].
  cbn [all_chars] in Hs. apply andb_prop in Hs. destruct Hs as [Hd Hs].
  cbn [Py.contains]. rewrite (IH Hs), orb_false_r.
  destruct (d =? c)%char eqn:E; [|reflexivity].
  apply Ascii.eqb_eq in E. congruence.
Qed.

Lemma parse_option_server (listdir : list string) (file o a : string)
    (cfg : MainClass) (w : World) :
  o = "-s" \/ o = "--server" ->
  parse_option listdir file o a cfg w =
    match Py.rsplit1 ":" a with
    | server :: port :: _ =>
        match Py.int port with
        | Ok n => Proceed (set_server (set_server_port cfg n) server) w
        | Raise _ => Exit 2 (error "Illegal port number, must be digits only." w)
        end
    | [server] => Proceed (set_server cfg server) w
    | [] => AssertionFailed w
    end.
Proof.
  intros [-> | ->]; reflexivity.
Qed.

(** X15.  The server option splits its argument at the last colon, so a
    host followed by a colon and a port written by [str] is read back as
    that host and that port: for every host text, colons included, and every
    integer port, in or out of the range of TCP ports. *)
Theorem server_option_reads_host_and_port :
  forall listdir file o host port cfg w,
    o = "-s" \/ o = "--server" ->
    parse_option listdir file o (host ++ ":" ++ Py.str port) cfg w =
      Proceed (set_server (set_server_port cfg port) host) w.
Proof.
  intros listdir file o host port cfg w Ho.
  rewrite (parse_option_server _ _ _ _ _ _ Ho). unfold Py.rsplit1.
  change (host ++ ":" ++ Py.str port) with (host ++ String ":" (Py.str port)).
  rewrite rpartition_last by (apply (contains_none _ _ _ (str_chars port)); reflexivity).
  now rewrite int_str.
Qed.

Lemma server_option_reads_host_and_port_witness :
  parse_option [] "blockstatd.py" "--server" "[::1]:2004" MainClass_initial world0 =
    Proceed (mk_MainClass [] None None None None (Some "[::1]") (Some 2004)) world0.
Proof.
  exact (server_option_reads_host_and_port [] "blockstatd.py" "--server"
           "[::1]" 2004 MainClass_initial world0 (or_intror eq_refl)).
Defined.

(** X16.  A server argument without a colon names the server and leaves
    the port as it was; with a colon, the text after the last colon must
    convert with [int]: when it does not, as for a trailing colon, the
    process exits with status 2 after one error line, and the server is not
    recorded. *)
Theorem server_option_port_is_optional_and_checked :
  forall listdir file o host tail cfg w,
    o = "-s" \/ o = "--server" ->
    Py.contains ":" tail = false ->
    parse_option listdir file o tail cfg w = Proceed (set_server cfg tail) w /\
    parse_option listdir file o (host ++ ":" ++ tail) cfg w =
      match Py.int tail with
      | Ok n => Proceed (set_server (set_server_port cfg n) host) w
      | Raise _ => Exit 2 (error "Illegal port number, must be digits only." w)
      end.
Proof.
  intros listdir file o host tail cfg w Ho Htail.
  rewrite !(parse_option_server _ _ _ _ _ _ Ho). unfold Py.rsplit1.
  change (host ++ ":" ++ tail) with (host ++ String ":" tail).
  now rewrite (rpartition_none _ _ Htail), (rpartition_last _ _ _ Htail).
Qed.

Lemma server_option_port_is_optional_and_checked_witness :
  parse_option [] "blockstatd.py" "-s" EmptyString MainClass_initial world0 =
    Proceed (mk_MainClass [] None None None None (Some EmptyString) None) world0 /\
  parse_option [] "blockstatd.py" "-s" "graphite:" MainClass_initial world0 =
    Exit 2 (error "Illegal port number, must be digits only." world0).
Proof.
  exact (server_option_port_is_optional_and_checked [] "blockstatd.py" "-s"
           "graphite" EmptyString MainClass_initial world0
           (or_introl eq_refl) eq_refl).
Defined.

(** ** [MainClass._parse_opts]: device names *)

Lemma blocks_add_in (a b : string) (cfg : MainClass) :
  In b (_blocks (blocks_add a cfg)) <-> b = a \/ In b (_blocks cfg).
Proof.
  unfold blocks_add. cbn [_blocks].
  destruct (existsb (String.eqb a) (_blocks cfg)) eqn:E.
  - apply existsb_exists in E. destruct E as (x & Hx & Heq).
    apply String.eqb_eq in Heq. subst x. split; [auto|].
    intros [-> | H]; auto.
  - rewrite in_app_iff. cbn [In]. split.
    + intros [H | [-> | []]]; auto.
    + intros [-> | H]; auto.
Qed.

Lemma blocks_add_NoDup (a : string) (cfg : MainClass) :
  NoDup (_blocks cfg) -> NoDup (_blocks (blocks_add a cfg)).
Proof.
  intro H. unfold blocks_add. cbn [_blocks].
  destruct (existsb (String.eqb a) (_blocks cfg)) eqn:E; [exact H|].
  apply NoDup_app; [exact H | repeat constructor; intros [] |].
  intros x Hx [Heq | []]. subst x.
  assert (existsb (String.eqb a) (_blocks cfg) = true); [|congruence].
  apply existsb_exists. exists a. split; [exact Hx | apply String.eqb_refl].
Qed.

Lemma blocks_add_same_options (a : string) (cfg : MainClass) :
  same_options cfg (blocks_add a cfg).
Proof. repeat split. Qed.

Lemma parse_args_legal (args : list string) :
  forallb (fun a => negb (illegal_block_name a)) args = true ->
  forall cfg w, exists cfg',
    parse_args args cfg w = Proceed cfg' w /\
    same_options cfg cfg' /\
    (forall b, In b (_blocks cfg') <-> In b (_blocks cfg) \/ In b args) /\
    (NoDup (_blocks cfg) -> NoDup (_blocks cfg')).
Proof.
  induction args as [|a rest IH]; intros Hall cfg w.
  - exists cfg. cbn. repeat split; auto. tauto.
  - cbn [forallb] in Hall. apply andb_prop in Hall. destruct Hall as [Ha Hrest].
    apply negb_true_iff in Ha. cbn [parse_args]. rewrite Ha.
    destruct (IH Hrest (blocks_add a cfg) w) as (cfg' & Hrun & Hsame & Hin & Hnd).
    exists cfg'. split; [exact Hrun|]. split; [|split].
    + unfold same_options in *. cbn [blocks_add _interval _pidfile _daemonize
        _outform _server _server_port] in Hsame. exact Hsame.
    + intro b. rewrite Hin, blocks_add_in. cbn [In]. intuition congruence.
    + intro H. apply Hnd. now apply blocks_add_NoDup.
Qed.

Lemma parse_args_illegal (args : list string) :
  existsb illegal_block_name args = true ->
  forall cfg w, exists before a after,
    args = (before ++ a :: after)%list /\
    forallb (fun b => negb (illegal_block_name b)) before = true /\
    illegal_block_name a = true /\
    parse_args args cfg w = Exit 2 (error (illegal_argument_message a) w).
Proof.
  induction args as [|a rest IH]; intros Hex cfg w; [discriminate|].
  cbn [parse_args]. destruct (illegal_block_name a) eqn:Ha.
  - exists [], a, rest. split; [reflexivity|]. split; [reflexivity|].
    split; [exact Ha | reflexivity].
  - cbn [existsb] in Hex. rewrite Ha in Hex.
    destruct (IH Hex (blocks_add a cfg) w)
      as (before & bad & after & Hargs & Hlegal & Hbad & Hrun).
    exists (a :: before), bad, after. split; [now rewrite Hargs|].
    split; [cbn [forallb]; now rewrite Ha, Hlegal|]. auto.
Qed.

Lemma parse_args_proceeds (args : list string) :
  forall cfg w cfg' w',
    parse_args args cfg w = Proceed cfg' w' ->
    forallb (fun a => negb (illegal_block_name a)) args = true.
Proof.
  induction args as [|a rest IH]; intros cfg w cfg' w' H; [reflexivity|].
  cbn [parse_args] in H. cbn [forallb].
  destruct (illegal_block_name a); [discriminate|]. exact (IH _ _ _ _ H).
Qed.

(** X17.  A positional argument that is empty, [.], [..] or contains a
    slash ends the start-up with status 2 and one error line naming the
    first such argument: the arguments before it are device names, and
    what comes after it is not looked at.  The arguments are checked before
    any of the options [gnu_getopt] has returned is looked at: options
    asking for the help or the version text, or options with a value that
    would be refused, make no difference, and nothing is printed on standard
    output. *)
Theorem illegal_argument_exits_with_2 :
  forall listdir file opts args cfg w,
    existsb illegal_block_name args = true ->
    exists before a after,
      args = (before ++ a :: after)%list /\
      forallb (fun b => negb (illegal_block_name b)) before = true /\
      illegal_block_name a = true /\
      _parse_opts listdir file opts args cfg w =
        Exit 2 (error (illegal_argument_message a) w) /\
      stdout (error (illegal_argument_message a) w) = stdout w /\
      stderr (error (illegal_argument_message a) w) =
        (stderr w ++ [("E: " ++ illegal_argument_message a ++ Py.nl)%string])%list.
Proof.
  intros listdir file opts args cfg w Hex.
  destruct (parse_args_illegal args Hex cfg w)
    as (before & a & after & Hargs & Hlegal & Hbad & Hrun).
  exists before, a, after. unfold _parse_opts. rewrite Hrun.
  repeat split; auto.
  - unfold error. apply log_stdout.
  - unfold error, log. now destruct (loglevel w).
Qed.

Lemma illegal_argument_exits_with_2_witness :
  exists before a after,
    ["sda"; "../etc"; "a/b"] = (before ++ a :: after)%list /\
    forallb (fun b => negb (illegal_block_name b)) before = true /\
    illegal_block_name a = true /\
    _parse_opts [] "blockstatd.py" [("--help", EmptyString)]
      ["sda"; "../etc"; "a/b"] MainClass_initial world0 =
      Exit 2 (error (illegal_argument_message a) world0) /\
    stdout (error (illegal_argument_message a) world0) = [] /\
    stderr (error (illegal_argument_message a) world0) =
      ([] ++ [("E: " ++ illegal_argument_message a ++ Py.nl)%string])%list.
Proof.
  exact (illegal_argument_exits_with_2 [] "blockstatd.py"
           [("--help", EmptyString)] ["sda"; "../etc"; "a/b"] MainClass_initial
           world0 eq_refl).
Defined.

Lemma adds_listed_devices_refl (listdir : list string) (cfg cfg' : MainClass)
    (w w' : World) :
  _blocks cfg' = _blocks cfg -> stdout w' = stdout w ->
  stderr w' = stderr w -> network w' = network w ->
  adds_listed_devices listdir cfg w cfg' w'.
Proof.
  intros Hb Ho He Hn. unfold adds_listed_devices. rewrite Hb. auto 10.
Qed.

Lemma listdir_adds_listed_devices (listdir l : list string) :
  incl l listdir ->
  forall cfg w,
    adds_listed_devices listdir cfg w
      (fold_left (fun c block => blocks_add block c) l cfg) w.
Proof.
  induction l as [|a l IH]; intros Hincl cfg w.
  - now apply adds_listed_devices_refl.
  - cbn [fold_left].
    destruct (IH (fun x Hx => Hincl x (or_intror Hx)) (blocks_add a cfg) w)
      as (H1 & H2 & H3 & H4).
    unfold adds_listed_devices. split; [|split; [|split]]; auto.
    + intros b Hb. apply H1, blocks_add_in. auto.
    + intros b Hb. destruct (H2 b Hb) as [Hb' | Hb']; auto.
      apply blocks_add_in in Hb'. destruct Hb' as [-> | Hb']; auto.
      right. apply Hincl. now left.
    + intro Hnd. apply H3. now apply blocks_add_NoDup.
Qed.

Lemma parse_option_adds_listed_devices (listdir : list string)
    (file o a : string) (cfg : MainClass) (w : World) :
  forall cfg' w',
    parse_option listdir file o a cfg w = Proceed cfg' w' ->
    adds_listed_devices listdir cfg w cfg' w'.
Proof.
  intros cfg' w' H. unfold parse_option in H.
  destruct (option_is o "-i" "--interval").
  { destruct (Py.int a); inversion H; subst.
    now apply adds_listed_devices_refl. }
  destruct (option_is o "-p" "--pidfile").
  { destruct (negb _); inversion H; subst. now apply adds_listed_devices_refl. }
  destruct (option_is o "-o" "--output").
  { destruct (OutForm_of_value a); inversion H; subst.
    now apply adds_listed_devices_refl. }
  destruct (option_is o "-s" "--server").
  { destruct (Py.rsplit1 ":" a) as [|server [|port rest]]; [discriminate| |].
    - inversion H; subst. now apply adds_listed_devices_refl.
    - destruct (Py.int port); inversion H; subst.
      now apply adds_listed_devices_refl. }
  destruct (option_is o "-D" "--daemonize").
  { inversion H; subst. now apply adds_listed_devices_refl. }
  destruct (option_is o "-a" "--all").
  { inversion H; subst. apply listdir_adds_listed_devices. apply incl_refl. }
  destruct (option_is o "-v" "--verbose").
  { inversion H; subst. now apply adds_listed_devices_refl. }
  destruct (option_is o "-q" "--quiet").
  { inversion H; subst. now apply adds_listed_devices_refl. }
  destruct (option_is o "-h" "--help"); [discriminate|].
  destruct (option_is o "-V" "--version"); discriminate.
Qed.

Lemma parse_options_adds_listed_devices (listdir : list string) (file : string)
    (opts : list (string * string)) :
  forall cfg w cfg' w',
    parse_options listdir file opts cfg w = Proceed cfg' w' ->
    adds_listed_devices listdir cfg w cfg' w'.
Proof.
  induction opts as [|[o a] rest IH]; intros cfg w cfg' w' H;
    cbn [parse_options] in H.
  - inversion H; subst. now apply adds_listed_devices_refl.
  - destruct (parse_option listdir file o a cfg w) as [cfg1 w1| |] eqn:E;
      try discriminate.
    destruct (parse_option_adds_listed_devices _ _ _ _ _ _ _ _ E)
      as (A1 & A2 & A3 & A4 & A5 & A6).
    destruct (IH _ _ _ _ H) as (B1 & B2 & B3 & B4 & B5 & B6).
    unfold adds_listed_devices.
    split; [|split; [|split; [|split; [|split]]]]; auto; try congruence.
    intros b Hb. destruct (B2 b Hb); auto.
Qed.

(** X18.  When [_parse_opts] lets the start-up go on, every positional
    argument was a plain name (not empty, not [.] or [..], without a slash)
    and is now tracked; every tracked device was tracked before, named as an
    argument, or listed in [/sys/block] for the all-devices option; no device
    is tracked twice however often it is named; and nothing has been printed
    on either stream. *)
Theorem parsed_devices_are_named_or_listed :
  forall listdir file opts args cfg w cfg' w',
    _parse_opts listdir file opts args cfg w = Proceed cfg' w' ->
    forallb (fun a => negb (illegal_block_name a)) args = true /\
    (forall b, In b args -> In b (_blocks cfg')) /\
    (forall b, In b (_blocks cfg') ->
       In b (_blocks cfg) \/ In b args \/ In b listdir) /\
    (NoDup (_blocks cfg) -> NoDup (_blocks cfg')) /\
    stdout w' = stdout w /\ stderr w' = stderr w.
Proof.
  intros listdir file opts args cfg w cfg' w' H. unfold _parse_opts in H.
  destruct (parse_args args cfg w) as [cfg1 w1| |] eqn:E; try discriminate.
  pose proof (parse_args_proceeds _ _ _ _ _ E) as Hlegal.
  destruct (parse_args_legal args Hlegal cfg w) as (cfg1' & E' & _ & Hin & Hnd).
  rewrite E in E'. inversion E'; subst cfg1' w1; clear E'.
  destruct (parse_options_adds_listed_devices _ _ _ _ _ _ _ H)
    as (B1 & B2 & B3 & B4 & B5 & _).
  split; [exact Hlegal|]. split; [|split; [|split; [|split]]]; auto.
  - intros b Hb. apply B1, Hin. auto.
  - intros b Hb. destruct (B2 b Hb) as [Hb' | Hb']; auto.
    apply Hin in Hb'. tauto.
Qed.

Lemma parsed_devices_are_named_or_listed_witness :
  _parse_opts ["sda"; "loop0"] "blockstatd.py" [("-a", EmptyString)] ["sda"]
    MainClass_initial world0
  = Proceed (fold_left (fun c block => blocks_add block c) ["sda"; "loop0"]
               (blocks_add "sda" MainClass_initial)) world0 /\
  In "sda" (_blocks
              (fold_left (fun c block => blocks_add block c) ["sda"; "loop0"]
                 (blocks_add "sda" MainClass_initial))) /\
  NoDup (_blocks
           (fold_left (fun c block => blocks_add block c) ["sda"; "loop0"]
              (blocks_add "sda" MainClass_initial))).
Proof.
  destruct (parsed_devices_are_named_or_listed ["sda"; "loop0"] "blockstatd.py"
              [("-a", EmptyString)] ["sda"] MainClass_initial world0
              (fold_left (fun c block => blocks_add block c) ["sda"; "loop0"]
                 (blocks_add "sda" MainClass_initial))
              world0 eq_refl) as (_ & Hin & _ & Hnd & _).
  split; [reflexivity|]. split.
  - apply Hin. left. reflexivity.
  - apply Hnd. constructor.
Defined.

(** ** Verbosity and the log level *)

Lemma more_verbose_value (l : LogLevel) :
  LogLevel_value (more_verbose l) = Z.min 3 (LogLevel_value l + 1).
Proof. now destruct l. Qed.

Lemma less_verbose_value (l : LogLevel) :
  LogLevel_value (less_verbose l) = Z.max 0 (LogLevel_value l - 1).
Proof. now destruct l. Qed.

Lemma LogLevel_value_range (l : LogLevel) : 0 <= LogLevel_value l <= 3.
Proof. destruct l; cbn; lia. Qed.

(** X19.  Verbosity options saturate: [n] options [-v] raise the log level
    by [n] steps but not above [debug], [n] options [-q] lower it by [n]
    steps but not below [error]; they change nothing else and print
    nothing. *)
Theorem verbosity_options_saturate :
  forall listdir file n cfg w,
    (exists w',
        parse_options listdir file (repeat ("-v", EmptyString) n) cfg w =
          Proceed cfg w' /\
        LogLevel_value (loglevel w') =
          Z.min 3 (LogLevel_value (loglevel w) + Z.of_nat n) /\
        stdout w' = stdout w /\ stderr w' = stderr w) /\
    (exists w',
        parse_options listdir file (repeat ("-q", EmptyString) n) cfg w =
          Proceed cfg w' /\
        LogLevel_value (loglevel w') =
          Z.max 0 (LogLevel_value (loglevel w) - Z.of_nat n) /\
        stdout w' = stdout w /\ stderr w' = stderr w).
Proof.
  intros listdir file n cfg.
  induction n as [|n IH]; intro w.
  - pose proof (LogLevel_value_range (loglevel w)).
    split; exists w; cbn [repeat parse_options]; repeat split; lia.
  - split.
    + destruct (proj1 (IH (set_loglevel (more_verbose (loglevel w)) w)))
        as (w' & Hrun & Hval & Hout & Herr).
      exists w'. split; [exact Hrun|]. split; [|auto].
      rewrite Hval. cbn [set_loglevel loglevel]. rewrite more_verbose_value.
      pose proof (LogLevel_value_range (loglevel w)). lia.
    + destruct (proj2 (IH (set_loglevel (less_verbose (loglevel w)) w)))
        as (w' & Hrun & Hval & Hout & Herr).
      exists w'. split; [exact Hrun|]. split; [|auto].
      rewrite Hval. cbn [set_loglevel loglevel]. rewrite less_verbose_value.
      pose proof (LogLevel_value_range (loglevel w)). lia.
Qed.

(** X20.  An error line is written whatever the log level, so no number
    of [-q] options silences it; at the lowest level, [error], the lines of
    [warn], [info] and [debug] are dropped, and at the highest, [debug],
    every line is written.  No logging function writes to standard
    output. *)
Theorem error_lines_are_always_written :
  forall msg w,
    stderr (error msg w) = (stderr w ++ [("E: " ++ msg ++ Py.nl)%string])%list /\
    warn msg (set_loglevel error_level w) = set_loglevel error_level w /\
    info msg (set_loglevel error_level w) = set_loglevel error_level w /\
    debug msg (set_loglevel error_level w) = set_loglevel error_level w /\
    stderr (debug msg (set_loglevel debug_level w)) =
      (stderr w ++ [("D: " ++ msg ++ Py.nl)%string])%list /\
    (forall lvl, stdout (log lvl msg w) = stdout w).
Proof.
  intros msg w. split; [|repeat split].
  - unfold error, log. now destruct (loglevel w).
  - intro lvl. apply log_stdout.
Qed.

(** ** [MainClass._set_default_opts] and the choice of the pipeline *)

(** X21.  When [_set_default_opts] lets the start-up go on, the
    configuration is complete: interval, daemonize flag, port and output
    form are set, to the value given or to the default (60 seconds, no
    fork, port 2003, graphite exactly when a server was given); there is at
    least one device; a graphite output has its server, so that [main] finds
    a formatter and a buffer.  Given values are never overridden, and nothing
    is logged. *)
Theorem defaults_complete_the_configuration :
  forall cfg w cfg' w',
    _set_default_opts cfg w = Proceed cfg' w' ->
    w' = w /\ _blocks cfg' = _blocks cfg /\ _blocks cfg' <> [] /\
    _pidfile cfg' = _pidfile cfg /\ _server cfg' = _server cfg /\
    _interval cfg' =
      Some (match _interval cfg with Some n => n | None => 60 end) /\
    _daemonize cfg' =
      Some (match _daemonize cfg with Some b => b | None => false end) /\
    _server_port cfg' =
      Some (match _server_port cfg with Some n => n | None => 2003 end) /\
    _outform cfg' =
      Some (match _outform cfg, _server cfg with
            | Some f, _ => f
            | None, Some _ => graphite
            | None, None => human
            end) /\
    main_pipeline cfg' <> None.
Proof.
  intros [blocks [i|] p [d|] [[|]|] [s|] [sp|]] w cfg' w' H;
    cbv [_set_default_opts set_interval set_daemonize set_server_port
         set_outform _interval _daemonize _server_port _outform _server _blocks
         _pidfile] in H;
    destruct blocks as [|b blocks]; try discriminate;
    inversion H; subst; cbn; repeat split; discriminate.
Qed.

Lemma defaults_complete_the_configuration_witness :
  _interval (mk_MainClass ["sda"] (Some 60) None (Some false) (Some human) None
               (Some 2003)) = Some 60 /\
  main_pipeline (mk_MainClass ["sda"] (Some 60) None (Some false) (Some human)
                   None (Some 2003)) <> None.
Proof.
  destruct (defaults_complete_the_configuration
              (mk_MainClass ["sda"] None None None None None None) world0
              (mk_MainClass ["sda"] (Some 60) None (Some false) (Some human)
                 None (Some 2003))
              world0 eq_refl) as (_ & _ & _ & _ & _ & Hi & _ & _ & _ & Hp).
  exact (conj Hi Hp).
Defined.

(** X22.  [_set_default_opts] ends the start-up with status 2 and one
    error line when no device is tracked, or when the graphite output was
    asked for and no server given; nothing goes to standard output. *)
Theorem defaults_refuse_incomplete_configuration :
  forall cfg w,
    _blocks cfg = [] \/ (_outform cfg = Some graphite /\ _server cfg = None) ->
    exists msg,
      _set_default_opts cfg w = Exit 2 (error msg w) /\
      stdout (error msg w) = stdout w /\
      stderr (error msg w) = (stderr w ++ [("E: " ++ msg ++ Py.nl)%string])%list.
Proof.
  intros [blocks [i|] p [d|] [[|]|] [s|] [sp|]] w [H | [H1 H2]];
    cbn [_blocks _outform _server] in *; subst; try discriminate;
    eexists; (split; [reflexivity|]); unfold error, log;
    destruct (loglevel w); split; reflexivity.
Qed.

Lemma defaults_refuse_incomplete_configuration_witness :
  exists msg,
    _set_default_opts
      (mk_MainClass ["sda"] None None None (Some graphite) None None) world0 =
      Exit 2 (error msg world0) /\
    stdout (error msg world0) = [] /\
    stderr (error msg world0) = ([] ++ [("E: " ++ msg ++ Py.nl)%string])%list.
Proof.
  exact (defaults_refuse_incomplete_configuration
           (mk_MainClass ["sda"] None None None (Some graphite) None None)
           world0 (or_intror (conj eq_refl eq_refl))).
Defined.

(** X23.  From the command line to the pipeline.  With plain device names
    as arguments and no option, the start-up builds the human formatter on a
    standard-output buffer; with a server option (no port) as the only
    option it builds the graphite formatter on a graphite buffer for that
    server and port 2003.  In both cases the interval is 60 seconds and one
    new sample is made per tracked device, the tracked devices being exactly
    the arguments. *)
Theorem pipeline_follows_the_server_option :
  forall listdir file server args w,
    args <> [] ->
    forallb (fun a => negb (illegal_block_name a)) args = true ->
    Py.contains ":" server = false ->
    (exists cfg1 cfg2,
        _parse_opts listdir file [] args MainClass_initial w = Proceed cfg1 w /\
        _set_default_opts cfg1 w = Proceed cfg2 w /\
        main_pipeline cfg2 =
          Some (HumanOutput, new_buffer StdoutBuffer,
                map new_BlockStat (_blocks cfg2)) /\
        _interval cfg2 = Some 60 /\
        (forall b, In b (_blocks cfg2) <-> In b args)) /\
    (exists cfg1 cfg2,
        _parse_opts listdir file [("-s", server)] args MainClass_initial w =
          Proceed cfg1 w /\
        _set_default_opts cfg1 w = Proceed cfg2 w /\
        main_pipeline cfg2 =
          Some (GraphiteOutput, new_buffer (GraphiteBuffer server 2003),
                map new_BlockStat (_blocks cfg2)) /\
        _interval cfg2 = Some 60 /\
        (forall b, In b (_blocks cfg2) <-> In b args)).
Proof.
  intros listdir file server args w Hne Hlegal Hserver.
  destruct (parse_args_legal args Hlegal MainClass_initial w)
    as (cfg & Hrun & Hsame & Hin & _).
  assert (Hblocks : forall b, In b (_blocks cfg) <-> In b args).
  { intro b. rewrite Hin. cbn. tauto. }
  destruct cfg as [blocks i p d o s sp].
  destruct Hsame as (Hi & Hp & Hd & Ho & Hs & Hsp).
  cbn [_interval _pidfile _daemonize _outform _server _server_port
       MainClass_initial] in *. subst.
  destruct blocks as [|b blocks].
  { destruct args as [|a args]; [congruence|].
    destruct (proj2 (Hblocks a) (or_introl eq_refl)). }
  split.
  - do 2 eexists. unfold _parse_opts. rewrite Hrun. cbn [parse_options].
    split; [reflexivity|]. split; [reflexivity|].
    split; [reflexivity|]. split; [reflexivity | exact Hblocks].
  - do 2 eexists. unfold _parse_opts. rewrite Hrun. cbn [parse_options].
    rewrite (parse_option_server _ _ _ _ _ _ (or_introl eq_refl)).
    unfold Py.rsplit1. rewrite (rpartition_none _ _ Hserver).
    split; [reflexivity|]. split; [reflexivity|].
    split; [reflexivity|]. split; [reflexivity | exact Hblocks].
Qed.

Lemma pipeline_follows_the_server_option_witness :
  exists cfg1 cfg2,
    _parse_opts [] "blockstatd.py" [("-s", "graphite")] ["sda"; "sdb"]
      MainClass_initial world0 = Proceed cfg1 world0 /\
    _set_default_opts cfg1 world0 = Proceed cfg2 world0 /\
    main_pipeline cfg2 =
      Some (GraphiteOutput, new_buffer (GraphiteBuffer "graphite" 2003),
            map new_BlockStat (_blocks cfg2)) /\
    _interval cfg2 = Some 60 /\
    (forall b, In b (_blocks cfg2) <-> In b ["sda"; "sdb"]).
Proof.
  exact (proj2 (pipeline_follows_the_server_option [] "blockstatd.py" "graphite"
                  ["sda"; "sdb"] world0
                  (fun H => match H in (_ = l) return
                                    match l with [] => False | _ => True end
                            with eq_refl => I end)
                  eq_refl eq_refl)).
Defined.

(** ** [MainClass._parse_opts]: interval and output form *)

(** X24.  The interval option takes whatever [int] converts and checks
    nothing more: every integer written by [str] is read back and stored,
    zero and negative ones included; an argument [int] refuses ends the
    start-up with status 2 and one error line. *)
Theorem interval_option_takes_any_integer :
  forall listdir file o a n cfg w,
    o = "-i" \/ o = "--interval" ->
    parse_option listdir file o (Py.str n) cfg w =
      Proceed (set_interval cfg n) w /\
    (raises (Py.int a) ->
     parse_option listdir file o a cfg w =
       Exit 2 (error "Illegal interval, must be integer (seconds)." w)).
Proof.
  intros listdir file o a n cfg w [-> | ->];
    (split;
     [cbn [parse_option option_is String.eqb Ascii.eqb Bool.eqb orb];
      now rewrite int_str
     |intros [e He];
      cbn [parse_option option_is String.eqb Ascii.eqb Bool.eqb orb];
      now rewrite He]).
Qed.

Lemma interval_option_takes_any_integer_witness :
  parse_option [] "blockstatd.py" "-i" "-5" MainClass_initial world0 =
    Proceed (set_interval MainClass_initial (-5)) world0 /\
  parse_option [] "blockstatd.py" "-i" "1.5" MainClass_initial world0 =
    Exit 2 (error "Illegal interval, must be integer (seconds)." world0).
Proof.
  destruct (interval_option_takes_any_integer [] "blockstatd.py" "-i" "1.5" (-5)
              MainClass_initial world0 (or_introl eq_refl)) as [H1 H2].
  split; [exact H1 | apply H2; exists ValueError; reflexivity].
Defined.

(** X25.  The output option accepts exactly the values of [OutForm]: the
    value of a member selects that member, and any other text ends the
    start-up with status 2 and one error line. *)
Theorem output_option_accepts_the_two_forms :
  forall listdir file o a cfg w,
    o = "-o" \/ o = "--output" ->
    (forall f, parse_option listdir file o (OutForm_value f) cfg w =
               Proceed (set_outform cfg f) w) /\
    (a <> "graphite" -> a <> "human" ->
     parse_option listdir file o a cfg w =
       Exit 2 (error "Unrecognized output form, see help for details." w)).
Proof.
  intros listdir file o a cfg w [-> | ->];
    (split; [intros [|]; reflexivity|]);
    intros Hg Hh;
    cbn [parse_option option_is String.eqb Ascii.eqb Bool.eqb orb];
    unfold OutForm_of_value, OutForm_value;
    apply String.eqb_neq in Hg; apply String.eqb_neq in Hh;
    now rewrite Hg, Hh.
Qed.

Lemma output_option_accepts_the_two_forms_witness :
  parse_option [] "blockstatd.py" "--output" "graphite" MainClass_initial world0 =
    Proceed (set_outform MainClass_initial graphite) world0 /\
  parse_option [] "blockstatd.py" "--output" "Human" MainClass_initial world0 =
    Exit 2 (error "Unrecognized output form, see help for details." world0).
Proof.
  destruct (output_option_accepts_the_two_forms [] "blockstatd.py" "--output"
              "Human" MainClass_initial world0 (or_intror eq_refl)) as [H1 H2].
  split; [exact (H1 graphite) | apply H2; discriminate].
Defined.

(** ** The human pipeline, from the stat file to standard output *)

Lemma sendto_items_human (host : Host) (the_time : timeval) (block : string)
    (dt : Datetime.datetime) (items : dict) :
  Datetime.fromtimestamp (utcoffset host) (time_seconds the_time) = Ok dt ->
  forall send_buffer,
    sendto_items HumanOutput host the_time block items send_buffer =
      Ok (fold_left put (map (human_line (Datetime.strftime dt) block) items)
            send_buffer).
Proof.
  intro Hdt.
  induction items as [|[stat_type stat] rest IH]; intro send_buffer;
    [reflexivity|].
  cbn [sendto_items send map fold_left].
  rewrite (human_send_line _ _ _ _ _ _ _ Hdt). cbn [bind]. apply IH.
Qed.

Lemma puts_keep_class (lines : list string) :
  forall b, class_of (fold_left put lines b) = class_of b.
Proof.
  induction lines as [|l lines IH]; intro b; [reflexivity|].
  cbn [fold_left]. now rewrite IH.
Qed.

(** X26.  The human pipeline end to end, for one device.  In every turn
    in which the stat file holds eleven decimal fields and the clock reading
    has a local date, the loop prints one batch: the eleven lines
    [<time> <device>[<counter>]: <value>] in enumeration order with the
    values of the file, each ended by a line feed.  When the sleep after
    every turn returns, which needs an interval that is not negative, the
    loop keeps running, the buffer is empty after every turn, and nothing is
    logged. *)
Theorem human_loop_prints_the_counters :
  forall interval cycles self w,
    keys_in_order (_stats self) ->
    Forall (good_turn (_block self)) cycles ->
    sleeps_through interval cycles = true ->
    exists self' w',
      _do_metrics interval cycles HumanOutput (new_buffer StdoutBuffer) [self] w =
        Running [self'] (new_buffer StdoutBuffer) w' /\
      stdout w' = (stdout w ++ map (turn_batch (_block self)) cycles)%list /\
      stderr w' = stderr w /\ _block self' = _block self.
Proof.
  intro interval.
  induction cycles as [|c later IH]; intros self w Hkeys Hgood Hsleep.
  - exists self, w. cbn. now rewrite app_nil_r.
  - inversion Hgood as [|c0 l0 Hc Hlater]; subst.
    cbn [sleeps_through forallb] in Hsleep.
    destruct (sleep (clock_nanosleep c) interval) as [[]|e] eqn:Esleep;
      [|discriminate].
    cbn [andb] in Hsleep. fold (sleeps_through interval later) in Hsleep.
    destruct Hc as (lead & first & more & trail & dt & Hlead & Htrail & Hfirst &
                    Hmore & Hlen & Hopen & Hdt).
    cbn [_do_metrics collect_all]. rewrite Esleep.
    rewrite (collect_decimal_fields _ _ _ _ _ _ _ Hlead Htrail Hfirst Hmore
               ltac:(lia) Hkeys Hopen).
    assert (Hturn : turn_batch (_block self) c =
                    String.concat Py.nl
                      (map (human_line (Datetime.strftime dt) (_block self))
                         (combine StatType_members
                            (map decimal_value (first :: map snd more)))) ++
                    Py.nl).
    { unfold turn_batch. rewrite Hopen, Hdt.
      now rewrite (record_fields_stat_record _ _ _ _ Hlead Htrail Hfirst Hmore). }
    cbn [map]. rewrite Hturn. clear Hturn.
    do 10 (destruct more as [|[? ?] more]; [discriminate|]).
    destruct more; [clear Hlen | discriminate].
    cbn [sendto_all map snd firstn]. unfold sendto.
    cbn [_time _block _stats].
    rewrite (sendto_items_human (host c) (TInt (time_time (env_of c 0%nat)))
               (_block self) dt _ Hdt).
    cbn [bind flush].
    match goal with
    | |- context [fold_left put ?lines (new_buffer StdoutBuffer)] =>
        set (batch := lines)
    end.
    assert (Hbatch : get_messages (fold_left put batch (new_buffer StdoutBuffer)) =
                     String.concat Py.nl batch).
    { unfold batch. cbn [combine map StatType_members].
      now apply puts_into_new_buffer. }
    assert (Hclass : class_of (fold_left put batch (new_buffer StdoutBuffer)) =
                     StdoutBuffer).
    { apply puts_keep_class. }
    unfold flush. rewrite Hclass. unfold StdoutBuffer_flush.
    match goal with
    | |- context [_do_metrics interval later _ _ [?s1] ?w1] =>
        destruct (IH s1 w1) as (self' & w' & Hrun & Hout & Herr & Hblock)
    end.
    + exists 11%nat. reflexivity.
    + exact Hlater.
    + exact Hsleep.
    + cbn [_block] in *. exists self', w'. split; [|split; [|split]].
      * unfold clear. rewrite Hclass. exact Hrun.
      * rewrite Hout. cbn [print stdout map]. fold (get_messages (fold_left put batch (new_buffer StdoutBuffer))).
        rewrite Hbatch, <- app_assoc. reflexivity.
      * rewrite Herr. reflexivity.
      * exact Hblock.
Qed.

Lemma steady_turn_is_good : good_turn "sda" steady_turn.
Proof.
  exists "    ", "4096", sda_more, Py.nl, (Datetime.mk_datetime 2001 9 9 1 46 40).
  repeat split.
Defined.

Lemma human_loop_prints_the_counters_witness :
  exists self' w',
    _do_metrics 60 [steady_turn; steady_turn] HumanOutput
      (new_buffer StdoutBuffer) [new_BlockStat "sda"] world0 =
      Running [self'] (new_buffer StdoutBuffer) w' /\
    stdout w' = ([] ++ map (turn_batch "sda") [steady_turn; steady_turn])%list /\
    stderr w' = [] /\ _block self' = "sda".
Proof.
  exact (human_loop_prints_the_counters 60 [steady_turn; steady_turn]
           (new_BlockStat "sda") world0 (ex_intro _ 0%nat eq_refl)
           (Forall_cons _ steady_turn_is_good
              (Forall_cons _ steady_turn_is_good (Forall_nil _)))
           eq_refl).
Defined.

(** ** [MainClass._parse_opts]: how the option loop ends *)

Lemma parse_options_app (listdir : list string) (file : string)
    (before after : list (string * string)) :
  forall cfg w,
    parse_options listdir file (before ++ after)%list cfg w =
    match parse_options listdir file before cfg w with
    | Proceed cfg' w' => parse_options listdir file after cfg' w'
    | stop => stop
    end.
Proof.
  induction before as [|[o a] rest IH]; intros cfg w; [reflexivity|].
  cbn [app parse_options].
  destruct (parse_option listdir file o a cfg w); auto.
Qed.

Lemma parse_option_exit (listdir : list string) (file o a : string)
    (cfg : MainClass) (w : World) :
  forall n w',
    parse_option listdir file o a cfg w = Exit n w' ->
    (n = 2 /\ stdout w' = stdout w /\
     exists line, stderr w' = (stderr w ++ [line])%list) \/
    (n = 0 /\ (exists text, stdout w' = (stdout w ++ [text])%list) /\
     (stderr w' = stderr w \/
      exists notice, stderr w' = (stderr w ++ [notice])%list)).
Proof.
  intros n w' H. unfold parse_option in H.
  assert (Herr : forall msg,
             Exit (A := MainClass) 2 (error msg w) = Exit n w' ->
             n = 2 /\ stdout w' = stdout w /\
             exists line, stderr w' = (stderr w ++ [line])%list).
  { intros msg E. inversion E; subst. split; [reflexivity|]. split.
    - apply log_stdout.
    - eexists. unfold error, log. now destruct (loglevel w). }
  destruct (option_is o "-i" "--interval").
  { destruct (Py.int a); [discriminate | left; eauto]. }
  destruct (option_is o "-p" "--pidfile").
  { destruct (negb _); [left; eauto | discriminate]. }
  destruct (option_is o "-o" "--output").
  { destruct (OutForm_of_value a); [discriminate | left; eauto]. }
  destruct (option_is o "-s" "--server").
  { destruct (Py.rsplit1 ":" a) as [|server [|port rest]]; try discriminate.
    destruct (Py.int port); [discriminate | left; eauto]. }
  destruct (option_is o "-D" "--daemonize"); [discriminate|].
  destruct (option_is o "-a" "--all"); [discriminate|].
  destruct (option_is o "-v" "--verbose"); [discriminate|].
  destruct (option_is o "-q" "--quiet"); [discriminate|].
  destruct (option_is o "-h" "--help").
  { inversion H; subst. right. split; [reflexivity|]. split.
    - eexists. reflexivity.
    - left. reflexivity. }
  destruct (option_is o "-V" "--version"); [|discriminate].
  inversion H; subst. right. split; [reflexivity|]. split.
  - eexists. reflexivity.
  - right. eexists. reflexivity.
Qed.

(** X27.  When [_parse_opts] ends the process, the status is 2 or 0.  With
    status 2 exactly one line has been added to the diagnostic stream and
    nothing to standard output; with status 0 (help or version) exactly one
    text has been added to standard output and at most the copyright notice
    to the diagnostic stream.  Options handled before the one that stops
    have printed nothing. *)
Theorem startup_exit_status_and_streams :
  forall listdir file opts args cfg w n w',
    _parse_opts listdir file opts args cfg w = Exit n w' ->
    (n = 2 /\ stdout w' = stdout w /\
     exists line, stderr w' = (stderr w ++ [line])%list) \/
    (n = 0 /\ (exists text, stdout w' = (stdout w ++ [text])%list) /\
     (stderr w' = stderr w \/
      exists notice, stderr w' = (stderr w ++ [notice])%list)).
Proof.
  intros listdir file opts args cfg w n w' H. unfold _parse_opts in H.
  destruct (parse_args args cfg w) as [cfg1 w1| |] eqn:E.
  - assert (Hw : w1 = w).
    { clear H. revert cfg E.
      induction args as [|a rest IH]; intros cfg E; cbn [parse_args] in E.
      - now inversion E.
      - destruct (illegal_block_name a); [discriminate | eauto]. }
    subst w1. clear E. revert cfg1 w H.
    induction opts as [|[o a] rest IH]; intros cfg1 w H;
      cbn [parse_options] in H; [discriminate|].
    destruct (parse_option listdir file o a cfg1 w) as [cfg2 w2| |] eqn:E.
    + destruct (parse_option_adds_listed_devices _ _ _ _ _ _ _ _ E)
        as (_ & _ & _ & Hout & Herr & _).
      rewrite <- Hout, <- Herr. exact (IH _ _ H).
    + inversion H; subst. exact (parse_option_exit _ _ _ _ _ _ _ _ E).
    + discriminate.
  - inversion H; subst. left.
    clear H. revert cfg E.
    induction args as [|a rest IH]; intros cfg E; cbn [parse_args] in E;
      [discriminate|].
    destruct (illegal_block_name a); [|eauto].
    inversion E; subst. split; [reflexivity|]. split.
    + apply log_stdout.
    + eexists. unfold error, log. now destruct (loglevel w).
  - discriminate.
Qed.

Lemma startup_exit_status_and_streams_witness :
  _parse_opts ["sdb"] "blockstatd.py"
    [("-q", EmptyString); ("-a", EmptyString); ("-p", "run/pid");
     ("-h", EmptyString)]
    ["sda"] MainClass_initial world0 =
    Exit 2 (error "PID file paths must be absolute."
              (set_loglevel error_level world0)) /\
  stdout (error "PID file paths must be absolute."
            (set_loglevel error_level world0)) = [] /\
  exists line,
    stderr (error "PID file paths must be absolute."
              (set_loglevel error_level world0)) = [line].
Proof.
  split; [reflexivity|].
  destruct (startup_exit_status_and_streams ["sdb"] "blockstatd.py"
              [("-q", EmptyString); ("-a", EmptyString); ("-p", "run/pid");
               ("-h", EmptyString)]
              ["sda"] MainClass_initial world0 2
              (error "PID file paths must be absolute."
                 (set_loglevel error_level world0))
              eq_refl) as [(_ & Hout & Herr) | (H0 & _)].
  - exact (conj Hout Herr).
  - discriminate H0.
Defined.

(** X28.  The options are handled in the order given and the first that
    stops ends the loop: a help option that follows options that were all
    accepted prints the help text on standard output and ends the process
    with status 0, whatever the options after it are, and writes nothing on
    the diagnostic stream; a version option there prints the version line on
    standard output and the notice on the diagnostic stream. *)
Theorem help_and_version_end_the_parse :
  forall listdir file before a after cfg w cfg1 w1,
    parse_options listdir file before cfg w = Proceed cfg1 w1 ->
    (forall o, o = "-h" \/ o = "--help" ->
       parse_options listdir file (before ++ (o, a) :: after)%list cfg w =
         Exit 0 (_print_help file w1)) /\
    (forall o, o = "-V" \/ o = "--version" ->
       parse_options listdir file (before ++ (o, a) :: after)%list cfg w =
         Exit 0 (_print_copy_notice (_print_version w1))) /\
    stderr (_print_help file w1) = stderr w /\
    stdout (_print_copy_notice (_print_version w1)) =
      (stdout w ++ [(_get_version_string ++ Py.nl)%string])%list.
Proof.
  intros listdir file before a after cfg w cfg1 w1 H.
  destruct (parse_options_adds_listed_devices _ _ _ _ _ _ _ H)
    as (_ & _ & _ & Hout & Herr & _).
  split; [|split; [|split]].
  - intros o [-> | ->]; rewrite parse_options_app, H; reflexivity.
  - intros o [-> | ->]; rewrite parse_options_app, H; reflexivity.
  - cbn [_print_help print stderr]. exact Herr.
  - cbn [_print_copy_notice eprint _print_version print stdout]. now rewrite Hout.
Qed.

Lemma help_and_version_end_the_parse_witness :
  parse_options [] "blockstatd.py"
    [("-i", "5"); ("--help", EmptyString); ("-i", "five")] MainClass_initial world0 =
    Exit 0 (_print_help "blockstatd.py" world0) /\
  stderr (_print_help "blockstatd.py" world0) = [].
Proof.
  destruct (help_and_version_end_the_parse [] "blockstatd.py" [("-i", "5")]
              EmptyString [("-i", "five")] MainClass_initial world0
              (set_interval MainClass_initial 5) world0 eq_refl)
    as (Hh & _ & Herr & _).
  split; [exact (Hh "--help" (or_intror eq_refl)) | exact Herr].
Defined.

(** ** [MainClass._parse_opts]: the option tables and the chain of tests *)





(** ** [MainClass._do_metrics]: the sleep that ends a turn *)

Lemma sleep_negative (clock : Z -> bool) (interval : Z) :
  interval < 0 ->
  sleep clock interval =
    Raise (if interval <? - sleep_max then OverflowError else ValueError).
Proof.
  intro H. unfold sleep.
  destruct (interval <? - sleep_max) eqn:E1; cbn [orb]; [reflexivity|].
  destruct (sleep_max <? interval) eqn:E2.
  { apply Z.ltb_lt in E2. unfold sleep_max in E2. lia. }
  destruct (interval <? 0) eqn:E3; [reflexivity|].
  apply Z.ltb_ge in E3. lia.
Qed.

(** X30.  The interval option stores a negative integer as it stores any
    other, and the loop sleeps for it after the flush with no handler
    around the sleep: with a negative interval the process ends in its first
    turn, whatever that turn observes.  When the samples were collected and
    formatted, the batch is flushed first and the sleep then raises
    [ValueError], or [OverflowError] for an interval whose nanoseconds do
    not fit 64 bits; a second turn never starts. *)
Theorem negative_interval_ends_the_loop :
  forall interval c later output send_buffer blockstats w listdir file cfg w0,
    interval < 0 ->
    parse_options listdir file [("-i", Py.str interval)] cfg w0 =
      Proceed (set_interval cfg interval) w0 /\
    (exists e w',
        _do_metrics interval (c :: later) output send_buffer blockstats w =
          Terminated e w') /\
    (forall blockstats1 w1 send_buffer1,
        collect_all (env_of c) 0 blockstats w = (Ok tt, blockstats1, w1) ->
        sendto_all (host c) output blockstats1 send_buffer = Ok send_buffer1 ->
        _do_metrics interval (c :: later) output send_buffer blockstats w =
          Terminated
            (if interval <? - sleep_max then OverflowError else ValueError)
            (snd (flush (net c) send_buffer1 w1))).
Proof.
  intros interval c later output send_buffer blockstats w listdir file cfg w0
    Hneg.
  pose proof (sleep_negative (clock_nanosleep c) interval Hneg) as Hsleep.
  split; [|split].
  - cbn [parse_options parse_option option_is String.eqb Ascii.eqb Bool.eqb orb].
    now rewrite int_str.
  - cbn [_do_metrics].
    destruct (collect_all (env_of c) 0 blockstats w) as [[[[]|e] bs1] w1];
      [|eauto].
    destruct (sendto_all (host c) output bs1 send_buffer) as [b1|e]; [|eauto].
    destruct (flush (net c) b1 w1) as [b2 w2]. rewrite Hsleep. eauto.
  - intros blockstats1 w1 send_buffer1 Hcollect Hsend.
    cbn [_do_metrics]. rewrite Hcollect, Hsend.
    destruct (flush (net c) send_buffer1 w1) as [b2 w2]. now rewrite Hsleep.
Qed.

Lemma negative_interval_ends_the_loop_witness :
  parse_options [] "blockstatd.py" [("-i", "-5")] MainClass_initial world0 =
    Proceed (set_interval MainClass_initial (-5)) world0 /\
  exists w',
    _do_metrics (-5) [steady_turn; steady_turn] HumanOutput
      (new_buffer StdoutBuffer) [new_BlockStat "sda"] world0 =
      Terminated ValueError w' /\
    stdout w' = [turn_batch "sda" steady_turn].
Proof.
  destruct (negative_interval_ends_the_loop (-5) steady_turn [steady_turn]
              HumanOutput (new_buffer StdoutBuffer) [new_BlockStat "sda"] world0
              [] "blockstatd.py" MainClass_initial world0 eq_refl)
    as (Hparse & _ & Hrun).
  split; [exact Hparse|].
  eexists. split.
  - exact (Hrun _ _ _ eq_refl eq_refl).
  - reflexivity.
Defined.
